(** * ThingsBoard IoT gateway: the service core

    A shallow embedding of [thingsboard_gateway/gateway/tb_gateway_service.py]
    (class [TBGatewayService]): the device registry and its persistence, the
    ingress consumer [__send_to_storage], the uplink worker
    [__read_data_from_storage], the reconnect branch of the main loop and the
    server-side RPC dispatcher [_rpc_request_handler].

    Python values are modelled by [PyVal]; a Python [dict] is an association
    list that keeps insertion order and has unique keys; methods that mutate
    [self] are functions in a state-and-exception monad over [Service];
    calls on the cloud client are recorded, oldest first, in the field
    [cloud]; log records in the field [log]. *)

From Stdlib Require Import ZArith String Ascii Bool Lia List DecimalString Sorted.
Import ListNotations.

Open Scope string_scope.
Open Scope list_scope.
Open Scope Z_scope.

(** ** Python dictionaries *)

Definition dict (V : Type) : Type := list (string * V).

Module PyDict.
Section Ops.
Context {V : Type}.

(** [d.get(k)] *)
Fixpoint get (d : dict V) (k : string) : option V :=
  match d with
  | [] => None
  | (k', v) :: d' => if String.eqb k' k then Some v else get d' k
  end.

(** [k in d] *)
Definition contains (d : dict V) (k : string) : bool :=
  match get d k with Some _ => true | None => false end.

(** [d[k] = v]: an existing key keeps its position, a new key goes last. *)
Fixpoint set (d : dict V) (k : string) (v : V) : dict V :=
  match d with
  | [] => [(k, v)]
  | (k', v') :: d' =>
      if String.eqb k' k then (k, v) :: d' else (k', v') :: set d' k v
  end.

(** [del d[k]] on a key that is present. *)
Fixpoint remove (d : dict V) (k : string) : dict V :=
  match d with
  | [] => []
  | (k', v') :: d' =>
      if String.eqb k' k then d' else (k', v') :: remove d' k
  end.

(** [list(d)]: the keys in insertion order. *)
Definition keys (d : dict V) : list string := map fst d.

(** [d.update(other)], also [{**d, **other}]. *)
Definition update (d other : dict V) : dict V :=
  fold_left (fun acc kv => set acc (fst kv) (snd kv)) other d.
End Ops.
End PyDict.

(** ** Exceptions and the state monad of the service *)

Inductive Exn : Type :=
| KeyError (key : string)
| AttributeError (msg : string)
| TypeError (msg : string)
| ValueError (msg : string).

(** How a call ends: it returns, it raises, or it never returns (a wait on
    a flag that nothing will clear). *)
Inductive Res (A : Type) : Type :=
| Ok (a : A)
| Raise (e : Exn)
| Hang.
Arguments Ok {A} a.
Arguments Raise {A} e.
Arguments Hang {A}.

(** A computation over a state [S]: how a method ends, and the state it
    leaves; mutations made before an exception persist. *)
Definition M (S A : Type) : Type := S -> Res A * S.

Definition ret {S A} (a : A) : M S A := fun s => (Ok a, s).

Definition raise {S A} (e : Exn) : M S A := fun s => (Raise e, s).

Definition bind {S A B} (m : M S A) (k : A -> M S B) : M S B :=
  fun s => match m s with
           | (Ok a, s') => k a s'
           | (Raise e, s') => (Raise e, s')
           | (Hang, s') => (Hang, s')
           end.

(** [try: m  except Exception as e: h e] *)
Definition try_except {S A} (m : M S A) (h : Exn -> M S A) : M S A :=
  fun s => match m s with
           | (Ok a, s') => (Ok a, s')
           | (Raise e, s') => h e s'
           | (Hang, s') => (Hang, s')
           end.

Definition gets {S A} (f : S -> A) : M S A := fun s => (Ok (f s), s).

Definition modify {S} (f : S -> S) : M S unit := fun s => (Ok tt, f s).

Definition when {S} (b : bool) (m : M S unit) : M S unit :=
  if b then m else ret tt.

(** [d[k]] as an expression: [KeyError] when the key is missing. *)
Definition subscript {S V} (d : dict V) (k : string) : M S V :=
  match PyDict.get d k with
  | Some v => ret v
  | None => raise (KeyError k)
  end.

Declare Scope py_scope.
Delimit Scope py_scope with py.
Notation "x <- m ;; k" := (bind m (fun x => k))
  (at level 61, m at next level, right associativity) : py_scope.
Notation "m ;;; k" := (bind m (fun _ => k))
  (at level 61, right associativity) : py_scope.
Open Scope py_scope.

(** [for x in l: body(x)] *)
Fixpoint for_each {S A} (l : list A) (body : A -> M S unit) : M S unit :=
  match l with
  | [] => ret tt
  | x :: l' => body x ;;; for_each l' body
  end.

(** ** Values *)

(** A connector object, as far as the core looks at it: [get_name()], the
    attribute [_connector_type], and which object it is ([id(connector)]). *)
Record Connector : Type := mkConnector {
  get_name : string;
  _connector_type : string;
  object_id : nat
}.

(** [a == b] on connector objects: the connector classes define no
    [__eq__], so two connectors are equal when they are the same object,
    whatever their names and types. *)
Definition Connector_eqb (a b : Connector) : bool :=
  Nat.eqb (object_id a) (object_id b).

#[local] Set Warnings "-register-all".

(** Python values the core handles: JSON data of the events, and connector
    objects held by the registry.  Numbers are integers here; dictionaries
    have string keys. *)
Inductive PyVal : Type :=
| PNone
| PBool (b : bool)
| PInt (z : Z)
| PStr (s : string)
| PList (l : list PyVal)
| PDict (d : list (string * PyVal))
| PObj (c : Connector).

(** [a == b]: numbers by value ([True] is 1 and [False] is 0), strings
    and lists structurally, dictionaries key by key whatever the order of
    the keys, connector objects by identity. *)
Fixpoint PyVal_eqb (a b : PyVal) {struct a} : bool :=
  match a, b with
  | PNone, PNone => true
  | PBool x, PBool y => Bool.eqb x y
  | PBool x, PInt y => Z.eqb (if x then 1 else 0) y
  | PInt x, PBool y => Z.eqb x (if y then 1 else 0)
  | PInt x, PInt y => Z.eqb x y
  | PStr x, PStr y => String.eqb x y
  | PList x, PList y =>
      (fix go (l1 l2 : list PyVal) : bool :=
         match l1, l2 with
         | [], [] => true
         | u :: l1', v :: l2' => PyVal_eqb u v && go l1' l2'
         | _, _ => false
         end) x y
  | PDict x, PDict y =>
      Nat.eqb (length x) (length y)
      && (fix go (l1 : list (string * PyVal)) : bool :=
            match l1 with
            | [] => true
            | (k, u) :: l1' =>
                match find (fun kv => String.eqb (fst kv) k) y with
                | Some (_, v) => PyVal_eqb u v
                | None => false
                end
                && go l1'
            end) x
  | PObj c, PObj d => Connector_eqb c d
  | _, _ => false
  end.

(** [x is None] *)
Definition is_None (v : PyVal) : bool :=
  match v with PNone => true | _ => false end.

(** [bool(x)]: Python truthiness. *)
Definition truthy (v : PyVal) : bool :=
  match v with
  | PNone => false
  | PBool b => b
  | PInt z => negb (Z.eqb z 0)
  | PStr s => negb (String.eqb s EmptyString)
  | PList l => match l with [] => false | _ => true end
  | PDict d => match d with [] => false | _ => true end
  | PObj _ => true
  end.

(** [repr(x)]; strings are taken to hold nothing that [repr] escapes. *)
Fixpoint py_repr (v : PyVal) : string :=
  match v with
  | PNone => "None"
  | PBool true => "True"
  | PBool false => "False"
  | PInt z => NilZero.string_of_int (Z.to_int z)
  | PStr s => "'" ++ s ++ "'"
  | PList l =>
      "[" ++
      match l with
      | [] => EmptyString
      | x :: l' =>
          py_repr x ++
          (fix tail (l : list PyVal) : string :=
             match l with
             | [] => EmptyString
             | y :: l'' => (", " ++ py_repr y ++ tail l'')%string
             end) l'
      end ++ "]"
  | PDict d =>
      "{" ++
      match d with
      | [] => EmptyString
      | (k, x) :: d' =>
          "'" ++ k ++ "': " ++ py_repr x ++
          (fix tail (d : list (string * PyVal)) : string :=
             match d with
             | [] => EmptyString
             | (k', y) :: d'' =>
                 (", '" ++ k' ++ "': " ++ py_repr y ++ tail d'')%string
             end) d'
      end ++ "}"
  | PObj c => "<" ++ get_name c ++ ">"
  end.

(** [str(x)] *)
Definition py_str (v : PyVal) : string :=
  match v with
  | PStr s => s
  | _ => py_repr v
  end.

(** [str(d.items())] *)
Definition py_str_items (d : dict PyVal) : string :=
  "dict_items([" ++
  match d with
  | [] => EmptyString
  | (k, x) :: d' =>
      "('" ++ k ++ "', " ++ py_repr x ++ ")" ++
      (fix tail (d : list (string * PyVal)) : string :=
         match d with
         | [] => EmptyString
         | (k', y) :: d'' =>
             (", ('" ++ k' ++ "', " ++ py_repr y ++ ")" ++ tail d'')%string
         end) d'
  end ++ "])".

(** [d.get(k)] on a dictionary of values: [None] when the key is missing. *)
Definition get_or_None (d : dict PyVal) (k : string) : PyVal :=
  match PyDict.get d k with Some v => v | None => PNone end.

(** ** Persisted registry file *)

(** [connected_devices.json]: empty (just created or truncated), or one JSON
    object from device name to connector name, keys in sorted order. *)
Inductive DevicesFile : Type :=
| FileEmpty
| FileJson (doc : list (string * string)).

Fixpoint insert_sorted (k : string) (v : string) (l : list (string * string))
  : list (string * string) :=
  match l with
  | [] => [(k, v)]
  | (k', v') :: l' =>
      if String.leb k k' then (k, v) :: l else (k', v') :: insert_sorted k v l'
  end.

(** The key order of [dumps(..., sort_keys=True)]. *)
Definition sort_keys (d : dict string) : list (string * string) :=
  fold_right (fun kv acc => insert_sorted (fst kv) (snd kv) acc) [] d.

(** ** Cloud client and log *)

(** What an RPC reply carries: [dumps(result)], or the handler's literal
    template for an exception, [{error: str(e), code: 500}]. *)
Inductive ReplyContent : Type :=
| Dumps (v : PyVal)
| Template500 (err : string).

(** Calls on [tb_client.client], with their arguments. *)
Module Client.
Inductive Call : Type :=
| gw_connect_device (device_name : string) (device_type : PyVal)
| gw_disconnect_device (device_name : string)
| clean_device_sub_dict
| gw_set_server_side_rpc_request_handler
| set_server_side_rpc_request_handler
| subscribe_to_all_attributes
| gw_subscribe_to_all_attributes
| send_attributes (attributes : dict PyVal)
| gw_send_attributes (device : string) (attributes : dict PyVal)
| send_telemetry (telemetry : list PyVal)
| gw_send_telemetry (device : string) (telemetry : list PyVal)
| send_rpc_reply (req_id : Z) (content : ReplyContent)
    (quality_of_service : PyVal)
| gw_send_rpc_reply (device : string) (req_id : Z) (content : ReplyContent)
    (quality_of_service : PyVal).
End Client.

Definition CloudCall : Type := Client.Call.

Inductive LogRecord : Type :=
| log_error (msg : string)
| log_exception (e : Exn).

(** [str(e)] *)
Definition str_of_exn (e : Exn) : string :=
  match e with
  | KeyError k => "'" ++ k ++ "'"
  | AttributeError m => m
  | TypeError m => m
  | ValueError m => m
  end.

(** ** Event storage *)

(** A stored event: the JSON text [dumps(data)], kept as the document it
    encodes, or bytes that [loads] rejects. *)
Inductive Serialized : Type :=
| Dumped (v : PyVal)
| Malformed (raw : string).

Definition dumps (v : PyVal) : Serialized := Dumped v.

Definition loads (s : Serialized) : Res PyVal :=
  match s with
  | Dumped v => Ok v
  | Malformed raw => Raise (ValueError "JSONDecodeError")
  end.

(** Modelled from the spec: the storage backends (memory, file, sqlite) are
    not part of the source file.  Section 4.1: [put] reports acceptance and
    rejects when the capacity is exhausted; [get_event_pack] returns up to
    [pack_size] events and, until the commit, the same pack again;
    [event_pack_processing_done] retires the checked-out pack. *)
Record EventStorage : Type := mkEventStorage {
  stored : list Serialized;
  max_records : nat;
  pack_size : nat
}.

Definition put (e : Serialized) (es : EventStorage) : bool * EventStorage :=
  if (length (stored es) <? max_records es)%nat
  then (true, mkEventStorage (stored es ++ [e]) (max_records es) (pack_size es))
  else (false, es).

Definition get_event_pack (es : EventStorage) : list Serialized :=
  firstn (pack_size es) (stored es).

Definition event_pack_processing_done (es : EventStorage) : EventStorage :=
  mkEventStorage (skipn (pack_size es) (stored es)) (max_records es) (pack_size es).

(** ** Completion tokens and the environment *)

(** What [token.get()] does: it returns a status, or raises. *)
Inductive TokenGet : Type :=
| Returns (rc : Z)
| GetRaises (e : Exn).

(** Modelled from the spec: the token class of the transport is not part of
    the source file.  Section 6: a token's [get()] returns a status, and the
    status [TB_ERR_SUCCESS] denotes an acknowledgement; the constant is
    taken as 0. *)
Definition TB_ERR_SUCCESS : Z := 0.

(** The token a publish returns: the call it stands for and what its
    [get()] will do. *)
Record Token : Type := mkToken {
  published : CloudCall;
  token_get : TokenGet
}.

(** The flags that other threads and the transport change while a worker
    is blocked. *)
Record World : Type := mkWorld {
  w_connected : bool;
  w_in_process : bool;
  w_rpc_reply_sent : bool
}.

(** ** The service object *)

Definition DeviceEntry : Type := dict PyVal.

(** One device of the uplink accumulator:
    [{"telemetry": [...], "attributes": {...}}]. *)
Record DeviceData : Type := mkDeviceData {
  telemetry : list PyVal;
  attributes : dict PyVal
}.

Record Settings : Type := mkSettings {
  name : string;                            (* self.name *)
  available_connectors : dict Connector;
  connectors_configs : dict (list string);  (* connector type to its configuration files *)
  __remote_shell : option (list string);    (* None, or the names in its shell_commands *)
  maxPayloadSizeBytes : option Z;           (* the key of config["thingsboard"], when set *)
  quality_of_service : Z                    (* tb_client.client.quality_of_service *)
}.

Record Service : Type := mkService {
  settings : Settings;   (* attributes that no modelled method assigns *)
  __connected_devices : dict DeviceEntry;
  _saved_devices : dict DeviceEntry;
  _connector_incoming_messages : dict Z;
  connected_devices_json : DevicesFile;   (* content of connected_devices.json *)
  file_writes : nat;   (* times that file was opened for writing *)
  tb_is_connected : bool;   (* tb_client.is_connected() *)
  remote_config_in_process : bool;   (* a remote configurator exists and is in_process *)
  __rpc_reply_sent : bool;
  schedule : list World;   (* the flags after each coming blocking call *)
  token_outcomes : list TokenGet;   (* what the tokens of the coming publishes report *)
  __subscribed_to_rpc_topics : bool;
  _event_storage : EventStorage;
  devices_data_in_event_pack : dict DeviceData;   (* local of the uplink worker *)
  _published_events : list Token;
  counter : Z;
  cloud : list CloudCall;   (* calls on tb_client.client, oldest first *)
  log : list LogRecord   (* error and exception records, oldest first *)
}.

Definition with_connected_devices (f : dict DeviceEntry -> dict DeviceEntry)
  (s : Service) : Service :=
  mkService (settings s) (f (__connected_devices s)) (_saved_devices s)
    (_connector_incoming_messages s) (connected_devices_json s)
    (file_writes s) (tb_is_connected s) (remote_config_in_process s)
    (__rpc_reply_sent s) (schedule s) (token_outcomes s)
    (__subscribed_to_rpc_topics s) (_event_storage s)
    (devices_data_in_event_pack s) (_published_events s) (counter s) (cloud s)
    (log s).

Definition with_saved_devices (f : dict DeviceEntry -> dict DeviceEntry)
  (s : Service) : Service :=
  mkService (settings s) (__connected_devices s) (f (_saved_devices s))
    (_connector_incoming_messages s) (connected_devices_json s)
    (file_writes s) (tb_is_connected s) (remote_config_in_process s)
    (__rpc_reply_sent s) (schedule s) (token_outcomes s)
    (__subscribed_to_rpc_topics s) (_event_storage s)
    (devices_data_in_event_pack s) (_published_events s) (counter s) (cloud s)
    (log s).

Definition with_incoming_messages (f : dict Z -> dict Z)
  (s : Service) : Service :=
  mkService (settings s) (__connected_devices s) (_saved_devices s)
    (f (_connector_incoming_messages s)) (connected_devices_json s)
    (file_writes s) (tb_is_connected s) (remote_config_in_process s)
    (__rpc_reply_sent s) (schedule s) (token_outcomes s)
    (__subscribed_to_rpc_topics s) (_event_storage s)
    (devices_data_in_event_pack s) (_published_events s) (counter s) (cloud s)
    (log s).

(** [open(file, 'w')]: the file is truncated. *)
Definition open_w (s : Service) : Service :=
  mkService (settings s) (__connected_devices s) (_saved_devices s)
    (_connector_incoming_messages s) FileEmpty (S (file_writes s))
    (tb_is_connected s) (remote_config_in_process s) (__rpc_reply_sent s)
    (schedule s) (token_outcomes s) (__subscribed_to_rpc_topics s)
    (_event_storage s) (devices_data_in_event_pack s) (_published_events s)
    (counter s) (cloud s) (log s).

(** [config_file.write(text)] on the file just opened. *)
Definition write_file (content : DevicesFile) (s : Service) : Service :=
  mkService (settings s) (__connected_devices s) (_saved_devices s)
    (_connector_incoming_messages s) content (file_writes s)
    (tb_is_connected s) (remote_config_in_process s) (__rpc_reply_sent s)
    (schedule s) (token_outcomes s) (__subscribed_to_rpc_topics s)
    (_event_storage s) (devices_data_in_event_pack s) (_published_events s)
    (counter s) (cloud s) (log s).

(** The transport gains or loses the connection. *)
Definition set_is_connected (b : bool) (s : Service) : Service :=
  mkService (settings s) (__connected_devices s) (_saved_devices s)
    (_connector_incoming_messages s) (connected_devices_json s)
    (file_writes s) b (remote_config_in_process s) (__rpc_reply_sent s)
    (schedule s) (token_outcomes s) (__subscribed_to_rpc_topics s)
    (_event_storage s) (devices_data_in_event_pack s) (_published_events s)
    (counter s) (cloud s) (log s).

Definition set_rpc_reply_sent (b : bool) (s : Service) : Service :=
  mkService (settings s) (__connected_devices s) (_saved_devices s)
    (_connector_incoming_messages s) (connected_devices_json s)
    (file_writes s) (tb_is_connected s) (remote_config_in_process s) b
    (schedule s) (token_outcomes s) (__subscribed_to_rpc_topics s)
    (_event_storage s) (devices_data_in_event_pack s) (_published_events s)
    (counter s) (cloud s) (log s).

Definition set_subscribed (b : bool) (s : Service) : Service :=
  mkService (settings s) (__connected_devices s) (_saved_devices s)
    (_connector_incoming_messages s) (connected_devices_json s)
    (file_writes s) (tb_is_connected s) (remote_config_in_process s)
    (__rpc_reply_sent s) (schedule s) (token_outcomes s) b (_event_storage s)
    (devices_data_in_event_pack s) (_published_events s) (counter s) (cloud s)
    (log s).

Definition with_event_storage (f : EventStorage -> EventStorage)
  (s : Service) : Service :=
  mkService (settings s) (__connected_devices s) (_saved_devices s)
    (_connector_incoming_messages s) (connected_devices_json s)
    (file_writes s) (tb_is_connected s) (remote_config_in_process s)
    (__rpc_reply_sent s) (schedule s) (token_outcomes s)
    (__subscribed_to_rpc_topics s) (f (_event_storage s))
    (devices_data_in_event_pack s) (_published_events s) (counter s) (cloud s)
    (log s).

Definition with_pack (f : dict DeviceData -> dict DeviceData)
  (s : Service) : Service :=
  mkService (settings s) (__connected_devices s) (_saved_devices s)
    (_connector_incoming_messages s) (connected_devices_json s)
    (file_writes s) (tb_is_connected s) (remote_config_in_process s)
    (__rpc_reply_sent s) (schedule s) (token_outcomes s)
    (__subscribed_to_rpc_topics s) (_event_storage s)
    (f (devices_data_in_event_pack s)) (_published_events s) (counter s)
    (cloud s) (log s).

Definition with_published_events (f : list Token -> list Token)
  (s : Service) : Service :=
  mkService (settings s) (__connected_devices s) (_saved_devices s)
    (_connector_incoming_messages s) (connected_devices_json s)
    (file_writes s) (tb_is_connected s) (remote_config_in_process s)
    (__rpc_reply_sent s) (schedule s) (token_outcomes s)
    (__subscribed_to_rpc_topics s) (_event_storage s)
    (devices_data_in_event_pack s) (f (_published_events s)) (counter s)
    (cloud s) (log s).

Definition with_token_outcomes (f : list TokenGet -> list TokenGet)
  (s : Service) : Service :=
  mkService (settings s) (__connected_devices s) (_saved_devices s)
    (_connector_incoming_messages s) (connected_devices_json s)
    (file_writes s) (tb_is_connected s) (remote_config_in_process s)
    (__rpc_reply_sent s) (schedule s) (f (token_outcomes s))
    (__subscribed_to_rpc_topics s) (_event_storage s)
    (devices_data_in_event_pack s) (_published_events s) (counter s) (cloud s)
    (log s).

Definition with_counter (f : Z -> Z) (s : Service) : Service :=
  mkService (settings s) (__connected_devices s) (_saved_devices s)
    (_connector_incoming_messages s) (connected_devices_json s)
    (file_writes s) (tb_is_connected s) (remote_config_in_process s)
    (__rpc_reply_sent s) (schedule s) (token_outcomes s)
    (__subscribed_to_rpc_topics s) (_event_storage s)
    (devices_data_in_event_pack s) (_published_events s) (f (counter s))
    (cloud s) (log s).

Definition with_cloud (f : list CloudCall -> list CloudCall)
  (s : Service) : Service :=
  mkService (settings s) (__connected_devices s) (_saved_devices s)
    (_connector_incoming_messages s) (connected_devices_json s)
    (file_writes s) (tb_is_connected s) (remote_config_in_process s)
    (__rpc_reply_sent s) (schedule s) (token_outcomes s)
    (__subscribed_to_rpc_topics s) (_event_storage s)
    (devices_data_in_event_pack s) (_published_events s) (counter s)
    (f (cloud s)) (log s).

Definition with_log (f : list LogRecord -> list LogRecord)
  (s : Service) : Service :=
  mkService (settings s) (__connected_devices s) (_saved_devices s)
    (_connector_incoming_messages s) (connected_devices_json s)
    (file_writes s) (tb_is_connected s) (remote_config_in_process s)
    (__rpc_reply_sent s) (schedule s) (token_outcomes s)
    (__subscribed_to_rpc_topics s) (_event_storage s)
    (devices_data_in_event_pack s) (_published_events s) (counter s) (cloud s)
    (f (log s)).

(** The flags take the values of [w]; [rest] is what is still to come. *)
Definition install (w : World) (rest : list World) (s : Service) : Service :=
  mkService (settings s) (__connected_devices s) (_saved_devices s)
    (_connector_incoming_messages s) (connected_devices_json s)
    (file_writes s) (w_connected w) (w_in_process w) (w_rpc_reply_sent w) rest
    (token_outcomes s) (__subscribed_to_rpc_topics s) (_event_storage s)
    (devices_data_in_event_pack s) (_published_events s) (counter s) (cloud s)
    (log s).

(** A call on [tb_client.client] that returns nothing of interest. *)
Definition tb_call (c : CloudCall) : M Service unit :=
  modify (with_cloud (fun l => l ++ [c])).

Definition log_record (r : LogRecord) : M Service unit :=
  modify (with_log (fun l => l ++ [r])).

(** [sleep(...)], and any call that blocks: the other threads and the
    transport move on. *)
Definition sleep : M Service unit :=
  modify (fun s => match schedule s with
                   | [] => s
                   | w :: rest => install w rest s
                   end).

(** ** Device registry *)

(** [entry["connector"].get_name()] behind the test [is not None], as
    [__save_persistent_devices] evaluates them for one device: no name when
    the connector is [None]. *)
Definition connector_name_of (entry : DeviceEntry) : Res (option string) :=
  match PyDict.get entry "connector" with
  | None => Raise (KeyError "connector")
  | Some PNone => Ok None
  | Some (PObj c) => Ok (Some (get_name c))
  | Some _ => Raise (AttributeError "object has no attribute 'get_name'")
  end.

(** The loop that fills [data_to_save]. *)
Fixpoint data_to_save (devices : dict DeviceEntry) (acc : dict string)
  : Res (dict string) :=
  match devices with
  | [] => Ok acc
  | (device, entry) :: rest =>
      match connector_name_of entry with
      | Ok None => data_to_save rest acc
      | Ok (Some n) => data_to_save rest (PyDict.set acc device n)
      | Raise e => Raise e
      | Hang => Hang
      end
  end.

(** [__save_persistent_devices()]: opening the file for writing truncates
    it; an exception while collecting is logged and leaves it empty. *)
Definition __save_persistent_devices : M Service unit :=
  modify open_w ;;;
  devices <- gets __connected_devices ;;
  match data_to_save devices [] with
  | Ok d => modify (write_file (FileJson (sort_keys d)))
  | Raise e => log_record (log_exception e)
  | Hang => ret tt
  end.

(** [add_device(device_name, content, device_type=None)] *)
Definition add_device (device_name : string) (content : DeviceEntry)
  (device_type : PyVal) : M Service unit :=
  saved <- gets _saved_devices ;;
  if negb (PyDict.contains saved device_name) then
    let device_type :=
      if is_None device_type then PStr "default" else device_type in
    let entry := PyDict.set content "device_type" device_type in
    modify (with_connected_devices (fun d => PyDict.set d device_name entry)) ;;;
    modify (with_saved_devices (fun d => PyDict.set d device_name entry)) ;;;
    __save_persistent_devices ;;;
    tb_call (Client.gw_connect_device device_name device_type)
  else ret tt.

(** [update_device(device_name, event, content)] *)
Definition update_device (device_name event : string) (content : PyVal)
  : M Service unit :=
  (if String.eqb event "connector" then
     devices <- gets __connected_devices ;;
     entry <- subscript devices device_name ;;
     when (negb (PyVal_eqb (get_or_None entry event) content))
       __save_persistent_devices
   else ret tt) ;;;
  devices <- gets __connected_devices ;;
  entry <- subscript devices device_name ;;
  modify (with_connected_devices
            (fun d => PyDict.set d device_name (PyDict.set entry event content))).

(** [del self.<field>[k]] *)
Definition del_key (field : Service -> dict DeviceEntry)
  (with_field : (dict DeviceEntry -> dict DeviceEntry) -> Service -> Service)
  (k : string) : M Service unit :=
  d <- gets field ;;
  if PyDict.contains d k
  then modify (with_field (fun d => PyDict.remove d k))
  else raise (KeyError k).

(** [del_device(device_name)] *)
Definition del_device (device_name : string) : M Service unit :=
  del_key __connected_devices with_connected_devices device_name ;;;
  del_key _saved_devices with_saved_devices device_name ;;;
  tb_call (Client.gw_disconnect_device device_name) ;;;
  __save_persistent_devices.

(** [get_devices()] *)
Definition get_devices (s : Service) : dict DeviceEntry := __connected_devices s.

(** ** Connection supervision in the main loop *)

(** [subscribe_to_service_topics()] *)
Definition subscribe_to_service_topics : M Service unit :=
  tb_call Client.clean_device_sub_dict ;;;
  tb_call Client.gw_set_server_side_rpc_request_handler ;;;
  tb_call Client.set_server_side_rpc_request_handler ;;;
  tb_call Client.subscribe_to_all_attributes ;;;
  tb_call Client.gw_subscribe_to_all_attributes.

(** The body of the loop [for device in self._saved_devices] of the
    reconnect branch. *)
Definition readd_saved_device (device : string) : M Service unit :=
  saved <- gets _saved_devices ;;
  entry <- subscript saved device ;;
  connector <- subscript entry "connector" ;;
  saved <- gets _saved_devices ;;
  entry <- subscript saved device ;;
  device_type <- subscript entry "device_type" ;;
  add_device device [("connector", connector)] device_type.

(** The two connection checks that open an iteration of the main loop; the
    result is [sleep_possible]. *)
Definition main_loop_connection_checks : M Service bool :=
  connected <- gets tb_is_connected ;;
  subscribed <- gets __subscribed_to_rpc_topics ;;
  sleep_possible <-
    (if negb connected && subscribed
     then modify (set_subscribed false) ;;; ret false
     else ret true) ;;
  connected <- gets tb_is_connected ;;
  subscribed <- gets __subscribed_to_rpc_topics ;;
  if connected && negb subscribed then
    saved <- gets _saved_devices ;;
    for_each (PyDict.keys saved) readd_saved_device ;;;
    subscribe_to_service_topics ;;;
    modify (set_subscribed true) ;;;
    ret false
  else ret sleep_possible.

(** ** Ingress consumer *)

(** A pure result as a computation. *)
Definition lift {S A} (r : Res A) : M S A := fun s => (r, s).

(** A device name used as a dictionary key.  Device names are strings; a
    name of another type is outside the model. *)
Definition as_key {S} (v : PyVal) : M S string :=
  match v with
  | PStr s => ret s
  | _ => raise (TypeError "device name is not a string")
  end.

Definition section_present (data : dict PyVal) (k : string) : bool :=
  negb (is_None (get_or_None data k)).

(** Modelled from the spec: [TBUtility.validate_converted_data] is not part
    of the source file.  Section 4.3: it requires the presence of
    [deviceName] and of at least one payload section, [telemetry] or
    [attributes]. *)
Definition validate_converted_data (data : dict PyVal) : bool :=
  match PyDict.get data "deviceName" with
  | Some (PStr _) =>
      section_present data "telemetry" || section_present data "attributes"
  | _ => false
  end.

(** [for item in v]: what the loop variable takes. *)
Definition iterate (v : PyVal) : Res (list PyVal) :=
  match v with
  | PList l => Ok l
  | PDict d => Ok (map PStr (PyDict.keys d))
  | PStr s => Ok (map (fun c => PStr (String c EmptyString)) (list_ascii_of_string s))
  | _ => Raise (TypeError "object is not iterable")
  end.

(** The loop over [data["telemetry"]]: bare maps are merged into
    [telemetry], entries with a [ts] are collected in [telemetry_with_ts]. *)
Fixpoint split_telemetry (items : list PyVal) (telemetry : dict PyVal)
  (telemetry_with_ts : list PyVal) : Res (dict PyVal * list PyVal) :=
  match items with
  | [] => Ok (telemetry, telemetry_with_ts)
  | PDict item :: rest =>
      if is_None (get_or_None item "ts")
      then split_telemetry rest (PyDict.update telemetry item) telemetry_with_ts
      else
        match PyDict.get item "values" with
        | None => Raise (KeyError "values")
        | Some (PDict values) =>
            split_telemetry rest telemetry
              (telemetry_with_ts ++
               [PDict [("ts", get_or_None item "ts"); ("values", PDict values)]])
        | Some _ => Raise (TypeError "object is not a mapping")
        end
  | _ :: rest => Raise (AttributeError "object has no attribute 'get'")
  end.

(** Lines 473-483: [data["telemetry"]] replaced by its normal form. *)
Definition normalize_telemetry (now_ms : Z) (data : dict PyVal)
  : Res (dict PyVal) :=
  match PyDict.get data "telemetry" with
  | None => Raise (KeyError "telemetry")
  | Some t =>
      match iterate t with
      | Ok items =>
          match split_telemetry items [] [] with
          | Ok (telemetry, []) =>
              Ok (PyDict.set data "telemetry"
                    (PDict [("ts", PInt now_ms); ("values", PDict telemetry)]))
          | Ok (_, telemetry_with_ts) =>
              Ok (PyDict.set data "telemetry" (PList telemetry_with_ts))
          | Raise e => Raise e
          | Hang => Hang
          end
      | Raise e => Raise e
      | Hang => Hang
      end
  end.

(** How the body of the consumer's loop ends: the loop goes on, or the
    function returns. *)
Inductive Flow : Type :=
| Continue
| Return.

(** The counter update of lines 466-469. *)
Definition count_message (connector_name : string) (m : dict Z) : dict Z :=
  match PyDict.get m connector_name with
  | Some n => if n =? 0 then PyDict.set m connector_name 0
              else PyDict.set m connector_name (n + 1)
  | None => PyDict.set m connector_name 0
  end.

(** Lines 473-490: the telemetry is normalized, the item serialized and
    put; a rejection by the storage is logged. *)
Definition store_item (now_ms : Z) (data : dict PyVal) : M Service unit :=
  data <- lift (normalize_telemetry now_ms data) ;;
  let json_data := dumps (PDict data) in
  es <- gets _event_storage ;;
  let (save_result, es') := put json_data es in
  modify (with_event_storage (fun _ => es')) ;;;
  when (negb save_result)
    (log_record (log_error "Data from the device cannot be saved.")).

(** One pass of the loop of [__send_to_storage] over a queued item
    [(connector_name, data)]; [now_ms] is [int(time() * 1000)]. *)
Definition ingest (now_ms : Z) (connector_name : string) (data : dict PyVal)
  : M Service Flow :=
  try_except
    (self_name <- gets (fun s => name (settings s)) ;;
     checked <-
       (if negb (String.eqb connector_name self_name) then
          if negb (validate_converted_data data) then
            log_record (log_error "Data from connector is invalid.") ;;;
            ret None
          else
            device_name <- (n <- subscript data "deviceName" ;; as_key n) ;;
            devices <- gets get_devices ;;
            connected <- gets tb_is_connected ;;
            (if negb (PyDict.contains devices device_name) && connected then
               connectors <- gets (fun s => available_connectors (settings s)) ;;
               connector <- subscript connectors connector_name ;;
               device_type <- subscript data "deviceType" ;;
               add_device device_name [("connector", PObj connector)] device_type
             else ret tt) ;;;
            modify (with_incoming_messages (count_message connector_name)) ;;;
            ret (Some data)
        else
          ret (Some (PyDict.set data "deviceName"
                       (PStr "currentThingsBoardGateway")))) ;;
     match checked with
     | None => ret Return
     | Some data => store_item now_ms data ;;; ret Continue
     end)
    (fun e => log_record (log_error (str_of_exn e)) ;;; ret Continue).

(** [__send_to_storage()] run on the items in the queue; item [n] is
    processed at time [clock n].  The result tells whether the thread is
    still in its loop, and gives the items left in the queue. *)
Fixpoint __send_to_storage (clock : nat -> Z) (n : nat)
  (queue : list (string * dict PyVal)) (s : Service)
  : Flow * list (string * dict PyVal) * Service :=
  match queue with
  | [] => (Continue, [], s)
  | (connector_name, data) :: rest =>
      match ingest (clock n) connector_name data s with
      | (Ok Continue, s') => __send_to_storage clock (S n) rest s'
      | (_, s') => (Return, rest, s')
      end
  end.

(** ** Uplink worker *)

Section Uplink.

(** [sys.getsizeof] on a [str] object: an interpreter's memory figure. *)
Variable getsizeof : string -> Z.

(** [self._config["thingsboard"].get("maxPayloadSizeBytes", 4096)] *)
Definition max_payload_size (s : Service) : Z :=
  match maxPayloadSizeBytes (settings s) with
  | Some m => m
  | None => 4096
  end.

(** A publish: the call goes out and its token joins
    [_published_events]. *)
Definition publish (c : CloudCall) : M Service unit :=
  outcomes <- gets token_outcomes ;;
  let outcome := match outcomes with
                 | o :: _ => o
                 | [] => Returns TB_ERR_SUCCESS
                 end in
  tb_call c ;;;
  modify (with_token_outcomes (@tl TokenGet)) ;;;
  modify (with_published_events (fun q => q ++ [mkToken c outcome])).

Definition empty_device_data : DeviceData := mkDeviceData [] [].

(** The accumulator as the Python value it is. *)
Definition pack_value (pack : dict DeviceData) : PyVal :=
  PDict (map (fun kv =>
                (fst kv, PDict [("telemetry", PList (telemetry (snd kv)));
                                ("attributes", PDict (attributes (snd kv)))]))
             pack).

(** The body of the loop of [__send_data] for one device. *)
Definition send_device_data (device : string) : M Service unit :=
  pack <- gets devices_data_in_event_pack ;;
  data <- subscript pack device ;;
  self_name <- gets (fun s => name (settings s)) ;;
  let own := String.eqb device self_name
             || String.eqb device "currentThingsBoardGateway" in
  when (truthy (PDict (attributes data)))
    (publish (if own then Client.send_attributes (attributes data)
              else Client.gw_send_attributes device (attributes data))) ;;;
  when (truthy (PList (telemetry data)))
    (publish (if own then Client.send_telemetry (telemetry data)
              else Client.gw_send_telemetry device (telemetry data))) ;;;
  modify (with_pack (fun p => PyDict.set p device empty_device_data)).

(** [__send_data(devices_data_in_event_pack)], on the accumulator of the
    worker. *)
Definition __send_data : M Service unit :=
  try_except
    (pack <- gets devices_data_in_event_pack ;;
     for_each (PyDict.keys pack) send_device_data)
    (fun e => log_record (log_exception e)).

(** [check_size(size, devices_data_in_event_pack)] *)
Definition check_size (size : Z) : M Service Z :=
  limit <- gets max_payload_size ;;
  if size >=? limit then __send_data ;;; ret 0 else ret size.

(** [pack[device]["telemetry"].append(item)] *)
Definition append_telemetry (device : string) (item : PyVal) : M Service unit :=
  pack <- gets devices_data_in_event_pack ;;
  data <- subscript pack device ;;
  modify (with_pack (fun p =>
    PyDict.set p device (mkDeviceData (telemetry data ++ [item]) (attributes data)))).

(** [pack[device]["attributes"].update(items)] *)
Definition update_attributes (device : string) (items : dict PyVal)
  : M Service unit :=
  pack <- gets devices_data_in_event_pack ;;
  data <- subscript pack device ;;
  modify (with_pack (fun p =>
    PyDict.set p device
      (mkDeviceData (telemetry data) (PyDict.update (attributes data) items)))).

(** One telemetry entry: counted, checked, then appended. *)
Definition fold_telemetry (device : string) (size : Z) (item : PyVal)
  : M Service Z :=
  let size := size + (getsizeof (py_str item) - 2) in
  size <- check_size size ;;
  append_telemetry device item ;;;
  ret size.

(** One element of an attributes list. *)
Definition fold_attributes_item (device : string) (size : Z) (item : PyVal)
  : M Service Z :=
  let size := size + (getsizeof (py_str item) - 2) in
  size <- check_size size ;;
  match item with
  | PDict d => update_attributes device d ;;; ret size
  | _ => raise (AttributeError "object has no attribute 'items'")
  end.

(** An attributes object. *)
Definition fold_attributes (device : string) (size : Z) (attrs : PyVal)
  : M Service Z :=
  match attrs with
  | PDict d =>
      let size := size + (getsizeof (py_str_items d) - 2) in
      size <- check_size size ;;
      update_attributes device d ;;;
      ret size
  | _ => raise (AttributeError "object has no attribute 'items'")
  end.

Fixpoint fold_sizes {A} (l : list A) (size : Z) (f : Z -> A -> M Service Z)
  : M Service Z :=
  match l with
  | [] => ret size
  | x :: l' => size <- f size x ;; fold_sizes l' size f
  end.

(** The telemetry and the attributes of an event folded into the
    accumulator of its device (lines 286-309). *)
Definition fold_sections (device : string) (current_event : dict PyVal)
  (size : Z) : M Service Z :=
  size <-
    (let t := get_or_None current_event "telemetry" in
     if truthy t then
       match t with
       | PList items => fold_sizes items size (fold_telemetry device)
       | _ => fold_telemetry device size t
       end
     else ret size) ;;
  (let a := get_or_None current_event "attributes" in
   if truthy a then
     match a with
     | PList items => fold_sizes items size (fold_attributes_item device)
     | _ => fold_attributes device size a
     end
   else ret size).

(** The body of [for event in events] (lines 273-309). *)
Definition fold_event (size : Z) (event : Serialized) : M Service Z :=
  modify (with_counter (fun c => c + 1)) ;;;
  match loads event with
  | Ok (PDict current_event) =>
      device <- (n <- subscript current_event "deviceName" ;; as_key n) ;;
      pack <- gets devices_data_in_event_pack ;;
      when (negb (PyDict.contains pack device))
        (modify (with_pack (fun p => PyDict.set p device empty_device_data))) ;;;
      fold_sections device current_event size
  | Ok _ => raise (TypeError "event is not an object")
  | Raise e => log_record (log_exception e) ;;; ret size
  | Hang => ret size
  end.

(** [while self.__rpc_reply_sent: sleep(.01)] *)
Fixpoint wait_rpc_reply_sent (coming : list World) (s : Service)
  : Res unit * Service :=
  if __rpc_reply_sent s then
    match coming with
    | [] => (Hang, s)
    | w :: rest => wait_rpc_reply_sent rest (install w rest s)
    end
  else (Ok tt, s).

(** [event.get()] on a completion token: the call blocks until the
    transport has the outcome. *)
Definition token_wait (event : Token) : M Service Z :=
  sleep ;;;
  match token_get event with
  | Returns rc => ret rc
  | GetRaises e => raise e
  end.

(** The loop [while not self._published_events.empty()] (lines 323-343),
    run on the tokens [queue] of [_published_events]; the result is the
    value of [success] when the loop is left.  Taking a token from the
    queue, waiting on it and sleeping are the points where the other
    threads and the transport move on. *)
Fixpoint drain_published_events (queue : list Token) (success : bool)
  : M Service bool :=
  match queue with
  | [] => ret success
  | event :: rest =>
      in_process <- gets remote_config_in_process ;;
      connected <- gets tb_is_connected ;;
      reply_sent <- gets __rpc_reply_sent ;;
      if in_process || negb connected || reply_sent then ret false
      else
        modify (with_published_events (fun _ => rest)) ;;;
        sleep ;;;
        step <-
          try_except
            (connected <- gets tb_is_connected ;;
             in_process <- gets remote_config_in_process ;;
             if connected && negb in_process then
               qos <- gets (fun s => quality_of_service (settings s)) ;;
               if qos =? 1 then
                 rc <- token_wait event ;;
                 ret (Some (rc =? TB_ERR_SUCCESS))
               else ret (Some true)
             else ret None)
            (fun e => log_record (log_exception e) ;;; ret (Some false)) ;;
        match step with
        | None => ret success
        | Some success => sleep ;;; drain_published_events rest success
        end
  end.

(** Lines 320-347: the drain and the commit that follows it. *)
Definition drain_and_commit : M Service unit :=
  connected <- gets tb_is_connected ;;
  in_process <- gets remote_config_in_process ;;
  if connected && negb in_process then
    queue <- gets _published_events ;;
    success <- drain_published_events queue true ;;
    when success
      (modify (with_event_storage event_pack_processing_done) ;;;
       modify (with_pack (fun _ => [])))
  else ret tt.

(** One pass of the loop [while not self.stopped] of
    [__read_data_from_storage]. *)
Definition read_data_from_storage_pass : M Service unit :=
  try_except
    (connected <- gets tb_is_connected ;;
     if connected then
       pack <- gets devices_data_in_event_pack ;;
       let size := getsizeof (py_str (pack_value pack)) - 2 in
       in_process <- gets remote_config_in_process ;;
       events <- (if negb in_process
                  then gets (fun s => get_event_pack (_event_storage s))
                  else ret []) ;;
       match events with
       | [] => sleep
       | _ =>
           fold_sizes events size fold_event ;;;
           pack <- gets devices_data_in_event_pack ;;
           dispatched <-
             (match pack with
              | [] => ret true
              | _ =>
                  connected <- gets tb_is_connected ;;
                  if negb connected then ret false
                  else
                    (fun s => wait_rpc_reply_sent (schedule s) s) ;;;
                    __send_data ;;;
                    sleep ;;;
                    ret true
              end) ;;
           if dispatched then drain_and_commit else ret tt
       end
     else sleep)
    (fun e => log_record (log_exception e) ;;; sleep).

End Uplink.

(** A compact ASCII [str] of CPython 3.3 to 3.11 on a 64-bit platform: 49
    bytes and one byte per character. *)
Definition getsizeof_ascii (text : string) : Z :=
  49 + Z.of_nat (String.length text).

(** ** Server-side RPC dispatch *)

(** [s.split(sep)] as its first piece and the pieces after it. *)
Fixpoint split_on (sep : ascii) (s : string) : string * list string :=
  match s with
  | EmptyString => (EmptyString, [])
  | String c s' =>
      let (piece, pieces) := split_on sep s' in
      if Ascii.eqb c sep then (EmptyString, piece :: pieces)
      else (String c piece, pieces)
  end.

Definition split (sep : ascii) (s : string) : list string :=
  let (piece, pieces) := split_on sep s in piece :: pieces.

(** [send_rpc_reply(device, req_id, content, success_sent,
    quality_of_service=...)]; a request id is always passed. *)
Definition send_rpc_reply (device : option string) (req_id : Z)
  (content : option ReplyContent) (success_sent : option bool)
  (quality_of_service : PyVal) : M Service unit :=
  modify (set_rpc_reply_sent true) ;;;
  let rpc_response :=
    PDict [("success", PBool match success_sent with
                             | Some true => true
                             | _ => false
                             end)] in
  match device, success_sent, content with
  | Some d, Some _, _ =>
      tb_call (Client.gw_send_rpc_reply d req_id (Dumps rpc_response) quality_of_service)
  | Some d, None, Some c =>
      tb_call (Client.gw_send_rpc_reply d req_id c quality_of_service)
  | None, Some _, _ =>
      tb_call (Client.send_rpc_reply req_id (Dumps rpc_response) quality_of_service)
  | None, None, Some c =>
      tb_call (Client.send_rpc_reply req_id c quality_of_service)
  | _, _, None => ret tt
  end ;;;
  modify (set_rpc_reply_sent false).

Section Rpc.

(** The subclass and the connectors supply these. *)
Variable _handle_rpc_for_connector : PyVal -> dict PyVal -> M Service unit.
Variable server_side_rpc_handler : Connector -> dict PyVal -> M Service PyVal.
(** The gateway's own methods ([__rpc_gateway_processing]); the routing
    below only calls it. *)
Variable __rpc_gateway_processing : Z -> dict PyVal -> M Service PyVal.

(** [module in self.__remote_shell.shell_commands] *)
Definition in_shell_commands (module : string) : M Service bool :=
  shell <- gets (fun s => __remote_shell (settings s)) ;;
  match shell with
  | Some shell_commands => ret (existsb (String.eqb module) shell_commands)
  | None =>
      raise (AttributeError "'NoneType' object has no attribute 'shell_commands'")
  end.

(** The loop over [self.available_connectors] for a connector type. *)
Fixpoint broadcast (module : string) (content : dict PyVal)
  (connectors : dict Connector) (result : PyVal) : M Service PyVal :=
  match connectors with
  | [] => ret result
  | (connector_name, connector) :: rest =>
      if String.eqb (_connector_type connector) module then
        result <- server_side_rpc_handler connector content ;;
        broadcast module content rest result
      else broadcast module content rest result
  end.

(** The reply of lines 543-550 for a [result]. *)
Definition reply_result (request_id : Z) (result : PyVal) : M Service unit :=
  match result with
  | PNone => send_rpc_reply None request_id None (Some false) (PInt 0)
  | PDict r =>
      match PyDict.get r "qos" with
      | Some qos =>
          send_rpc_reply None request_id
            (Some (Dumps (PDict (filter (fun kv => negb (String.eqb (fst kv) "qos")) r))))
            None qos
      | None => send_rpc_reply None request_id (Some (Dumps result)) None (PInt 0)
      end
  | PList l =>
      if existsb (PyVal_eqb (PStr "qos")) l
      then raise (AttributeError "'list' object has no attribute 'items'")
      else send_rpc_reply None request_id (Some (Dumps result)) None (PInt 0)
  | PStr text =>
      match String.index 0 "qos" text with
      | Some _ => raise (AttributeError "'str' object has no attribute 'items'")
      | None => send_rpc_reply None request_id (Some (Dumps result)) None (PInt 0)
      end
  | _ => raise (TypeError "argument is not iterable")
  end.

(** [_rpc_request_handler(request_id, content)] *)
Definition _rpc_request_handler (request_id : Z) (content : dict PyVal)
  : M Service unit :=
  try_except
    (let device := get_or_None content "device" in
     if negb (is_None device) then _handle_rpc_for_connector device content
     else
       try_except
         (method <- subscript content "method" ;;
          method_split <-
            match method with
            | PStr m => ret (split "_" m)
            | _ => raise (AttributeError "object has no attribute 'split'")
            end ;;
          match method_split with
          | [] => ret tt
          | module :: _ =>
              configs <- gets (fun s => connectors_configs (settings s)) ;;
              result <-
                (match PyDict.get configs module with
                 | Some (_ :: _) =>
                     connectors <- gets (fun s => available_connectors (settings s)) ;;
                     broadcast module content connectors PNone
                 | _ =>
                     own <- (if String.eqb module "gateway" then ret true
                             else in_shell_commands module) ;;
                     if own then __rpc_gateway_processing request_id content
                     else
                       log_record (log_error "Connector not found") ;;;
                       ret (PDict [("error",
                                    PStr (module ++
                                          " - connector not found in available connectors."));
                                   ("code", PInt 404)])
                 end) ;;
              reply_result request_id result
          end)
         (fun e =>
            send_rpc_reply None request_id (Some (Template500 (str_of_exn e)))
              None (PInt 0) ;;;
            log_record (log_exception e)))
    (fun e => log_record (log_exception e)).

End Rpc.

(** ** Sample configurations *)

Module Sample.

Definition c1 : Connector := mkConnector "c1" "mqtt" 1.
Definition c2 : Connector := mkConnector "c2" "modbus" 2.

(** A gateway name as [__init__] draws it: 64 lowercase letters. *)
Definition gateway_name : string :=
  "qwertyuiopasdfghjklzxcvbnmqwertyuiopasdfghjklzxcvbnmqwertyuiopas".

(** Two connectors loaded; remote shell disabled, no payload limit
    configured, QoS 1. *)
Definition settings0 : Settings :=
  mkSettings gateway_name [("c1", c1); ("c2", c2)]
    [("mqtt", ["mqtt.json"]); ("modbus", ["modbus.json"])] None None 1.

(** The service after start-up: connected and subscribed, nothing
    registered, nothing stored. *)
Definition started : Service :=
  mkService settings0 [] [] [] FileEmpty 0 true false false [] [] true
    (mkEventStorage [] 100 10) [] [] 0 [] [].

(** The same with device [d1] of connector [c1] registered. *)
Definition with_d1 : Service :=
  snd (add_device "d1" [("connector", PObj c1)] (PStr "sensor") started).

(** Ingress items of connector [c1]. *)

(** Attributes only: no [telemetry] key. *)
Definition attributes_only : dict PyVal :=
  [("deviceName", PStr "d1"); ("deviceType", PStr "sensor");
   ("attributes", PDict [("firmware", PStr "1.0")])].

(** Telemetry as a single [{ts, values}] object. *)
Definition single_object : dict PyVal :=
  [("deviceName", PStr "d1"); ("deviceType", PStr "sensor");
   ("telemetry", PDict [("ts", PInt 1700000000000);
                        ("values", PDict [("t", PInt 21)])])].

(** Telemetry as an object of key and value. *)
Definition key_value_map : dict PyVal :=
  [("deviceName", PStr "d1"); ("deviceType", PStr "sensor");
   ("telemetry", PDict [("t", PInt 21)])].

(** Telemetry as a list of bare maps. *)
Definition bare_list : dict PyVal :=
  [("deviceName", PStr "d1"); ("deviceType", PStr "sensor");
   ("telemetry", PList [PDict [("t", PInt 21)]; PDict [("h", PInt 40)]])].

(** Telemetry as a list with timestamps, and a bare map besides. *)
Definition ts_list : dict PyVal :=
  [("deviceName", PStr "d1"); ("deviceType", PStr "sensor");
   ("telemetry",
    PList [PDict [("ts", PInt 1700000000000); ("values", PDict [("t", PInt 21)])];
           PDict [("h", PInt 40)];
           PDict [("ts", PInt 1700000000500); ("values", PDict [("t", PInt 22)])]])].

(** No [deviceName]: the item fails validation. *)
Definition nameless : dict PyVal :=
  [("deviceType", PStr "sensor");
   ("telemetry", PList [PDict [("t", PInt 21)]])].

Definition clock (n : nat) : Z := 1700000001000 + Z.of_nat n.

(** Stored events, as the ingress consumer leaves them. *)
Definition event (device : string) (ts t : Z) : Serialized :=
  dumps (PDict [("deviceName", PStr device); ("deviceType", PStr "sensor");
                ("telemetry", PDict [("ts", PInt ts);
                                     ("values", PDict [("t", PInt t)])])]).

(** Connected, QoS 1, one event of [d1] and one of [d2] in storage; the
    token of the first publish will report a failure (status 1), the
    token of the second an acknowledgement. *)
Definition first_token_fails : Service :=
  mkService settings0 [] [] [] FileEmpty 0 true false false []
    [Returns 1; Returns TB_ERR_SUCCESS] true
    (mkEventStorage [event "d1" 1700000000000 21; event "d2" 1700000000000 22]
       100 10)
    [] [] 0 [] [].

Definition disconnected : World := mkWorld false false false.
Definition connected : World := mkWorld true false false.

(** Connected, QoS 1, one event in storage; the connection is lost
    while the worker takes the token from the queue, and is back at the
    next blocking call. *)
Definition disconnect_in_drain : Service :=
  mkService settings0 [] [] [] FileEmpty 0 true false false
    [connected; disconnected; connected] [] true
    (mkEventStorage [event "d1" 1700000000000 21] 100 10)
    [] [] 0 [] [].

(** Telemetry entries: a reading with many values and three small
    ones. *)
Definition reading_a : PyVal :=
  PDict [("ts", PInt 1700000000000);
         ("values", PDict [("temperature", PInt 21); ("humidity", PInt 40);
                           ("pressure", PInt 1013); ("battery", PInt 97);
                           ("latitude", PInt 47376887);
                           ("longitude", PInt 8541694);
                           ("firmware", PStr "2.4.1-rc3");
                           ("uptime", PInt 86400);
                           ("status", PStr "door open, window closed");
                           ("note", PStr "calibrated at the factory")])].
Definition reading_b : PyVal :=
  PDict [("ts", PInt 1700000000100); ("values", PDict [("t", PInt 21)])].
Definition reading_c : PyVal :=
  PDict [("ts", PInt 1700000000200); ("values", PDict [("t", PInt 22)])].
Definition reading_d : PyVal :=
  PDict [("ts", PInt 1700000000300); ("values", PDict [("t", PInt 23)])].

(** Connected, [maxPayloadSizeBytes] configured as 200, one stored event
    of [d1] with the four readings. *)
Definition four_readings : Service :=
  mkService
    (mkSettings gateway_name [("c1", c1); ("c2", c2)]
       [("mqtt", ["mqtt.json"]); ("modbus", ["modbus.json"])] None (Some 200) 1)
    [] [] [] FileEmpty 0 true false false [] [] true
    (mkEventStorage
       [dumps (PDict [("deviceName", PStr "d1"); ("deviceType", PStr "sensor");
                      ("telemetry",
                       PList [reading_a; reading_b; reading_c; reading_d])])]
       100 10)
    [] [] 0 [] [].

(** The same once the fold of that event has given [d1] its place in
    the accumulator. *)
Definition d1_ready : Service :=
  with_pack (fun _ => [("d1", empty_device_data)]) four_readings.

(** Connected, [maxPayloadSizeBytes] configured as 420; the pack holds
    one event of [d1] with one reading and attributes that are a
    string: the ingress stores such an item, and the fold raises on its
    attributes in every pass, after it has appended the reading. *)
Definition blocked_pack : Service :=
  mkService
    (mkSettings gateway_name [("c1", c1); ("c2", c2)]
       [("mqtt", ["mqtt.json"]); ("modbus", ["modbus.json"])] None (Some 420) 1)
    [] [] [] FileEmpty 0 true false false [] [] true
    (mkEventStorage
       [dumps (PDict [("deviceName", PStr "d1"); ("deviceType", PStr "sensor");
                      ("telemetry", PList [reading_b]);
                      ("attributes", PStr "n/a")])]
       100 10)
    [] [] 0 [] [].

(** Connected, [maxPayloadSizeBytes] configured as -1; the pack holds
    one event of [d1] with one reading. *)
Definition negative_limit : Service :=
  mkService
    (mkSettings gateway_name [("c1", c1); ("c2", c2)]
       [("mqtt", ["mqtt.json"]); ("modbus", ["modbus.json"])] None (Some (-1)) 1)
    [] [] [] FileEmpty 0 true false false [] [] true
    (mkEventStorage
       [dumps (PDict [("deviceName", PStr "d1"); ("deviceType", PStr "sensor");
                      ("telemetry", PList [reading_b])])]
       100 10)
    [] [] 0 [] [].

End Sample.

(** ** Loading the persisted registry *)

(** The body of the loop of [_load_persistent_devices] for one entry
    [device_name: connector_name] of the file: when a connector is loaded
    under that name, the device is bound to it. *)
Definition load_device (device_name connector_name : string) : M Service unit :=
  try_except
    (connectors <- gets (fun s => available_connectors (settings s)) ;;
     match PyDict.get connectors connector_name with
     | Some _ =>
         connectors <- gets (fun s => available_connectors (settings s)) ;;
         connector <- subscript connectors connector_name ;;
         modify (with_connected_devices
                   (fun d => PyDict.set d device_name
                               [("connector", PObj connector)]))
     | None => ret tt
     end)
    (fun e => log_record (log_exception e)).

(** [_load_persistent_devices()], on a file as the gateway leaves it: a
    file that is missing or empty is created empty and no device is
    loaded; otherwise the JSON object is read and its entries, each key
    with its value, are gone through in the order of the file. *)
Definition _load_persistent_devices : M Service unit :=
  file <- gets connected_devices_json ;;
  devices <-
    match file with
    | FileJson doc => ret doc
    | FileEmpty => modify open_w ;;; ret []
    end ;;
  for_each devices (fun entry => load_device (fst entry) (snd entry)).

(** ** The gateway's own RPC methods and the RPC bookkeeping of the main loop *)

(** The keys of [__rpc_sheduled_methods_functions]. *)
Inductive ScheduledMethod : Type :=
| restart
| reboot.

(** What [register_rpc_request_timeout] queues for a topic: the tuple
    [(content, timeout, cancel_method)].  The cancel method is a callback
    of a connector, known here by a name. *)
Record RpcData : Type := mkRpcData {
  rpc_content : PyVal;
  rpc_timeout : Z;
  rpc_cancel_method : string
}.

(** A value of [_rpc_requests_in_progress]: the tuple, or the marker
    ["del"] that the main loop puts in its place. *)
Inductive InProgress : Type :=
| Pending (data : RpcData)
| Del.

(** Calls that leave the service object: a cancel callback called on a
    topic, a scheduled function called. *)
Inductive OutsideCall : Type :=
| cancel_call (callback topic : string)
| scheduled_call (method : ScheduledMethod).

(** The service with the attributes the RPC bookkeeping works on. *)
Record Gateway : Type := mkGateway {
  service : Service;
  __sheduled_rpc_calls : list (Z * ScheduledMethod);
  _rpc_register_queue : list (string * RpcData);
  _rpc_requests_in_progress : dict InProgress;
  outside : list OutsideCall   (* oldest first *)
}.

Definition with_service (f : Service -> Service) (g : Gateway) : Gateway :=
  mkGateway (f (service g)) (__sheduled_rpc_calls g) (_rpc_register_queue g)
    (_rpc_requests_in_progress g) (outside g).

Definition with_sheduled_rpc_calls
  (f : list (Z * ScheduledMethod) -> list (Z * ScheduledMethod)) (g : Gateway)
  : Gateway :=
  mkGateway (service g) (f (__sheduled_rpc_calls g)) (_rpc_register_queue g)
    (_rpc_requests_in_progress g) (outside g).

Definition with_register_queue
  (f : list (string * RpcData) -> list (string * RpcData)) (g : Gateway)
  : Gateway :=
  mkGateway (service g) (__sheduled_rpc_calls g) (f (_rpc_register_queue g))
    (_rpc_requests_in_progress g) (outside g).

Definition with_requests_in_progress
  (f : dict InProgress -> dict InProgress) (g : Gateway) : Gateway :=
  mkGateway (service g) (__sheduled_rpc_calls g) (_rpc_register_queue g)
    (f (_rpc_requests_in_progress g)) (outside g).

Definition with_outside (f : list OutsideCall -> list OutsideCall) (g : Gateway)
  : Gateway :=
  mkGateway (service g) (__sheduled_rpc_calls g) (_rpc_register_queue g)
    (_rpc_requests_in_progress g) (f (outside g)).

(** A method of the service run on the service inside. *)
Definition on_service {A} (m : M Service A) : M Gateway A :=
  fun g => let (r, s') := m (service g) in (r, with_service (fun _ => s') g).

(** [v[k]] on a value: a dictionary is looked up, anything else is not
    subscriptable by a string. *)
Definition item {S} (v : PyVal) (k : string) : M S PyVal :=
  match v with
  | PDict d => subscript d k
  | _ => raise (TypeError "indices must be integers")
  end.

(** The [device] argument of [send_rpc_reply].  Device names are strings;
    a name of another type is outside the model. *)
Definition as_device {S} (v : PyVal) : M S (option string) :=
  match v with
  | PNone => ret None
  | PStr d => ret (Some d)
  | _ => raise (TypeError "device name is not a string")
  end.

(** The [req_id] argument of [send_rpc_reply].  Request ids are integers;
    an id of another type is outside the model. *)
Definition as_req_id {S} (v : PyVal) : M S Z :=
  match v with
  | PInt z => ret z
  | _ => raise (TypeError "request id is not an integer")
  end.

(** [is_rpc_in_progress(topic)] *)
Definition is_rpc_in_progress (topic : string) (g : Gateway) : bool :=
  PyDict.contains (_rpc_requests_in_progress g) topic.

(** [register_rpc_request_timeout(content, timeout, topic, cancel_method)] *)
Definition register_rpc_request_timeout (content : PyVal) (timeout : Z)
  (topic cancel_method : string) : M Gateway unit :=
  modify (with_register_queue
            (fun q => q ++ [(topic, mkRpcData content timeout cancel_method)])).

(** [self._rpc_requests_in_progress[topic][0]] *)
Definition request_content (topic : string) : M Gateway PyVal :=
  in_progress <- gets _rpc_requests_in_progress ;;
  value <- subscript in_progress topic ;;
  match value with
  | Pending data => ret (rpc_content data)
  | Del => ret (PStr "d")
  end.

(** [rpc_with_reply_processing(topic, content)] *)
Definition rpc_with_reply_processing (topic : string)
  (content : option ReplyContent) : M Gateway unit :=
  request <- request_content topic ;;
  data <- item request "data" ;;
  req_id <- item data "id" ;;
  request <- request_content topic ;;
  device <- item request "device" ;;
  device <- as_device device ;;
  req_id <- as_req_id req_id ;;
  on_service (send_rpc_reply device req_id content None (PInt 0)).

(** [cancel_rpc_request(rpc_request)] *)
Definition cancel_rpc_request (rpc_request : string) : M Gateway unit :=
  content <- request_content rpc_request ;;
  device <- item content "device" ;;
  data <- item content "data" ;;
  req_id <- item data "id" ;;
  device <- as_device device ;;
  req_id <- as_req_id req_id ;;
  on_service (send_rpc_reply device req_id None (Some false) (PInt 0)).

(** The body of the loop over [self._rpc_requests_in_progress.items()]
    (lines 180-184).  The cancel callback belongs to a connector: the
    call is recorded and taken to return. *)
Definition expire (cur_time : Z) (entry : string * InProgress)
  : M Gateway unit :=
  let (rpc_in_progress, value) := entry in
  match value with
  | Pending data =>
      if cur_time >=? rpc_timeout data then
        modify (with_outside
                  (fun l => l ++ [cancel_call (rpc_cancel_method data)
                                    rpc_in_progress])) ;;;
        cancel_rpc_request rpc_in_progress ;;;
        modify (with_requests_in_progress
                  (fun d => PyDict.set d rpc_in_progress Del))
      else ret tt
  | Del =>
      raise (TypeError "'>=' not supported between instances of 'float' and 'str'")
  end.

Definition is_Del (value : InProgress) : bool :=
  match value with Del => true | Pending _ => false end.

(** Lines 177-192 of the main loop, at the time [cur_time]. *)
Definition rpc_requests_tick (cur_time : Z) : M Gateway unit :=
  in_progress <- gets _rpc_requests_in_progress ;;
  queue <- gets _rpc_register_queue ;;
  connected <- gets (fun g => tb_is_connected (service g)) ;;
  if (match in_progress with [] => false | _ => true end
      || match queue with [] => false | _ => true end)
     && connected
  then
    new_rpc_request_in_progress <-
      (match in_progress with
       | [] => ret []
       | _ =>
           for_each in_progress (expire cur_time) ;;;
           marked <- gets _rpc_requests_in_progress ;;
           ret (filter (fun kv => negb (is_Del (snd kv))) marked)
       end) ;;
    queue <- gets _rpc_register_queue ;;
    new_rpc_request_in_progress <-
      (match queue with
       | [] => ret new_rpc_request_in_progress
       | (topic, data) :: rest =>
           modify (with_register_queue (fun _ => rest)) ;;;
           ret (PyDict.set new_rpc_request_in_progress topic (Pending data))
       end) ;;
    modify (with_requests_in_progress (fun _ => new_rpc_request_in_progress))
  else ret tt.

(** *** Scheduled calls *)

(** How the scan of the scheduled calls ends: it is through, an index is
    out of the range of the list ([IndexError]), or a scheduled function
    does not return. *)
Inductive ScanEnd : Type :=
| Scanned
| ScanIndexError (index : nat)
| ScanNoReturn.

(** [l.pop(i)] on an index in range: what is left. *)
Definition pop_at {A} (i : nat) (l : list A) : list A :=
  firstn i l ++ skipn (S i) l.

Section Scheduled.

(** What calling a scheduled function does: it returns a status, it
    raises, or, as [execv] when it succeeds, it does not return. *)
Variable call_scheduled : ScheduledMethod -> Res PyVal.

(** The loop [for rpc_call_index in range(len(self.__sheduled_rpc_calls))]
    (lines 165-175) over the indices still to visit.  The warning on a
    result 256 is no error record and the log does not keep it. *)
Fixpoint scan_sheduled_rpc_calls (cur_time : Z) (indices : list nat)
  (g : Gateway) : ScanEnd * Gateway :=
  match indices with
  | [] => (Scanned, g)
  | rpc_call_index :: rest =>
      match nth_error (__sheduled_rpc_calls g) rpc_call_index with
      | None => (ScanIndexError rpc_call_index, g)
      | Some (due, method) =>
          if cur_time >? due then
            let g := with_sheduled_rpc_calls (pop_at rpc_call_index) g in
            let g := with_outside (fun l => l ++ [scheduled_call method]) g in
            match call_scheduled method with
            | Ok _ => scan_sheduled_rpc_calls cur_time rest g
            | Raise e =>
                scan_sheduled_rpc_calls cur_time rest
                  (with_service (with_log (fun l => l ++ [log_exception e])) g)
            | Hang => (ScanNoReturn, g)
            end
          else scan_sheduled_rpc_calls cur_time rest g
      end
  end.

(** Lines 164-176 of the main loop, at the time [cur_time]. *)
Definition run_sheduled_rpc_calls (cur_time : Z) (g : Gateway)
  : ScanEnd * Gateway :=
  scan_sheduled_rpc_calls cur_time
    (seq 0 (length (__sheduled_rpc_calls g))) g.

End Scheduled.

(** *** The gateway's own methods *)

(** [s.replace(old, new)]; [pending] characters of a match are still to
    be passed over. *)
Fixpoint replace_from (old new : string) (pending : nat) (s : string)
  : string :=
  match s with
  | EmptyString => EmptyString
  | String c s' =>
      match pending with
      | S n => replace_from old new n s'
      | O =>
          if String.prefix old s
          then new ++ replace_from old new (String.length old - 1) s'
          else String c (replace_from old new O s')
      end
  end.

Definition replace (old new s : string) : string := replace_from old new 0 s.

(** The functions a gateway method name can stand for: the values of
    [__gateway_rpc_methods], or a command of the remote shell. *)
Inductive GatewayMethod : Type :=
| _rpc_ping
| _form_statistics
| _rpc_devices
| _rpc_update
| _rpc_version
| shell_command (name : string).

(** [self.__gateway_rpc_methods.get(method_to_call)] *)
Definition gateway_rpc_methods (method_to_call : string)
  : option GatewayMethod :=
  if String.eqb method_to_call "ping" then Some _rpc_ping
  else if String.eqb method_to_call "stats" then Some _form_statistics
  else if String.eqb method_to_call "devices" then Some _rpc_devices
  else if String.eqb method_to_call "update" then Some _rpc_update
  else if String.eqb method_to_call "version" then Some _rpc_version
  else None.

(** [self.__rpc_sheduled_methods_functions.get(method_to_call)] *)
Definition rpc_sheduled_methods_functions (method_to_call : string)
  : option ScheduledMethod :=
  if String.eqb method_to_call "restart" then Some restart
  else if String.eqb method_to_call "reboot" then Some reboot
  else None.

(** [time() * 1000 + seconds_to_restart] with
    [seconds_to_restart = arguments * 1000 if arguments and arguments != '{}' else 0]:
    the product and the sum are numbers for a number only. *)
Definition sheduled_time {S} (now_ms : Z) (arguments : PyVal) : M S Z :=
  if truthy arguments && negb (PyVal_eqb arguments (PStr "{}")) then
    match arguments with
    | PInt seconds => ret (now_ms + seconds * 1000)
    | PBool true => ret (now_ms + 1000)
    | _ => raise (TypeError "unsupported operand type(s)")
    end
  else ret now_ms.

(** [_rpc_devices()] *)
Definition rpc_devices : M Service PyVal :=
  devices <- gets __connected_devices ;;
  data_to_send <- lift (data_to_save devices []) ;;
  ret (PDict [("code", PInt 200);
              ("resp", PDict (map (fun kv => (fst kv, PStr (snd kv)))
                                data_to_send))]).

Section GatewayMethods.

(** The collaborators: the commands of the remote shell, and the
    updater's [update()] and [get_version()]. *)
Variable shell_call : string -> list PyVal -> M Gateway PyVal.
Variable _updater_update : M Gateway PyVal.
Variable _updater_get_version : M Gateway PyVal.

(** [method_function] called on the positional arguments [args]. *)
Definition call_method (method_function : GatewayMethod) (args : list PyVal)
  : M Gateway PyVal :=
  match method_function with
  | _rpc_ping => ret (PDict [("code", PInt 200); ("resp", PStr "pong")])
  | _form_statistics =>
      match args with
      | [] => ret PNone
      | _ =>
          raise (TypeError "_form_statistics() takes 1 positional argument")
      end
  | _rpc_devices => on_service rpc_devices
  | _rpc_update =>
      try_except
        (resp <- _updater_update ;;
         ret (PDict [("resp", resp); ("code", PInt 200)]))
        (fun e => ret (PDict [("error", PStr (str_of_exn e));
                              ("code", PInt 500)]))
  | _rpc_version =>
      try_except
        (resp <- _updater_get_version ;;
         ret (PDict [("resp", resp); ("code", PInt 200)]))
        (fun e => ret (PDict [("error", PStr (str_of_exn e));
                              ("code", PInt 500)]))
  | shell_command name => shell_call name args
  end.

(** [__rpc_gateway_processing(request_id, content)], at the time
    [now_ms]. *)
Definition rpc_gateway_processing (now_ms : Z) (request_id : Z)
  (content : dict PyVal) : M Gateway PyVal :=
  method <- subscript content "method" ;;
  arguments <-
    (let arguments := match PyDict.get content "params" with
                      | Some params => params
                      | None => PDict []
                      end in
     if negb (is_None (get_or_None content "timeout")) then
       match arguments with
       | PDict d =>
           timeout <- subscript content "timeout" ;;
           ret (PDict (PyDict.set d "timeout" timeout))
       | _ => raise (AttributeError "object has no attribute 'update'")
       end
     else ret arguments) ;;
  method_to_call <-
    match method with
    | PStr m => ret (replace "gateway_" EmptyString m)
    | _ => raise (AttributeError "object has no attribute 'replace'")
    end ;;
  shell <- gets (fun g => __remote_shell (settings (service g))) ;;
  let method_function :=
    match shell with
    | Some shell_commands =>
        if existsb (String.eqb method_to_call) shell_commands
        then Some (shell_command method_to_call)
        else gateway_rpc_methods method_to_call
    | None => gateway_rpc_methods method_to_call
    end in
  match method_function, rpc_sheduled_methods_functions method_to_call with
  | None, Some sheduled =>
      time <- sheduled_time now_ms arguments ;;
      modify (with_sheduled_rpc_calls (fun l => l ++ [(time, sheduled)])) ;;;
      ret (PDict [("success", PBool true)])
  | None, None =>
      on_service (log_record (log_error "RPC method - Not found")) ;;;
      ret (PDict [("error", PStr "Method not found"); ("code", PInt 404)])
  | Some method_function, _ =>
      match arguments with
      | PList args => call_method method_function args
      | _ =>
          if truthy arguments then call_method method_function [arguments]
          else call_method method_function []
      end
  end.

End GatewayMethods.

(** ** Observations used in the statements *)

(** The [gw_connect_device] calls among the calls on the cloud client. *)
Definition announcements (calls : list CloudCall) : list CloudCall :=
  filter (fun c => match c with
                   | Client.gw_connect_device _ _ => true
                   | _ => false
                   end) calls.

(** What [connected_devices.json] holds when it agrees with the
    connected-devices map: the connector name of every device whose
    connector is not [None], keys sorted; nothing when collecting the names
    raises. *)
Definition registry_file (s : Service) : DevicesFile :=
  match data_to_save (__connected_devices s) [] with
  | Ok d => FileJson (sort_keys d)
  | _ => FileEmpty
  end.

(** The telemetry normal form in the words of the specification
    (section 4.3, step 5): the entries with an explicit [ts] on one side,
    the bare maps on the other; the former as a list of [{ts, values}] if
    there is any, otherwise one [{ts: now_ms, values: merged}] where
    [merged] is the left-to-right merge of the bare maps. *)
Module SpecWords.

Definition explicit_ts (item : PyVal) : bool :=
  match item with
  | PDict d => negb (is_None (get_or_None d "ts"))
  | _ => false
  end.

Definition ts_values (item : PyVal) : PyVal :=
  match item with
  | PDict d => PDict [("ts", get_or_None d "ts");
                      ("values", get_or_None d "values")]
  | _ => item
  end.

Definition merge (merged : dict PyVal) (item : PyVal) : dict PyVal :=
  match item with
  | PDict d => PyDict.update merged d
  | _ => merged
  end.

Definition normal_telemetry (now_ms : Z) (items : list PyVal) : PyVal :=
  let with_ts := filter explicit_ts items in
  let bare := filter (fun item => negb (explicit_ts item)) items in
  match with_ts with
  | [] => PDict [("ts", PInt now_ms);
                 ("values", PDict (fold_left merge bare []))]
  | _ => PList (map ts_values with_ts)
  end.

End SpecWords.

(** A telemetry entry as the data model has it: an object; with a [ts] it
    has a [values] object too. *)
Definition telemetry_entry (item : PyVal) : bool :=
  match item with
  | PDict d =>
      is_None (get_or_None d "ts")
      || match PyDict.get d "values" with
         | Some (PDict _) => true
         | _ => false
         end
  | _ => false
  end.

(** Nothing disturbs the drain: connected, no remote configuration and no
    RPC reply under way, now and for good, and QoS 1. *)
Definition quiet (s : Service) : Prop :=
  tb_is_connected s = true
  /\ remote_config_in_process s = false
  /\ __rpc_reply_sent s = false
  /\ schedule s = []
  /\ quality_of_service (settings s) = 1.

(** The token reports an acknowledgement. *)
Definition acknowledged (event : Token) : bool :=
  match token_get event with
  | Returns rc => rc =? TB_ERR_SUCCESS
  | GetRaises _ => false
  end.


(** The blank accumulator [__send_data] leaves: every device with no
    telemetry and no attributes. *)
Definition blank (pack : dict DeviceData) : dict DeviceData :=
  map (fun kv => (fst kv, mkDeviceData [] [])) pack.

(** The telemetry entries that the fold of one stored event appends. *)
Definition telemetry_items (event : Serialized) : list PyVal :=
  match loads event with
  | Ok (PDict current_event) =>
      let t := get_or_None current_event "telemetry" in
      if truthy t then
        match t with
        | PList items => items
        | _ => [t]
        end
      else []
  | _ => []
  end.

Section Measure.

(** [sys.getsizeof] on a [str] object. *)
Variable getsizeof : string -> Z.

(** The size the worker counts for an entry: [getsizeof(str(item)) - 2]. *)
Definition entry_size (item : PyVal) : Z := getsizeof (py_str item) - 2.

(** The counted sizes of the entries of a telemetry list, added up. *)
Definition telemetry_size (entries : list PyVal) : Z :=
  fold_right (fun item total => entry_size item + total) 0 entries.

(** The same for the telemetry a publish carries; other calls carry none. *)
Definition publish_size (c : CloudCall) : Z :=
  match c with
  | Client.send_telemetry entries => telemetry_size entries
  | Client.gw_send_telemetry _ entries => telemetry_size entries
  | _ => 0
  end.

End Measure.

(** The devices the accumulator has in [s] it still has in [s']. *)
Definition keeps_devices (s s' : Service) : Prop :=
  forall device,
    PyDict.contains (devices_data_in_event_pack s) device = true ->
    PyDict.contains (devices_data_in_event_pack s') device = true.

(** ** Further observations on the registry and the ingress *)

(** An entry of the connected-devices map that [__save_persistent_devices]
    can read: it has the key [connector], holding [None] or a connector
    object. *)
Definition savable (entry : DeviceEntry) : bool :=
  match PyDict.get entry "connector" with
  | Some PNone => true
  | Some (PObj _) => true
  | _ => false
  end.

(** The name under which the file lists a device: the name of its
    connector object, when it has one. *)
Definition live_connector_name (devices : dict DeviceEntry) (device : string)
  : option string :=
  match PyDict.get devices device with
  | Some entry =>
      match PyDict.get entry "connector" with
      | Some (PObj c) => Some (get_name c)
      | _ => None
      end
  | None => None
  end.

(** The keys of a JSON object are in sorted order. *)
Definition sorted_keys (doc : list (string * string)) : Prop :=
  Sorted (fun a b => String.leb (fst a) (fst b) = true) doc.

(** Every counter of [_connector_incoming_messages] is 0. *)
Definition counters_zero (m : dict Z) : bool :=
  forallb (fun kv => snd kv =? 0) m.

(** From [s] to [s'] the registry, its file and the calls on the cloud
    client are as they were. *)
Definition registry_untouched (s s' : Service) : Prop :=
  __connected_devices s' = __connected_devices s
  /\ _saved_devices s' = _saved_devices s
  /\ connected_devices_json s' = connected_devices_json s
  /\ file_writes s' = file_writes s
  /\ cloud s' = cloud s.

(** An item of the queue at which [__send_to_storage] returns: it comes
    from a connector, not from the gateway itself, and fails validation. *)
Definition ends_consumer (self_name : string) (item : string * dict PyVal)
  : bool :=
  negb (String.eqb (fst item) self_name)
  && negb (validate_converted_data (snd item)).

(** The items behind the first one that ends the consumer. *)
Fixpoint left_in_queue (self_name : string) (queue : list (string * dict PyVal))
  : list (string * dict PyVal) :=
  match queue with
  | [] => []
  | item :: rest =>
      if ends_consumer self_name item then rest
      else left_in_queue self_name rest
  end.

(** ** Further observations on the uplink *)

(** From [s] to [s'] everything is as it was but what the uplink worker
    writes while it folds and sends: its accumulator, the queue of tokens
    and the outcomes to come, the counter, the log and the calls on the
    cloud client. *)
Definition world_kept (s s' : Service) : Prop :=
  settings s' = settings s
  /\ __connected_devices s' = __connected_devices s
  /\ _saved_devices s' = _saved_devices s
  /\ _connector_incoming_messages s' = _connector_incoming_messages s
  /\ connected_devices_json s' = connected_devices_json s
  /\ file_writes s' = file_writes s
  /\ tb_is_connected s' = tb_is_connected s
  /\ remote_config_in_process s' = remote_config_in_process s
  /\ __rpc_reply_sent s' = __rpc_reply_sent s
  /\ schedule s' = schedule s
  /\ __subscribed_to_rpc_topics s' = __subscribed_to_rpc_topics s
  /\ _event_storage s' = _event_storage s.

(** A computation keeps a relation [R] when [R] holds between the state
    it starts from and the state it leaves, however it ends. *)
Definition keeps {A : Type} (R : Service -> Service -> Prop) (m : M Service A)
  : Prop :=
  forall s, R s (snd (m s)).

(** The environment leaves the worker alone: connected, no remote
    configuration and no RPC reply under way, now and for good. *)
Definition calm (s : Service) : Prop :=
  tb_is_connected s = true
  /\ remote_config_in_process s = false
  /\ __rpc_reply_sent s = false
  /\ schedule s = [].

(** The publishes [__send_data] makes for one device of the accumulator:
    the attributes when there are some, then the telemetry when there is
    some, on the gateway's own channel for the two names that stand for
    the gateway. *)
Definition device_publishes (self_name : string) (kv : string * DeviceData)
  : list CloudCall :=
  let device := fst kv in
  let data := snd kv in
  let own := String.eqb device self_name
             || String.eqb device "currentThingsBoardGateway" in
  (if truthy (PDict (attributes data))
   then [if own then Client.send_attributes (attributes data)
         else Client.gw_send_attributes device (attributes data)]
   else [])
  ++ (if truthy (PList (telemetry data))
      then [if own then Client.send_telemetry (telemetry data)
            else Client.gw_send_telemetry device (telemetry data)]
      else []).

(** The tokens of a run of publishes, given the outcomes to come. *)
Fixpoint tokens_for (calls : list CloudCall) (outcomes : list TokenGet)
  : list Token :=
  match calls with
  | [] => []
  | c :: calls' =>
      mkToken c (match outcomes with
                 | o :: _ => o
                 | [] => Returns TB_ERR_SUCCESS
                 end)
      :: tokens_for calls' (tl outcomes)
  end.

(** Every token, queued or to come, reports an acknowledgement. *)
Definition all_acknowledged (s : Service) : Prop :=
  Forall (fun o => o = Returns TB_ERR_SUCCESS) (token_outcomes s)
  /\ Forall (fun event => acknowledged event = true) (_published_events s).

(** Tokens that were all acknowledged still are. *)
Definition acknowledged_kept (s s' : Service) : Prop :=
  all_acknowledged s -> all_acknowledged s'.

(** A stored event on which the fold raises before it reads anything
    else: JSON that is no object, or an object without [deviceName]. *)
Definition poison (event : Serialized) : bool :=
  match loads event with
  | Ok (PDict current_event) =>
      match PyDict.get current_event "deviceName" with
      | Some _ => false
      | None => true
      end
  | Ok _ => true
  | _ => false
  end.

(** Attributes the fold can read: nothing, an object, or a list of
    objects. *)
Definition readable_attributes (a : PyVal) : bool :=
  negb (truthy a)
  || match a with
     | PDict _ => true
     | PList items =>
         forallb (fun item => match item with PDict _ => true | _ => false end)
           items
     | _ => false
     end.

(** A stored event the fold can read: bytes that [loads] rejects (they
    are skipped), or an object with a [deviceName] string and readable
    attributes. *)
Definition readable (event : Serialized) : bool :=
  match loads event with
  | Ok (PDict current_event) =>
      match PyDict.get current_event "deviceName" with
      | Some (PStr _) =>
          readable_attributes (get_or_None current_event "attributes")
      | _ => false
      end
  | Ok _ => false
  | _ => true
  end.

(** The telemetry entries published for a device through the gateway
    channel, in the order of the calls. *)
Definition sent_telemetry (device : string) (calls : list CloudCall)
  : list PyVal :=
  flat_map (fun c => match c with
                     | Client.gw_send_telemetry d entries =>
                         if String.eqb d device then entries else []
                     | _ => []
                     end) calls.

(** The telemetry entries the accumulator holds for a device. *)
Definition held_telemetry (device : string) (pack : dict DeviceData)
  : list PyVal :=
  match PyDict.get pack device with
  | Some data => telemetry data
  | None => []
  end.

(** The telemetry entries a stored event carries for a device. *)
Definition event_telemetry (device : string) (event : Serialized)
  : list PyVal :=
  match loads event with
  | Ok (PDict current_event) =>
      match PyDict.get current_event "deviceName" with
      | Some (PStr d) =>
          if String.eqb d device then telemetry_items event else []
      | _ => []
      end
  | _ => []
  end.

(** A device name that does not stand for the gateway itself. *)
Definition other_device (self_name device : string) : bool :=
  negb (String.eqb device self_name
        || String.eqb device "currentThingsBoardGateway").

(** The telemetry entries of a device that have left the storage: those
    published, then those the accumulator holds. *)
Definition telemetry_balance (device : string) (s : Service) : list PyVal :=
  sent_telemetry device (cloud s)
  ++ held_telemetry device (devices_data_in_event_pack s).

(** The accumulator as the fold expects it, in a gateway named
    [self_name]. *)
Definition fold_ready (self_name : string) (s : Service) : Prop :=
  name (settings s) = self_name
  /\ NoDup (PyDict.keys (devices_data_in_event_pack s)).

(** A step of the fold for [device] that returns whenever the accumulator
    has the device: it keeps the devices of the accumulator and adds
    [items d] to the balance of every device [d] that does not stand for
    the gateway. *)
Definition folds {A : Type} (self_name device : string)
  (items : string -> list PyVal) (m : M Service A) : Prop :=
  forall s,
    fold_ready self_name s ->
    In device (PyDict.keys (devices_data_in_event_pack s)) ->
    exists a s',
      m s = (Ok a, s')
      /\ fold_ready self_name s'
      /\ PyDict.keys (devices_data_in_event_pack s')
         = PyDict.keys (devices_data_in_event_pack s)
      /\ forall d,
           other_device self_name d = true ->
           telemetry_balance d s' = telemetry_balance d s ++ items d.

Section Passes.

Variable getsizeof : string -> Z.

(** The state after up to [n] passes of the loop of
    [__read_data_from_storage]: the loop goes on as long as the pass
    returns. *)
Fixpoint uplink_passes (n : nat) (s : Service) : Service :=
  match n with
  | O => s
  | S n' =>
      match read_data_from_storage_pass getsizeof s with
      | (Ok _, s') => uplink_passes n' s'
      | (_, s') => s'
      end
  end.

End Passes.

(** ** Further observations on the RPC bookkeeping *)

(** The device and the request id that [cancel_rpc_request] reads in the
    content of a registered request:
    [content["device"]] and [content["data"]["id"]]. *)
Definition request_target (data : RpcData) : option (option string * Z) :=
  match rpc_content data with
  | PDict content =>
      match PyDict.get content "device", PyDict.get content "data" with
      | Some PNone, Some (PDict d) =>
          match PyDict.get d "id" with
          | Some (PInt id) => Some (None, id)
          | _ => None
          end
      | Some (PStr device), Some (PDict d) =>
          match PyDict.get d "id" with
          | Some (PInt id) => Some (Some device, id)
          | _ => None
          end
      | _, _ => None
      end
  | _ => None
  end.

(** The reply [{"success": false}] for a target. *)
Definition failure_reply (target : option string * Z) : CloudCall :=
  match fst target with
  | Some device =>
      Client.gw_send_rpc_reply device (snd target)
        (Dumps (PDict [("success", PBool false)])) (PInt 0)
  | None =>
      Client.send_rpc_reply (snd target)
        (Dumps (PDict [("success", PBool false)])) (PInt 0)
  end.

(** A request in progress whose deadline has come at [cur_time]. *)
Definition expired (cur_time : Z) (entry : string * InProgress) : bool :=
  match snd entry with
  | Pending data => cur_time >=? rpc_timeout data
  | Del => false
  end.

(** Every request in progress is a tuple in whose content
    [cancel_rpc_request] finds a device and a request id. *)
Definition cancellable (entry : string * InProgress) : bool :=
  match snd entry with
  | Pending data =>
      match request_target data with Some _ => true | None => false end
  | Del => false
  end.

(** The cancel callback called for an entry, and the failure reply sent
    for it. *)
Definition cancel_of (entry : string * InProgress) : list OutsideCall :=
  match snd entry with
  | Pending data => [cancel_call (rpc_cancel_method data) (fst entry)]
  | Del => []
  end.

Definition failure_reply_of (entry : string * InProgress) : list CloudCall :=
  match snd entry with
  | Pending data =>
      match request_target data with
      | Some target => [failure_reply target]
      | None => []
      end
  | Del => []
  end.

(** The request the tick takes from the register queue, added to the
    requests in progress. *)
Definition take_from_queue (queue : list (string * RpcData)) (in_progress : dict InProgress)
  : dict InProgress :=
  match queue with
  | [] => in_progress
  | (topic, data) :: _ => PyDict.set in_progress topic (Pending data)
  end.

(** A scheduled call whose time has come at [cur_time]. *)
Definition due (cur_time : Z) (call : Z * ScheduledMethod) : bool :=
  cur_time >? fst call.

(** The requests in progress while the loop marks them: the expired
    ones among those visited hold the marker. *)
Definition marked (cur_time : Z) (visited : dict InProgress) : dict InProgress :=
  map (fun kv => if expired cur_time kv then (fst kv, Del) else kv) visited.


(** The reply a connector hands over for a request. *)
Definition reply_call (target : option string * Z) (content : ReplyContent)
  : CloudCall :=
  match fst target with
  | Some device => Client.gw_send_rpc_reply device (snd target) content (PInt 0)
  | None => Client.send_rpc_reply (snd target) content (PInt 0)
  end.


(** The remote shell, when there is one, has no command of this name. *)
Definition no_shell_command (method_to_call : string) (g : Gateway) : Prop :=
  match __remote_shell (settings (service g)) with
  | Some shell_commands =>
      existsb (String.eqb method_to_call) shell_commands = false
  | None => True
  end.


(** ** Further observations on the payload limit *)

(** What one step of the fold puts into the accumulator of a device: a
    telemetry entry, appended, or attributes, merged.  [text] is the text
    whose size the counter adds for the attributes: [str(item)] for an
    element of an attributes list, [str(attributes.items())] for an
    attributes object. *)
Inductive Piece : Type :=
| telemetry_piece (device : string) (item : PyVal)
| attributes_piece (device : string) (items : dict PyVal) (text : string).

Definition piece_device (p : Piece) : string :=
  match p with
  | telemetry_piece device _ => device
  | attributes_piece device _ _ => device
  end.

(** The text whose size the counter adds for a piece. *)
Definition piece_text (p : Piece) : string :=
  match p with
  | telemetry_piece _ item => py_str item
  | attributes_piece _ _ text => text
  end.

(** A piece put into the data of its device. *)
Definition put_piece (p : Piece) (data : DeviceData) : DeviceData :=
  match p with
  | telemetry_piece _ item =>
      mkDeviceData (telemetry data ++ [item]) (attributes data)
  | attributes_piece _ items _ =>
      mkDeviceData (telemetry data) (PyDict.update (attributes data) items)
  end.

(** What the accumulator holds for a device once the pieces of [batch]
    have been put into an accumulator that held nothing. *)
Definition assemble (device : string) (batch : list Piece) : DeviceData :=
  fold_left (fun data p =>
               if String.eqb (piece_device p) device then put_piece p data
               else data)
    batch empty_device_data.

(** The pieces of the telemetry section of an event, in the order of the
    fold. *)
Definition telemetry_pieces (device : string) (t : PyVal) : list Piece :=
  if truthy t then
    match t with
    | PList items => map (telemetry_piece device) items
    | _ => [telemetry_piece device t]
    end
  else [].

(** The piece of an element of an attributes list; an element that is no
    object has none, the fold raises on it. *)
Definition attributes_item_pieces (device : string) (item : PyVal)
  : list Piece :=
  match item with
  | PDict d => [attributes_piece device d (py_str item)]
  | _ => []
  end.

(** The pieces of the attributes section of an event. *)
Definition attribute_pieces (device : string) (a : PyVal) : list Piece :=
  if truthy a then
    match a with
    | PList items => flat_map (attributes_item_pieces device) items
    | PDict d => [attributes_piece device d (py_str_items d)]
    | _ => []
    end
  else [].

(** The pieces of a stored event: its telemetry entries, then its
    attributes.  An event that [loads] rejects is skipped by the fold
    and has none. *)
Definition pieces_of_event (event : Serialized) : list Piece :=
  match loads event with
  | Ok (PDict current_event) =>
      match PyDict.get current_event "deviceName" with
      | Some (PStr device) =>
          telemetry_pieces device (get_or_None current_event "telemetry")
          ++ attribute_pieces device (get_or_None current_event "attributes")
      | _ => []
      end
  | _ => []
  end.

(** A flush: the devices of the accumulator when [__send_data] ran, in
    their order, and the batch of pieces the accumulator held. *)
Definition Flush : Type := (list string * list Piece)%type.

(** The publishes of a flush: for each device, what [__send_data]
    publishes for the data assembled from the batch. *)
Definition flush_publishes (self_name : string) (f : Flush) : list CloudCall :=
  flat_map (fun device =>
              device_publishes self_name (device, assemble device (snd f)))
    (fst f).

(** The accumulator [pack] holds the pieces of [batch] and nothing
    else. *)
Definition holds_batch (batch : list Piece) (pack : dict DeviceData) : Prop :=
  NoDup (PyDict.keys pack)
  /\ (forall device data,
        PyDict.get pack device = Some data -> data = assemble device batch)
  /\ (forall p, In p batch -> PyDict.contains pack (piece_device p) = true).

(** The accumulator holds no data: every device has no telemetry and no
    attributes. *)
Definition holds_nothing (pack : dict DeviceData) : Prop :=
  NoDup (PyDict.keys pack)
  /\ forall device data, PyDict.get pack device = Some data ->
                         data = empty_device_data.

(** The accumulator has the device. *)
Definition has_device (device : string) (s : Service) : Prop :=
  PyDict.contains (devices_data_in_event_pack s) device = true.

Section Batches.

Variable getsizeof : string -> Z.

(** The size the counter adds for a piece, and for the pieces of a
    batch. *)
Definition piece_size (p : Piece) : Z := getsizeof (piece_text p) - 2.

Definition pieces_size (batch : list Piece) : Z :=
  fold_right (fun p total => piece_size p + total) 0 batch.

(** A flush whose devices are distinct and have every piece of the
    batch, and in whose batch the pieces after the first were counted
    for at most [limit]. *)
Definition within_limit (limit : Z) (f : Flush) : Prop :=
  pieces_size (tl (snd f)) <= limit
  /\ NoDup (fst f)
  /\ forall p, In p (snd f) -> In (piece_device p) (fst f).

(** The counter [size] and the batch the accumulator holds, after each
    step of the fold. *)
Definition counted_batch (limit : Z) (batch : list Piece) (size : Z) : Prop :=
  0 <= size
  /\ pieces_size (tl batch) <= size
  /\ (batch = [] \/ size <= limit).

(** From [s0] to [s] the settings are kept and the calls on the cloud
    client are extended by the publishes of the flushes [flushed], each
    within the limit of [s0]. *)
Definition flushes_of (s0 : Service) (flushed : list Flush) (s : Service)
  : Prop :=
  settings s = settings s0
  /\ cloud s
     = cloud s0 ++ flat_map (flush_publishes (name (settings s0))) flushed
  /\ Forall (within_limit (max_payload_size s0)) flushed.

(** Since [s0] the pieces [done] were folded: they went out in flushes
    but for the batch the accumulator holds, which the counter [size]
    has counted. *)
Definition tracked (s0 : Service) (done : list Piece) (s : Service) (size : Z)
  : Prop :=
  exists flushed batch,
    concat (map snd flushed) ++ batch = done
    /\ flushes_of s0 flushed s
    /\ holds_batch batch (devices_data_in_event_pack s)
    /\ counted_batch (max_payload_size s0) batch size.

(** Since [s0] the calls on the cloud client were extended by flushes
    within the limit, of pieces that open the list [all], in its
    order. *)
Definition flushed_within (s0 : Service) (all : list Piece) (s : Service)
  : Prop :=
  exists flushed rest,
    concat (map snd flushed) ++ rest = all
    /\ flushes_of s0 flushed s.

(** The same with every piece of [all] gone out in a flush. *)
Definition flushed_all (s0 : Service) (all : list Piece) (s : Service)
  : Prop :=
  exists flushed,
    concat (map snd flushed) = all
    /\ flushes_of s0 flushed s.

(** A step of the fold that folds the pieces [pieces], on states that
    satisfy [pre]: however it ends, the flushes made are within the
    limit; when it returns a counter, the pieces are all folded and
    tracked. *)
Definition tracks (pre : Service -> Prop) (pieces : list Piece)
  (m : Z -> M Service Z) : Prop :=
  forall (s0 : Service) (done : list Piece) (s : Service) (size : Z),
    0 <= max_payload_size s0 ->
    tracked s0 done s size ->
    pre s ->
    flushed_within s0 (done ++ pieces) (snd (m size s))
    /\ forall size',
         fst (m size s) = Ok size' ->
         tracked s0 (done ++ pieces) (snd (m size s)) size'
         /\ pre (snd (m size s)).

End Batches.

(** ** Tactics *)

(** Unfolds the monad's operations in the goal. *)
Ltac run_step :=
  unfold bind, gets, modify, ret, raise, when, subscript, lift, try_except;
  cbn beta iota.
Ltac run := repeat progress run_step.

(** Settles [exists s', run = (r, s') /\ ...] on closed terms by running
    the computation. *)
Ltac by_running :=
  repeat match goal with
         | |- exists s', ?run = (_, s') /\ _ => exists (snd run)
         | |- _ /\ _ => split
         end;
  vm_compute; repeat split.

(** Reduces the projections of the service applied to its updates. *)
Ltac fields :=
  cbn [settings __connected_devices _saved_devices
       _connector_incoming_messages connected_devices_json file_writes
       tb_is_connected remote_config_in_process __rpc_reply_sent schedule
       token_outcomes __subscribed_to_rpc_topics _event_storage
       devices_data_in_event_pack _published_events counter cloud log
       with_connected_devices with_saved_devices with_incoming_messages
       open_w write_file set_is_connected set_rpc_reply_sent set_subscribed
       with_event_storage with_pack with_published_events
       with_token_outcomes with_counter with_cloud with_log install].

Ltac fields_in H :=
  cbn [settings __connected_devices _saved_devices
       _connector_incoming_messages connected_devices_json file_writes
       tb_is_connected remote_config_in_process __rpc_reply_sent schedule
       token_outcomes __subscribed_to_rpc_topics _event_storage
       devices_data_in_event_pack _published_events counter cloud log
       with_connected_devices with_saved_devices with_incoming_messages
       open_w write_file set_is_connected set_rpc_reply_sent set_subscribed
       with_event_storage with_pack with_published_events
       with_token_outcomes with_counter with_cloud with_log install] in H.

(** * Properties *)

(** ** Dictionaries *)

Module PyDictFacts.
Section Facts.
Context {V : Type}.
Implicit Types (d : dict V) (k : string) (v : V).

Lemma contains_get d k :
  PyDict.contains d k = true <-> exists v, PyDict.get d k = Some v.
Proof.
  unfold PyDict.contains. destruct (PyDict.get d k) as [v|].
  - split; [intros _; now exists v | reflexivity].
  - split; [discriminate | intros [v Hv]; discriminate].
Qed.

Lemma get_set_same d k v : PyDict.get (PyDict.set d k v) k = Some v.
Proof.
  induction d as [|[k' v'] d IH]; simpl.
  - now rewrite String.eqb_refl.
  - destruct (String.eqb k' k) eqn:E; simpl.
    + now rewrite String.eqb_refl.
    + now rewrite E.
Qed.

Lemma get_set_other d k k0 v :
  k <> k0 -> PyDict.get (PyDict.set d k v) k0 = PyDict.get d k0.
Proof.
  intros Hne. induction d as [|[k' v'] d IH]; simpl.
  - destruct (String.eqb_spec k k0); [contradiction | reflexivity].
  - destruct (String.eqb_spec k' k) as [->|Hk]; simpl.
    + destruct (String.eqb_spec k k0); [contradiction | reflexivity].
    + destruct (String.eqb_spec k' k0); [reflexivity | exact IH].
Qed.

Lemma get_key_in d k : In k (PyDict.keys d) -> PyDict.contains d k = true.
Proof.
  unfold PyDict.contains.
  induction d as [|[k' v'] d IH]; simpl; [contradiction|].
  intros [->|Hin].
  - now rewrite String.eqb_refl.
  - destruct (String.eqb k' k); [reflexivity | now apply IH].
Qed.

Lemma get_notin d k : ~ In k (PyDict.keys d) -> PyDict.get d k = None.
Proof.
  induction d as [|[k' v'] d IH]; simpl; intros Hnotin; [reflexivity|].
  destruct (String.eqb_spec k' k) as [->|Hk].
  - exfalso. apply Hnotin. now left.
  - apply IH. intros Hin. apply Hnotin. now right.
Qed.

Lemma get_remove_same d k :
  NoDup (PyDict.keys d) -> PyDict.get (PyDict.remove d k) k = None.
Proof.
  induction d as [|[k' v'] d IH]; simpl; intros Hnd; [reflexivity|].
  inversion Hnd as [|? ? Hnotin Hnd']; subst.
  destruct (String.eqb_spec k' k) as [->|Hk].
  - now apply get_notin.
  - simpl. destruct (String.eqb_spec k' k); [contradiction | now apply IH].
Qed.
End Facts.
End PyDictFacts.

(** ** Device registry *)

Lemma add_device_when_saved (s : Service) device_name content device_type :
  PyDict.contains (_saved_devices s) device_name = true ->
  add_device device_name content device_type s = (Ok tt, s).
Proof.
  intros Hin. unfold add_device. run. now rewrite Hin.
Qed.

(** C9.  For a device name already in the saved-devices map,
    [add_device] with any content and any device type does nothing: it
    returns with the service unchanged, so both registry maps are as before,
    the persisted file has not been opened or written, and no call went to
    the cloud. *)
Theorem add_device_known_is_noop (s : Service) (device_name : string)
  (content : DeviceEntry) (device_type : PyVal) :
  PyDict.contains (_saved_devices s) device_name = true ->
  add_device device_name content device_type s = (Ok tt, s).
Proof.
  intros Hsaved. unfold add_device, bind, gets. cbn beta iota.
  rewrite Hsaved. reflexivity.
Qed.

Lemma add_device_known_is_noop_witness :
  PyDict.contains (_saved_devices Sample.with_d1) "d1" = true
  /\ add_device "d1" [("connector", PObj Sample.c2)] PNone Sample.with_d1
     = (Ok tt, Sample.with_d1).
Proof.
  split; [reflexivity|].
  apply (add_device_known_is_noop Sample.with_d1 "d1"). reflexivity.
Defined.

(** After [del_device] of a registered name, neither map has it. *)
Lemma del_device_forgets (s : Service) (device_name : string) :
  NoDup (PyDict.keys (__connected_devices s)) ->
  NoDup (PyDict.keys (_saved_devices s)) ->
  PyDict.contains (__connected_devices s) device_name = true ->
  PyDict.contains (_saved_devices s) device_name = true ->
  PyDict.get (__connected_devices (snd (del_device device_name s))) device_name
  = None
  /\ PyDict.get (_saved_devices (snd (del_device device_name s))) device_name
     = None.
Proof.
  intros Hconnected Hsaved Hc Hs.
  unfold del_device, del_key, __save_persistent_devices, tb_call, log_record.
  run. rewrite Hc. fields. rewrite Hs. fields. run. fields.
  destruct (data_to_save _ _) as [d|e|]; run; cbn [snd]; fields;
    split; now apply PyDictFacts.get_remove_same.
Qed.

(** [__save_persistent_devices] rewrites the file from the
    connected-devices map of the moment it runs, and touches nothing else
    but the log. *)
Lemma save_persistent_devices_run (s : Service) :
  exists s',
    __save_persistent_devices s = (Ok tt, s')
    /\ __connected_devices s' = __connected_devices s
    /\ _saved_devices s' = _saved_devices s
    /\ cloud s' = cloud s
    /\ connected_devices_json s' = registry_file s
    /\ file_writes s' = S (file_writes s).
Proof.
  unfold __save_persistent_devices, registry_file, log_record. run.
  cbn [open_w __connected_devices].
  destruct (data_to_save (__connected_devices s) []) as [d|e|];
    eexists; repeat split.
Qed.






(** X1.  [update_device] with a changed connector rewrites the file from
    the map as it is before the assignment: the file is left naming the
    connector the device had, while the map holds the new one. *)
Lemma update_device_writes_before_assigning (s : Service) device_name content
  (entry : DeviceEntry) :
  PyDict.get (__connected_devices s) device_name = Some entry ->
  PyVal_eqb (get_or_None entry "connector") content = false ->
  connected_devices_json (snd (update_device device_name "connector" content s))
  = registry_file s
  /\ __connected_devices (snd (update_device device_name "connector" content s))
     = PyDict.set (__connected_devices s) device_name
         (PyDict.set entry "connector" content).
Proof.
  intros Hget Hne. unfold update_device. run.
  cbn [String.eqb Ascii.eqb Bool.eqb]. rewrite Hget. run.
  rewrite Hne. cbn [negb].
  destruct (save_persistent_devices_run s) as (s' & -> & Hc & _ & _ & Hf & _).
  cbn beta iota. rewrite Hc, Hget. cbn. now rewrite Hf, Hc.
Qed.

(** C8.  Device [d1] is registered with connector [c1] and the file holds
    [{d1: c1}]; [update_device("d1", "connector", c2)] returns with the
    connected-devices map giving [d1] the connector [c2], and with the
    file rewritten once more, again as [{d1: c1}]: the file is written
    before the assignment, so it names the previous connector. *)
Theorem update_device_file_names_previous_connector :
  exists s',
    update_device "d1" "connector" (PObj Sample.c2) Sample.with_d1 = (Ok tt, s')
    /\ data_to_save (__connected_devices s') [] = Ok [("d1", "c2")]
    /\ connected_devices_json s' = FileJson [("d1", "c1")]
    /\ file_writes s' = S (file_writes Sample.with_d1).
Proof.
  by_running.
Qed.

(** ** Reconnect *)

(** A loop whose body leaves the service as it is does so as a whole. *)
Lemma for_each_fixed {A : Type} (l : list A) (body : A -> M Service unit)
  (s : Service) :
  (forall x, In x l -> snd (body x s) = s) -> snd (for_each l body s) = s.
Proof.
  induction l as [|x l IH]; intros Hbody; [reflexivity|].
  cbn [for_each]. unfold bind.
  pose proof (Hbody x (or_introl eq_refl)) as Hx.
  destruct (body x s) as [[[]|e|] s1]; cbn in Hx; subst s1; try reflexivity.
  apply IH. intros y Hy. apply Hbody. now right.
Qed.

(** The body of the reconnect loop does nothing for a saved name. *)
Lemma readd_saved_device_fixed (s : Service) (device : string) :
  PyDict.contains (_saved_devices s) device = true ->
  snd (readd_saved_device device s) = s.
Proof.
  intros Hsaved. unfold readd_saved_device. run.
  destruct (PyDict.get (_saved_devices s) device) as [entry|] eqn:E;
    [|reflexivity].
  run.
  destruct (PyDict.get entry "connector") as [connector|]; [|reflexivity].
  run. rewrite E. run.
  destruct (PyDict.get entry "device_type") as [device_type|]; [|reflexivity].
  run. now rewrite add_device_when_saved.
Qed.

(** X2.  On every pass of the connection checks, whatever the flags and
    the registry, no [gw_connect_device] call is issued. *)
Lemma connection_checks_announce_nothing (s : Service) :
  announcements (cloud (snd (main_loop_connection_checks s)))
  = announcements (cloud s).
Proof.
  assert (Hloop : forall s0 : Service,
    announcements (cloud (snd (
      (saved <- gets _saved_devices ;;
       for_each (PyDict.keys saved) readd_saved_device ;;;
       subscribe_to_service_topics ;;;
       modify (set_subscribed true) ;;;
       ret false) s0))) = announcements (cloud s0)).
  { intros s0. run.
    pose proof (for_each_fixed (PyDict.keys (_saved_devices s0))
                  readd_saved_device s0
                  (fun k Hk => readd_saved_device_fixed s0 k
                                 (PyDictFacts.get_key_in _ k Hk))) as Hsame.
    destruct (for_each _ _ s0) as [[[]|e|] s1]; cbn in Hsame; subst s1;
      try reflexivity.
    unfold subscribe_to_service_topics, tb_call. run. cbn.
    unfold announcements. rewrite !filter_app. cbn [filter].
    now rewrite !app_nil_r. }
  unfold main_loop_connection_checks.
  unfold bind at 1. unfold gets at 1. unfold bind at 1. unfold gets at 1.
  unfold bind at 1.
  destruct (negb (tb_is_connected s) && __subscribed_to_rpc_topics s).
  - unfold bind at 1, modify at 1, ret at 1. unfold bind at 1, gets at 1.
    unfold bind at 1, gets at 1. cbn [tb_is_connected set_subscribed
      __subscribed_to_rpc_topics negb andb].
    rewrite andb_true_r.
    destruct (tb_is_connected s); [apply (Hloop (set_subscribed false s))
                                  | reflexivity].
  - unfold ret at 1. unfold bind at 1, gets at 1. unfold bind at 1, gets at 1.
    destruct (tb_is_connected s && negb (__subscribed_to_rpc_topics s));
      [apply Hloop | reflexivity].
Qed.

(** C4.  Device [d1] is in the saved-devices registry; the connection is
    lost and one pass of the main loop's checks clears the subscribed
    flag; the connection returns and the next pass re-subscribes to the
    service topics.  The calls this reconnect adds on the cloud client are
    the five subscriptions only: no [gw_connect_device] is issued for
    [d1], because [add_device] returns at once for a saved name. *)
Theorem reconnect_does_not_reannounce :
  PyDict.keys (_saved_devices Sample.with_d1) = ["d1"]
  /\ exists lost back,
       main_loop_connection_checks (set_is_connected false Sample.with_d1)
       = (Ok false, lost)
       /\ __subscribed_to_rpc_topics lost = false
       /\ main_loop_connection_checks (set_is_connected true lost)
          = (Ok false, back)
       /\ __subscribed_to_rpc_topics back = true
       /\ cloud back
          = cloud Sample.with_d1
            ++ [Client.clean_device_sub_dict;
                Client.gw_set_server_side_rpc_request_handler;
                Client.set_server_side_rpc_request_handler;
                Client.subscribe_to_all_attributes;
                Client.gw_subscribe_to_all_attributes]
       /\ announcements (cloud back) = announcements (cloud Sample.with_d1).
Proof.
  split; [reflexivity|].
  exists (snd (main_loop_connection_checks
                 (set_is_connected false Sample.with_d1))).
  exists (snd (main_loop_connection_checks
                 (set_is_connected true
                    (snd (main_loop_connection_checks
                            (set_is_connected false Sample.with_d1)))))).
  vm_compute. repeat split.
Qed.

(** ** Ingress *)

(** The loop over the entries, from any intermediate state of its two
    accumulators. *)
Lemma split_telemetry_entries (items : list PyVal) :
  forallb telemetry_entry items = true ->
  forall (telemetry : dict PyVal) (telemetry_with_ts : list PyVal),
    split_telemetry items telemetry telemetry_with_ts
    = Ok (fold_left SpecWords.merge
            (filter (fun item => negb (SpecWords.explicit_ts item)) items)
            telemetry,
          telemetry_with_ts
          ++ map SpecWords.ts_values (filter SpecWords.explicit_ts items)).
Proof.
  induction items as [|item items IH]; intros Hentries telemetry with_ts.
  - cbn. now rewrite app_nil_r.
  - cbn [forallb] in Hentries. apply andb_prop in Hentries as [Hitem Hrest].
    destruct item as [| | | | |d|]; try discriminate.
    cbn [split_telemetry filter SpecWords.explicit_ts].
    cbn [telemetry_entry] in Hitem.
    destruct (is_None (get_or_None d "ts")) eqn:Hts; cbn [negb].
    + cbn [fold_left SpecWords.merge]. now apply IH.
    + cbn [orb] in Hitem.
      destruct (PyDict.get d "values") as [[| | | | |values|]|] eqn:Hvalues;
        try discriminate.
      rewrite (IH Hrest). cbn [map SpecWords.ts_values].
      unfold get_or_None at 3. rewrite Hvalues.
      now rewrite <- app_assoc.
Qed.

(** The normalization on a list of entries, in the terms of the
    specification. *)
Lemma normalize_telemetry_entries (now_ms : Z) (data : dict PyVal)
  (items : list PyVal) :
  PyDict.get data "telemetry" = Some (PList items) ->
  forallb telemetry_entry items = true ->
  normalize_telemetry now_ms data
  = Ok (PyDict.set data "telemetry" (SpecWords.normal_telemetry now_ms items)).
Proof.
  intros Htelemetry Hentries. unfold normalize_telemetry, SpecWords.normal_telemetry.
  rewrite Htelemetry. cbn [iterate].
  rewrite (split_telemetry_entries items Hentries [] []). cbn [app].
  now destruct (filter SpecWords.explicit_ts items).
Qed.

(** For an ingress item whose [telemetry] is a list of entries (each an
    object, with a [values] object when it has a [ts]), the normalization
    of [__send_to_storage] replaces [telemetry] by the normal form of the
    specification: the list of [{ts, values}] of the entries with an
    explicit [ts] when there is one, otherwise the single object
    [{ts: now_ms, values: m}] with [m] the left-to-right merge of the bare
    maps, empty when there is none. *)
Lemma telemetry_is_normalized (now_ms : Z) (data : dict PyVal)
  (items : list PyVal) :
  PyDict.get data "telemetry" = Some (PList items) ->
  forallb telemetry_entry items = true ->
  normalize_telemetry now_ms data
  = Ok (PyDict.set data "telemetry" (SpecWords.normal_telemetry now_ms items)).
Proof.
  intros Htelemetry Hentries. unfold normalize_telemetry.
  rewrite Htelemetry. cbn [iterate].
  rewrite (split_telemetry_entries items Hentries [] []). cbn [app].
  unfold SpecWords.normal_telemetry.
  destruct (filter SpecWords.explicit_ts items); reflexivity.
Qed.


(** An item with a well-formed telemetry list is put in its normal form
    when the storage has room. *)
Lemma store_item_puts (now_ms : Z) (data : dict PyVal) (items : list PyVal)
  (s : Service) :
  PyDict.get data "telemetry" = Some (PList items) ->
  forallb telemetry_entry items = true ->
  (length (stored (_event_storage s)) < max_records (_event_storage s))%nat ->
  exists s',
    store_item now_ms data s = (Ok tt, s')
    /\ stored (_event_storage s')
       = stored (_event_storage s)
         ++ [dumps (PDict (PyDict.set data "telemetry"
                             (SpecWords.normal_telemetry now_ms items)))].
Proof.
  intros Htelemetry Hentries Hroom. unfold store_item. run.
  rewrite (normalize_telemetry_entries now_ms data items Htelemetry Hentries).
  run. unfold put. apply Nat.ltb_lt in Hroom. rewrite Hroom. run. cbn.
  eexists. split; reflexivity.
Qed.

(** An item of the gateway itself. *)
Lemma ingest_own_item_is_stored (now_ms : Z) (data : dict PyVal)
  (items : list PyVal) (s : Service) :
  PyDict.get data "telemetry" = Some (PList items) ->
  forallb telemetry_entry items = true ->
  (length (stored (_event_storage s)) < max_records (_event_storage s))%nat ->
  exists s',
    ingest now_ms (name (settings s)) data s = (Ok Continue, s')
    /\ stored (_event_storage s')
       = stored (_event_storage s)
         ++ [dumps (PDict (PyDict.set
                             (PyDict.set data "deviceName"
                                (PStr "currentThingsBoardGateway"))
                             "telemetry"
                             (SpecWords.normal_telemetry now_ms items)))].
Proof.
  intros Htelemetry Hentries Hroom. unfold ingest.
  unfold try_except, bind at 1, gets at 1. rewrite String.eqb_refl.
  cbn [negb]. unfold bind at 1, ret at 1. unfold bind.
  assert (Hget : PyDict.get (PyDict.set data "deviceName"
                               (PStr "currentThingsBoardGateway")) "telemetry"
                 = Some (PList items)).
  { rewrite PyDictFacts.get_set_other by discriminate. exact Htelemetry. }
  destruct (store_item_puts now_ms _ items s Hget Hentries Hroom)
    as (s' & -> & Hstored).
  exists s'. now split.
Qed.

(** [add_device] always returns, and leaves the storage and the settings
    as they are. *)
Lemma add_device_returns (device_name : string) (content : DeviceEntry)
  (device_type : PyVal) (s : Service) :
  exists s',
    add_device device_name content device_type s = (Ok tt, s')
    /\ _event_storage s' = _event_storage s
    /\ settings s' = settings s.
Proof.
  unfold add_device, __save_persistent_devices, tb_call, log_record. run.
  destruct (PyDict.contains (_saved_devices s) device_name); cbn [negb];
    [eexists; repeat split|].
  run. fields.
  destruct (data_to_save _ _) as [d|e|]; run; eexists; repeat split.
Qed.

(** An item of another connector that passes validation, with a
    well-formed telemetry list, is put in its normal form when the storage
    has room, provided the registration it may need can be made: the
    device is registered already, or the cloud is not connected, or the
    connector is loaded and the item names a device type. *)
Lemma ingest_valid_item_is_stored (now_ms : Z) (connector_name device : string)
  (data : dict PyVal) (items : list PyVal) (s : Service) :
  connector_name <> name (settings s) ->
  PyDict.get data "deviceName" = Some (PStr device) ->
  PyDict.get data "telemetry" = Some (PList items) ->
  forallb telemetry_entry items = true ->
  PyDict.contains (get_devices s) device = true
  \/ tb_is_connected s = false
  \/ (PyDict.contains (available_connectors (settings s)) connector_name = true
      /\ PyDict.contains data "deviceType" = true) ->
  (length (stored (_event_storage s)) < max_records (_event_storage s))%nat ->
  exists s',
    ingest now_ms connector_name data s = (Ok Continue, s')
    /\ stored (_event_storage s')
       = stored (_event_storage s)
         ++ [dumps (PDict (PyDict.set data "telemetry"
                             (SpecWords.normal_telemetry now_ms items)))].
Proof.
  intros Hother Hname Htelemetry Hentries Hregister Hroom.
  assert (Hvalid : validate_converted_data data = true).
  { unfold validate_converted_data, section_present, get_or_None.
    now rewrite Hname, Htelemetry. }
  apply String.eqb_neq in Hother.
  assert (Hstore : forall s0 : Service,
            _event_storage s0 = _event_storage s ->
            exists s',
              (store_item now_ms data ;;; ret Continue) s0 = (Ok Continue, s')
              /\ stored (_event_storage s')
                 = stored (_event_storage s)
                   ++ [dumps (PDict (PyDict.set data "telemetry"
                                       (SpecWords.normal_telemetry now_ms items)))]).
  { intros s0 Hstorage. unfold bind.
    destruct (store_item_puts now_ms data items s0 Htelemetry Hentries)
      as (s' & -> & Hstored); [now rewrite Hstorage|].
    exists s'. split; [reflexivity|]. now rewrite Hstored, Hstorage. }
  unfold ingest, try_except, bind at 1, gets at 1.
  rewrite Hother, Hvalid. cbn [negb].
  unfold bind at 1. unfold bind at 1. unfold bind at 1. unfold subscript.
  rewrite Hname. unfold ret at 1, as_key, ret at 1.
  unfold bind at 1, gets at 1. unfold bind at 1, gets at 1.
  unfold bind at 1. unfold get_devices in *.
  destruct (negb (PyDict.contains (__connected_devices s) device)
            && tb_is_connected s) eqn:Hadd.
  - apply andb_prop in Hadd as [Hnew Hconnected].
    destruct Hregister as [Hknown|[Hoff|[Hconnector Htype]]].
    + rewrite Hknown in Hnew. discriminate.
    + congruence.
    + apply PyDictFacts.contains_get in Hconnector as (connector & Hconnector).
      apply PyDictFacts.contains_get in Htype as (device_type & Htype).
      unfold bind at 1, gets at 1. unfold bind at 1. rewrite Hconnector.
      unfold ret at 1. unfold bind at 1. rewrite Htype. unfold ret at 1.
      destruct (add_device_returns device [("connector", PObj connector)]
                  device_type s) as (s1 & -> & Hstorage & _).
      unfold bind at 1, modify at 1. unfold ret at 1.
      destruct (Hstore (with_incoming_messages (count_message connector_name) s1)
                  Hstorage) as (s2 & -> & Hs2).
      exists s2. now split.
  - unfold ret at 1. unfold bind at 1, modify at 1. unfold ret at 1.
    destruct (Hstore (with_incoming_messages (count_message connector_name) s)
                eq_refl) as (s2 & -> & Hs2).
    exists s2. now split.
Qed.

(** An item of another connector that fails validation makes
    [__send_to_storage] return: the items behind it stay in the queue and
    nothing is put. *)
Lemma consumer_returns_on_invalid_item (clock : nat -> Z) (n : nat)
  (connector_name : string) (data : dict PyVal)
  (rest : list (string * dict PyVal)) (s : Service) :
  connector_name <> name (settings s) ->
  validate_converted_data data = false ->
  __send_to_storage clock n ((connector_name, data) :: rest) s
  = (Return, rest,
     with_log (fun l => l ++ [log_error "Data from connector is invalid."]) s).
Proof.
  intros Hother Hinvalid. cbn [__send_to_storage]. unfold ingest, log_record.
  run. apply String.eqb_neq in Hother. rewrite Hother, Hinvalid. reflexivity.
Qed.

(** C7.  The device [d1] is known and connector [c1] hands over an item
    whose telemetry is the single object [{ts, values}], a shape of the
    data model.  Its one entry carries an explicit [ts], so the normal
    form to store is the list of that [{ts, values}] entry.  The code
    iterates over the object, gets its keys, and [item.get] on the key
    [ts] raises: nothing is stored.  Likewise for a telemetry that is a
    key-to-value map, whose normal form is [{ts: now_ms, values: map}].
    The same entries handed over in a list are stored in their normal
    form; of a queue with the four items, [__send_to_storage] stores the
    two with a list and logs an error for each of the other two. *)
Theorem single_object_telemetry_is_not_normalized :
  let now_ms := 1700000001000 in
  let entry := PDict [("ts", PInt 1700000000000);
                      ("values", PDict [("t", PInt 21)])] in
  let bare := PDict [("t", PInt 21)] in
  let in_list (item : PyVal) :=
    [("deviceName", PStr "d1"); ("deviceType", PStr "sensor");
     ("telemetry", PList [item])] in
  PyDict.get Sample.single_object "telemetry" = Some entry
  /\ PyDict.get Sample.key_value_map "telemetry" = Some bare
  /\ SpecWords.normal_telemetry now_ms [entry] = PList [entry]
  /\ SpecWords.normal_telemetry now_ms [bare]
     = PDict [("ts", PInt now_ms); ("values", PDict [("t", PInt 21)])]
  /\ normalize_telemetry now_ms Sample.single_object
     = Raise (AttributeError "object has no attribute 'get'")
  /\ normalize_telemetry now_ms Sample.key_value_map
     = Raise (AttributeError "object has no attribute 'get'")
  /\ (exists s',
        ingest now_ms "c1" Sample.single_object Sample.with_d1 = (Ok Continue, s')
        /\ stored (_event_storage s') = []
        /\ log s' = [log_error "object has no attribute 'get'"])
  /\ (exists s',
        ingest now_ms "c1" Sample.key_value_map Sample.with_d1 = (Ok Continue, s')
        /\ stored (_event_storage s') = []
        /\ log s' = [log_error "object has no attribute 'get'"])
  /\ (exists s',
        ingest now_ms "c1" (in_list entry) Sample.with_d1 = (Ok Continue, s')
        /\ stored (_event_storage s')
           = [dumps (PDict [("deviceName", PStr "d1");
                            ("deviceType", PStr "sensor");
                            ("telemetry", PList [entry])])]
        /\ log s' = [])
  /\ (exists s',
        ingest now_ms "c1" (in_list bare) Sample.with_d1 = (Ok Continue, s')
        /\ stored (_event_storage s')
           = [dumps (PDict [("deviceName", PStr "d1");
                            ("deviceType", PStr "sensor");
                            ("telemetry",
                             PDict [("ts", PInt now_ms);
                                    ("values", PDict [("t", PInt 21)])])])]
        /\ log s' = [])
  /\ (exists s',
        __send_to_storage (fun _ => now_ms) 0
          [("c1", Sample.single_object); ("c1", in_list entry);
           ("c1", Sample.key_value_map); ("c1", in_list bare)] Sample.with_d1
        = (Continue, [], s')
        /\ stored (_event_storage s')
           = [dumps (PDict [("deviceName", PStr "d1");
                            ("deviceType", PStr "sensor");
                            ("telemetry", PList [entry])]);
              dumps (PDict [("deviceName", PStr "d1");
                            ("deviceType", PStr "sensor");
                            ("telemetry",
                             PDict [("ts", PInt now_ms);
                                    ("values", PDict [("t", PInt 21)])])])]
        /\ log s' = [log_error "object has no attribute 'get'";
                     log_error "object has no attribute 'get'"]).
Proof.
  cbv zeta. by_running.
Qed.

(** C2.  Three items of connector [c1] pass validation ([deviceName]
    present, a payload section present) and yet nothing is put: the one
    with attributes and no [telemetry] key stops at [data["telemetry"]]
    with [KeyError]; the ones whose telemetry is a single [{ts, values}]
    object or a key-to-value map stop at [item.get] on a key of that
    object.  The handler of the loop logs the exception and the item is
    gone. *)
Theorem attributes_only_item_is_dropped :
  validate_converted_data Sample.attributes_only = true
  /\ validate_converted_data Sample.single_object = true
  /\ validate_converted_data Sample.key_value_map = true
  /\ (exists s',
        ingest (Sample.clock 0) "c1" Sample.attributes_only Sample.started
        = (Ok Continue, s')
        /\ stored (_event_storage s') = []
        /\ log s' = [log_error "'telemetry'"])
  /\ (exists s',
        ingest (Sample.clock 0) "c1" Sample.single_object Sample.started
        = (Ok Continue, s')
        /\ stored (_event_storage s') = []
        /\ log s' = [log_error "object has no attribute 'get'"])
  /\ (exists s',
        ingest (Sample.clock 0) "c1" Sample.key_value_map Sample.started
        = (Ok Continue, s')
        /\ stored (_event_storage s') = []
        /\ log s' = [log_error "object has no attribute 'get'"]).
Proof.
  by_running.
Qed.

(** C3.  The queue holds an item of connector [c1] without [deviceName],
    then a valid item of the same connector, which alone would be stored.
    On the first the consumer logs the error and returns from
    [__send_to_storage]: the thread is over, the valid item is still in
    the queue and the storage is empty. *)
Theorem invalid_item_stops_the_consumer :
  validate_converted_data Sample.nameless = false
  /\ validate_converted_data Sample.bare_list = true
  /\ (exists s',
        __send_to_storage Sample.clock 0 [("c1", Sample.bare_list)] Sample.started
        = (Continue, [], s')
        /\ length (stored (_event_storage s')) = 1%nat)
  /\ (exists s',
        __send_to_storage Sample.clock 0
          [("c1", Sample.nameless); ("c1", Sample.bare_list)] Sample.started
        = (Return, [("c1", Sample.bare_list)], s')
        /\ stored (_event_storage s') = []
        /\ log s' = [log_error "Data from connector is invalid."]
        /\ _connector_incoming_messages s' = []).
Proof.
  by_running.
Qed.

(** ** RPC dispatch *)

Section RpcFacts.

Variable _handle_rpc_for_connector : PyVal -> dict PyVal -> M Service unit.
Variable server_side_rpc_handler : Connector -> dict PyVal -> M Service PyVal.
Variable __rpc_gateway_processing : Z -> dict PyVal -> M Service PyVal.

Let handler : Z -> dict PyVal -> M Service unit :=
  _rpc_request_handler _handle_rpc_for_connector server_side_rpc_handler
    __rpc_gateway_processing.

(** X3.  With the remote shell enabled, a gateway-targeted request
    whose method prefix is no connector type with a configuration, not
    [gateway] and no shell command is answered on its request id with
    the error text and the code 404. *)
Lemma unknown_module_gets_404 (request_id : Z) (content : dict PyVal)
  (method : string) (shell_commands : list string) (s : Service) :
  PyDict.get content "device" = None ->
  PyDict.get content "method" = Some (PStr method) ->
  let module := fst (split_on "_" method) in
  match PyDict.get (connectors_configs (settings s)) module with
  | Some (_ :: _) => False
  | _ => True
  end ->
  module <> "gateway" ->
  __remote_shell (settings s) = Some shell_commands ->
  existsb (String.eqb module) shell_commands = false ->
  handler request_id content s
  = (Ok tt,
     set_rpc_reply_sent false
       (with_cloud
          (fun l => l ++
             [Client.send_rpc_reply request_id
                (Dumps (PDict
                   [("error",
                     PStr (module ++
                           " - connector not found in available connectors."));
                    ("code", PInt 404)]))
                (PInt 0)])
          (set_rpc_reply_sent true
             (with_log (fun l => l ++ [log_error "Connector not found"]) s)))).
Proof.
  intros Hdevice Hmethod module Hconfigs Hgateway Hshell Hcommands.
  unfold handler, _rpc_request_handler, get_or_None. rewrite Hdevice.
  cbn [is_None negb]. run. rewrite Hmethod. run.
  unfold split. fold module.
  destruct (split_on "_" method) as [piece pieces] eqn:Hsplit.
  cbn [fst] in module. subst module. run.
  assert (Hroute :
    match PyDict.get (connectors_configs (settings s)) piece with
    | Some (_ :: _) => False
    | _ => True
    end) by exact Hconfigs.
  apply String.eqb_neq in Hgateway.
  unfold in_shell_commands, reply_result, send_rpc_reply, log_record, tb_call.
  destruct (PyDict.get (connectors_configs (settings s)) piece) as [[|c cs]|];
    try contradiction; run; rewrite Hgateway; run; rewrite Hshell; run;
    rewrite Hcommands; run; reflexivity.
Qed.

(** C5.  The remote shell is disabled and the cloud sends the
    gateway-targeted request [{method: "foo_bar"}] with id 7; [foo] is no
    loaded connector type and is not [gateway].  The test
    [module in self.__remote_shell.shell_commands] raises
    [AttributeError] on [None], and the reply on id 7 is the handler's
    template for exceptions, with that text and the code 500: no reply
    with the code 404 is sent. *)
Theorem unknown_module_without_shell_gets_500 :
  __remote_shell (settings Sample.started) = None
  /\ PyDict.get (connectors_configs (settings Sample.started)) "foo" = None
  /\ exists s',
       handler 7 [("method", PStr "foo_bar")] Sample.started = (Ok tt, s')
       /\ cloud s'
          = [Client.send_rpc_reply 7
               (Template500 "'NoneType' object has no attribute 'shell_commands'")
               (PInt 0)]
       /\ log s'
          = [log_exception
               (AttributeError "'NoneType' object has no attribute 'shell_commands'")].
Proof.
  do 2 (split; [reflexivity|]).
  match goal with
  | |- exists s', ?run = (_, s') /\ _ => exists (snd run)
  end.
  vm_compute. repeat split.
Qed.

End RpcFacts.

(** ** Uplink: the drain and the commit *)

(** One turn of the drain loop in a quiet state: the token is taken and
    its report becomes the value of [success]. *)
Lemma drain_turn_quiet (event : Token) (rest : list Token) (success : bool)
  (s : Service) :
  quiet s ->
  exists s',
    quiet s'
    /\ drain_published_events (event :: rest) success s
       = drain_published_events rest (acknowledged event) s'.
Proof.
  intros (Hc & Hp & Hr & Hs & Hq).
  cbn [drain_published_events]. unfold token_wait, acknowledged, sleep, log_record.
  run. rewrite Hp, Hc, Hr. cbn [orb negb]. run. fields. rewrite Hs. fields.
  rewrite Hc, Hp. cbn [andb negb]. run. fields. rewrite Hq.
  cbn [Z.eqb Pos.eqb]. run. fields. rewrite Hs.
  destruct (token_get event) as [rc|e]; run; fields; rewrite ?Hs;
    eexists; (split; [|reflexivity]); repeat split; assumption.
Qed.

(** X4.  In a quiet drain of QoS 1 the value of [success] is what the
    last token reported: the reports of the tokens before it are
    overwritten. *)
Lemma drain_reports_last_token (queue : list Token) (last : Token) :
  forall (success : bool) (s : Service),
    quiet s ->
    fst (drain_published_events (queue ++ [last]) success s)
    = Ok (acknowledged last).
Proof.
  induction queue as [|event queue IH]; intros success s Hquiet.
  - cbn [app].
    destruct (drain_turn_quiet last [] success s Hquiet) as (s' & _ & ->).
    reflexivity.
  - cbn [app].
    destruct (drain_turn_quiet event (queue ++ [last]) success s Hquiet)
      as (s' & Hquiet' & ->).
    now apply IH.
Qed.

(** C1.  QoS 1, connected throughout; the pack holds an event of [d1] and
    one of [d2], so one pass of the worker makes two publishes.  The
    token of the first reports a failure, the token of the second an
    acknowledgement.  The drain ends with [success] true and the pack is
    committed: the storage no longer holds the two events.  Likewise when
    the connection is lost between the test at the head of the drain loop
    and the test after the token is taken from the queue: the loop is left
    with [success] still true and the pack is committed. *)
Theorem failed_token_does_not_prevent_commit :
  (exists s',
     read_data_from_storage_pass getsizeof_ascii Sample.first_token_fails
     = (Ok tt, s')
     /\ length (get_event_pack (_event_storage Sample.first_token_fails)) = 2%nat
     /\ length (cloud s') = 2%nat
     /\ _event_storage s'
        = event_pack_processing_done (_event_storage Sample.first_token_fails)
     /\ stored (_event_storage s') = [])
  /\ drain_published_events
       [mkToken (Client.gw_send_telemetry "d1" []) (Returns 1);
        mkToken (Client.gw_send_telemetry "d2" []) (Returns TB_ERR_SUCCESS)]
       true Sample.started
     = (Ok true, Sample.started)
  /\ (exists s',
        read_data_from_storage_pass getsizeof_ascii Sample.disconnect_in_drain
        = (Ok tt, s')
        /\ tb_is_connected s' = false
        /\ stored (_event_storage s') = []).
Proof.
  by_running.
Qed.


(** ** Uplink: the size of the publishes *)

Module PackFacts.
Section Facts.
Context {V : Type}.
Implicit Types (d : dict V) (k : string) (v : V).

Lemma keys_set_present d k v :
  PyDict.contains d k = true -> PyDict.keys (PyDict.set d k v) = PyDict.keys d.
Proof.
  unfold PyDict.contains, PyDict.keys.
  induction d as [|[k' v'] d IH]; cbn; [discriminate|].
  destruct (String.eqb_spec k' k) as [->|Hk]; cbn; intros H.
  - reflexivity.
  - f_equal. now apply IH.
Qed.

Lemma keys_set_absent d k v :
  PyDict.get d k = None -> PyDict.keys (PyDict.set d k v) = PyDict.keys d ++ [k].
Proof.
  unfold PyDict.keys.
  induction d as [|[k' v'] d IH]; cbn; [reflexivity|].
  destruct (String.eqb_spec k' k) as [->|Hk]; cbn; intros H.
  - discriminate.
  - f_equal. now apply IH.
Qed.

Lemma get_none_notin d k : PyDict.get d k = None -> ~ In k (PyDict.keys d).
Proof.
  induction d as [|[k' v'] d IH]; cbn; intros H; [tauto|].
  destruct (String.eqb_spec k' k) as [->|Hk]; [discriminate|].
  intros [Heq|Hin]; [contradiction | now apply IH].
Qed.

Lemma get_app_notin d1 d2 k :
  ~ In k (PyDict.keys d1) -> PyDict.get (d1 ++ d2) k = PyDict.get d2 k.
Proof.
  induction d1 as [|[k' v'] d1 IH]; cbn; intros H; [reflexivity|].
  destruct (String.eqb_spec k' k) as [->|Hk]; [tauto|].
  apply IH. tauto.
Qed.

Lemma set_app_notin d1 d2 k v :
  ~ In k (PyDict.keys d1) -> PyDict.set (d1 ++ d2) k v = d1 ++ PyDict.set d2 k v.
Proof.
  induction d1 as [|[k' v'] d1 IH]; cbn; intros H; [reflexivity|].
  destruct (String.eqb_spec k' k) as [->|Hk]; [tauto|].
  f_equal. apply IH. tauto.
Qed.

Lemma nodup_set d k v :
  NoDup (PyDict.keys d) -> NoDup (PyDict.keys (PyDict.set d k v)).
Proof.
  intros Hnd. destruct (PyDict.get d k) as [v0|] eqn:Hget.
  - rewrite keys_set_present; [exact Hnd|].
    unfold PyDict.contains. now rewrite Hget.
  - rewrite keys_set_absent by exact Hget.
    apply NoDup_app; [exact Hnd | repeat constructor; cbn; tauto |].
    intros x Hx [Heq|[]]. subst x. now apply (get_none_notin d k).
Qed.

End Facts.
End PackFacts.

Section SizeFacts.

Variable getsizeof : string -> Z.
Hypothesis getsizeof_header : forall text, 2 <= getsizeof text.

Lemma entry_size_nonneg item : 0 <= entry_size getsizeof item.
Proof.
  unfold entry_size. specialize (getsizeof_header (py_str item)). lia.
Qed.

Lemma telemetry_size_cons item entries :
  telemetry_size getsizeof (item :: entries)
  = entry_size getsizeof item + telemetry_size getsizeof entries.
Proof. reflexivity. Qed.

Lemma telemetry_size_nonneg entries : 0 <= telemetry_size getsizeof entries.
Proof.
  induction entries as [|item entries IH]; [cbn; lia|].
  rewrite telemetry_size_cons. pose proof (entry_size_nonneg item). lia.
Qed.

Lemma telemetry_size_app entries item :
  telemetry_size getsizeof (entries ++ [item])
  = telemetry_size getsizeof entries + entry_size getsizeof item.
Proof.
  induction entries as [|x entries IH]; cbn [app];
    rewrite ?telemetry_size_cons; [cbn; lia | lia].
Qed.

Lemma keys_blank pack : PyDict.keys (blank pack) = PyDict.keys pack.
Proof. unfold PyDict.keys, blank. rewrite map_map. reflexivity. Qed.

Lemma get_blank pack device :
  PyDict.contains pack device = true ->
  PyDict.get (blank pack) device = Some (mkDeviceData [] []).
Proof.
  unfold PyDict.contains.
  induction pack as [|[d data] pack IH]; cbn; [discriminate|].
  destruct (String.eqb d device); [reflexivity | exact IH].
Qed.

End SizeFacts.
Section DeviceFacts.

Lemma keeps_devices_refl s : keeps_devices s s.
Proof. intros device H. exact H. Qed.

Lemma keeps_devices_trans s1 s2 s3 :
  keeps_devices s1 s2 -> keeps_devices s2 s3 -> keeps_devices s1 s3.
Proof. intros H12 H23 device H. apply H23, H12, H. Qed.

Lemma contains_set_other (pack : dict DeviceData) device device' data :
  PyDict.contains pack device' = true ->
  PyDict.contains (PyDict.set pack device data) device' = true.
Proof.
  unfold PyDict.contains. destruct (String.eqb_spec device device') as [->|Hne].
  - now rewrite PyDictFacts.get_set_same.
  - now rewrite PyDictFacts.get_set_other.
Qed.

Lemma contains_blank (pack : dict DeviceData) device :
  PyDict.contains pack device = true ->
  PyDict.contains (blank pack) device = true.
Proof.
  intros H. unfold PyDict.contains. now rewrite (get_blank pack device H).
Qed.

End DeviceFacts.
Section PassFacts.

(** [sleep] changes the flags only. *)
Lemma sleep_flags (s : Service) :
  exists s',
    sleep s = (Ok tt, s')
    /\ settings s' = settings s
    /\ cloud s' = cloud s
    /\ devices_data_in_event_pack s' = devices_data_in_event_pack s.
Proof.
  unfold sleep, modify. destruct (schedule s) as [|w rest]; eexists;
    repeat split.
Qed.

Lemma wait_rpc_reply_sent_flags (coming : list World) :
  forall s : Service,
    settings (snd (wait_rpc_reply_sent coming s)) = settings s
    /\ cloud (snd (wait_rpc_reply_sent coming s)) = cloud s
    /\ devices_data_in_event_pack (snd (wait_rpc_reply_sent coming s))
       = devices_data_in_event_pack s.
Proof.
  induction coming as [|w rest IH]; intros s; cbn [wait_rpc_reply_sent];
    destruct (__rpc_reply_sent s); cbn [snd]; try (repeat split; reflexivity).
  destruct (IH (install w rest s)) as (H1 & H2 & H3).
  rewrite H1, H2, H3. repeat split.
Qed.

(** The drain makes no call on the cloud client. *)
Lemma drain_published_events_silent (queue : list Token) :
  forall (success : bool) (s : Service),
    settings (snd (drain_published_events queue success s)) = settings s
    /\ cloud (snd (drain_published_events queue success s)) = cloud s.
Proof.
  induction queue as [|event rest IH]; intros success s;
    cbn [drain_published_events]; [split; reflexivity|].
  unfold token_wait, log_record. run.
  destruct (remote_config_in_process s || negb (tb_is_connected s)
            || __rpc_reply_sent s); [split; reflexivity|].
  run. destruct (sleep_flags (with_published_events (fun _ => rest) s))
    as (s1 & -> & S1 & C1 & _).
  run. fields. fields_in S1. fields_in C1.
  destruct (tb_is_connected s1 && negb (remote_config_in_process s1));
    [|run; cbn [snd]; now split].
  run. destruct (quality_of_service (settings s1) =? 1).
  - destruct (sleep_flags s1) as (s2 & -> & S2 & C2 & _). run.
    destruct (token_get event) as [rc|e]; run.
    + destruct (sleep_flags s2) as (s3 & -> & S3 & C3 & _). run.
      destruct (IH (rc =? TB_ERR_SUCCESS) s3) as (H1 & H2).
      rewrite H1, H2. split; congruence.
    + destruct (sleep_flags (with_log (fun l => l ++ [log_exception e]) s2))
        as (s3 & -> & S3 & C3 & _). run.
      destruct (IH false s3) as (H1 & H2).
      rewrite H1, H2. fields_in S3. fields_in C3. split; congruence.
  - run. destruct (sleep_flags s1) as (s2 & -> & S2 & C2 & _). run.
    destruct (IH true s2) as (H1 & H2).
    rewrite H1, H2. split; congruence.
Qed.

Lemma drain_and_commit_silent (s : Service) :
  settings (snd (drain_and_commit s)) = settings s
  /\ cloud (snd (drain_and_commit s)) = cloud s.
Proof.
  unfold drain_and_commit. run.
  destruct (tb_is_connected s && negb (remote_config_in_process s));
    [|split; reflexivity].
  run.
  destruct (drain_published_events_silent (_published_events s) true s)
    as (H1 & H2).
  destruct (drain_published_events (_published_events s) true s)
    as [[[]|e|] s1]; cbn [snd] in *; run; cbn [snd]; fields; now split.
Qed.

End PassFacts.

(** * Further properties *)

(** ** Device registry: registration, removal and the file *)

Module RegistryFacts.
Section Facts.
Context {V : Type}.
Implicit Types (d : dict V) (k : string) (v : V).


Lemma contains_false_get d k :
  PyDict.contains d k = false -> PyDict.get d k = None.
Proof.
  unfold PyDict.contains. now destruct (PyDict.get d k).
Qed.

Lemma contains_set_same d k v : PyDict.contains (PyDict.set d k v) k = true.
Proof.
  unfold PyDict.contains. now rewrite PyDictFacts.get_set_same.
Qed.

End Facts.
End RegistryFacts.

(** X5.  Once [add_device] has run for a name, the name is in the
    saved-devices map, and a further [add_device] for that name, with
    whatever content and device type, returns with the service unchanged:
    the first registration stands and the device is not announced again. *)
Theorem add_device_is_idempotent (s : Service) (device_name : string)
  (content content' : DeviceEntry) (device_type device_type' : PyVal) :
  let s1 := snd (add_device device_name content device_type s) in
  fst (add_device device_name content device_type s) = Ok tt
  /\ PyDict.contains (_saved_devices s1) device_name = true
  /\ add_device device_name content' device_type' s1 = (Ok tt, s1).
Proof.
  cbn zeta.
  assert (H : fst (add_device device_name content device_type s) = Ok tt
              /\ PyDict.contains
                   (_saved_devices (snd (add_device device_name content device_type s)))
                   device_name = true).
  { destruct (PyDict.contains (_saved_devices s) device_name) eqn:Hsaved.
    - rewrite add_device_when_saved by exact Hsaved. now split.
    - unfold add_device, tb_call. run. rewrite Hsaved. cbn [negb]. cbv beta.
      match goal with
      | |- context [__save_persistent_devices ?s0] =>
          destruct (save_persistent_devices_run s0) as (s' & -> & _ & Hs & _)
      end.
      cbn. split; [reflexivity|]. rewrite Hs. cbn.
      apply RegistryFacts.contains_set_same. }
  destruct H as [Hok Hin]. repeat split; try assumption.
  now apply add_device_when_saved.
Qed.



(** X7.  [update_device] on a name that is not in the connected-devices
    map raises [KeyError] with the service unchanged.  On a registered
    name it returns with the field assigned in the connected-devices map,
    the saved-devices map and the cloud untouched; the file is neither
    opened nor written unless the field is [connector] and the value
    differs from the one held, and then it is opened once.  Connector
    objects differ when they are not the same object, also when they
    have the same name and type. *)
Theorem update_device_effects (s : Service) (device_name event : string)
  (content : PyVal) :
  (PyDict.get (__connected_devices s) device_name = None ->
   update_device device_name event content s = (Raise (KeyError device_name), s))
  /\ (forall entry,
        PyDict.get (__connected_devices s) device_name = Some entry ->
        event <> "connector"
        \/ PyVal_eqb (get_or_None entry "connector") content = true ->
        update_device device_name event content s
        = (Ok tt,
           with_connected_devices
             (fun d => PyDict.set d device_name (PyDict.set entry event content))
             s))
  /\ (forall entry,
        PyDict.get (__connected_devices s) device_name = Some entry ->
        exists s',
          update_device device_name event content s = (Ok tt, s')
          /\ __connected_devices s'
             = PyDict.set (__connected_devices s) device_name
                 (PyDict.set entry event content)
          /\ _saved_devices s' = _saved_devices s
          /\ cloud s' = cloud s)
  /\ (forall entry,
        PyDict.get (__connected_devices s) device_name = Some entry ->
        PyVal_eqb (get_or_None entry "connector") content = false ->
        file_writes (snd (update_device device_name "connector" content s))
        = S (file_writes s)).
Proof.
  split; [|split; [|split]].
  - intros Hnone. unfold update_device. run.
    destruct (String.eqb event "connector"); run; rewrite Hnone; reflexivity.
  - intros entry Hget Hsame. unfold update_device. run.
    destruct (String.eqb_spec event "connector") as [->|Hevent]; run;
      rewrite Hget; run.
    + destruct Hsame as [Hne|Heq]; [now contradiction Hne|].
      rewrite Heq. cbn [negb]. run. now rewrite Hget.
    + reflexivity.
  - intros entry Hget. unfold update_device. run.
    destruct (String.eqb event "connector"); run; rewrite Hget; run.
    + destruct (negb (PyVal_eqb (get_or_None entry event) content)).
      * destruct (save_persistent_devices_run s)
          as (s1 & -> & Hc1 & Hs1 & Hcl1 & _).
        cbv beta iota. rewrite Hc1, Hget. eexists. split; [reflexivity|].
        fields. rewrite Hc1, Hs1, Hcl1. repeat split.
      * run. rewrite Hget. eexists. split; [reflexivity|]. repeat split.
    + eexists. split; [reflexivity|]. repeat split.
  - intros entry Hget Hne. unfold update_device. run.
    cbn [String.eqb Ascii.eqb Bool.eqb]. rewrite Hget. run.
    rewrite Hne. cbn [negb].
    destruct (save_persistent_devices_run s) as (s1 & -> & Hc1 & _ & _ & _ & Hw1).
    cbv beta iota. rewrite Hc1, Hget. cbn. exact Hw1.
Qed.

Lemma update_device_effects_witness :
  update_device "d9" "connector" (PObj Sample.c2) Sample.with_d1
  = (Raise (KeyError "d9"), Sample.with_d1)
  /\ update_device "d1" "device_type" (PStr "meter") Sample.with_d1
     = (Ok tt,
        with_connected_devices
          (fun d => PyDict.set d "d1"
                      (PyDict.set [("connector", PObj Sample.c1);
                                   ("device_type", PStr "sensor")]
                         "device_type" (PStr "meter")))
          Sample.with_d1)
  /\ file_writes
       (snd (update_device "d1" "connector" (PObj (mkConnector "c1" "mqtt" 7))
               Sample.with_d1))
     = S (file_writes Sample.with_d1).
Proof.
  split; [|split].
  - apply (proj1 (update_device_effects Sample.with_d1 "d9" "connector"
                    (PObj Sample.c2))).
    reflexivity.
  - apply (proj1 (proj2 (update_device_effects Sample.with_d1 "d1"
                           "device_type" (PStr "meter")))).
    + reflexivity.
    + left. discriminate.
  - apply (proj2 (proj2 (proj2 (update_device_effects Sample.with_d1 "d1"
                                  "connector"
                                  (PObj (mkConnector "c1" "mqtt" 7)))))
             [("connector", PObj Sample.c1); ("device_type", PStr "sensor")]);
      reflexivity.
Defined.

(** *** What the file holds *)

Lemma get_insert_sorted (k v : string) (l : list (string * string)) (k' : string) :
  PyDict.get (insert_sorted k v l) k'
  = if String.eqb k k' then Some v else PyDict.get l k'.
Proof.
  induction l as [|[k0 v0] l IH]; [reflexivity|].
  cbn [insert_sorted]. destruct (String.leb k k0) eqn:Hle; [reflexivity|].
  cbn [PyDict.get]. rewrite IH.
  destruct (String.eqb_spec k0 k') as [->|Hk0]; [|reflexivity].
  destruct (String.eqb_spec k k') as [->|Hk]; [|reflexivity].
  destruct (String.leb_total k' k'); congruence.
Qed.

(** Sorting the keys changes no lookup. *)
Lemma get_sort_keys (d : dict string) (k : string) :
  PyDict.get (sort_keys d) k = PyDict.get d k.
Proof.
  induction d as [|[k0 v0] d IH]; [reflexivity|].
  cbn [sort_keys fold_right fst snd]. fold (sort_keys d).
  rewrite get_insert_sorted. cbn [PyDict.get]. now rewrite IH.
Qed.

Lemma insert_sorted_sorted (k v : string) (l : list (string * string)) :
  sorted_keys l -> sorted_keys (insert_sorted k v l).
Proof.
  unfold sorted_keys.
  induction l as [|[k0 v0] l IH]; intros Hsorted; cbn [insert_sorted].
  - repeat constructor.
  - destruct (String.leb k k0) eqn:Hle.
    + constructor; [exact Hsorted | now constructor].
    + apply Sorted_inv in Hsorted as [Hrest Hhd].
      constructor; [now apply IH|].
      destruct l as [|[k1 v1] l]; cbn [insert_sorted].
      * constructor. cbn. destruct (String.leb_total k k0); congruence.
      * destruct (String.leb k k1).
        -- constructor. cbn. destruct (String.leb_total k k0); congruence.
        -- constructor. now apply HdRel_inv in Hhd.
Qed.

Lemma sort_keys_sorted (d : dict string) : sorted_keys (sort_keys d).
Proof.
  induction d as [|[k0 v0] d IH]; [constructor|].
  cbn [sort_keys fold_right fst snd]. fold (sort_keys d).
  now apply insert_sorted_sorted.
Qed.

(** The names collected by the loop of [__save_persistent_devices]. *)
Lemma data_to_save_get (devices : dict DeviceEntry) :
  forall (acc d : dict string),
    NoDup (PyDict.keys devices) ->
    data_to_save devices acc = Ok d ->
    forall device,
      PyDict.get d device
      = match live_connector_name devices device with
        | Some n => Some n
        | None => PyDict.get acc device
        end.
Proof.
  unfold live_connector_name.
  induction devices as [|[device0 entry] rest IH]; intros acc d Hnodup Hrun device.
  - cbn in *. now inversion Hrun.
  - cbn [PyDict.keys map fst] in Hnodup.
    inversion Hnodup as [|? ? Hnotin Hnodup']; subst.
    cbn [data_to_save] in Hrun. unfold connector_name_of in Hrun.
    cbn [PyDict.get].
    destruct (String.eqb_spec device0 device) as [->|Hother].
    + destruct (PyDict.get entry "connector") as [[| | | | | |c]|];
        try discriminate.
      * now rewrite (IH _ _ Hnodup' Hrun device),
          (PyDictFacts.get_notin rest device Hnotin).
      * rewrite (IH _ _ Hnodup' Hrun device),
          (PyDictFacts.get_notin rest device Hnotin).
        now rewrite PyDictFacts.get_set_same.
    + destruct (PyDict.get entry "connector") as [[| | | | | |c]|];
        try discriminate.
      * now rewrite (IH _ _ Hnodup' Hrun device).
      * rewrite (IH _ _ Hnodup' Hrun device).
        now rewrite PyDictFacts.get_set_other.
Qed.

Lemma data_to_save_savable (devices : dict DeviceEntry) :
  forall acc : dict string,
    forallb (fun kv => savable (snd kv)) devices = true ->
    exists d, data_to_save devices acc = Ok d.
Proof.
  induction devices as [|[device0 entry] rest IH]; intros acc Hall.
  - now exists acc.
  - cbn [forallb snd] in Hall. apply andb_prop in Hall as [Hentry Hrest].
    cbn [data_to_save]. unfold connector_name_of. unfold savable in Hentry.
    destruct (PyDict.get entry "connector") as [[| | | | | |c]|];
      try discriminate; now apply IH.
Qed.

Lemma data_to_save_unsavable (devices : dict DeviceEntry) :
  forall acc : dict string,
    forallb (fun kv => savable (snd kv)) devices = false ->
    exists e, data_to_save devices acc = Raise e.
Proof.
  induction devices as [|[device0 entry] rest IH]; intros acc Hall.
  - discriminate.
  - cbn [forallb snd] in Hall. cbn [data_to_save].
    unfold connector_name_of. unfold savable in Hall.
    destruct (PyDict.get entry "connector") as [[| | | | | |c]|];
      try (eexists; reflexivity); now apply IH.
Qed.

(** The file after a save that could read every entry. *)
Lemma saved_file_lookup (s : Service) :
  NoDup (PyDict.keys (__connected_devices s)) ->
  forallb (fun kv => savable (snd kv)) (__connected_devices s) = true ->
  exists doc,
    connected_devices_json (snd (__save_persistent_devices s)) = FileJson doc
    /\ sorted_keys doc
    /\ forall device,
         PyDict.get doc device
         = live_connector_name (__connected_devices s) device.
Proof.
  intros Hnodup Hall.
  destruct (data_to_save_savable _ [] Hall) as (d & Hd).
  destruct (save_persistent_devices_run s) as (s' & -> & _ & _ & _ & Hf & _).
  cbn [snd]. rewrite Hf. unfold registry_file. rewrite Hd.
  exists (sort_keys d). split; [reflexivity|].
  split; [apply sort_keys_sorted|].
  intros device. rewrite get_sort_keys.
  rewrite (data_to_save_get _ _ _ Hnodup Hd device).
  now destruct (live_connector_name (__connected_devices s) device).
Qed.

(** X8.  When every entry of the connected-devices map has a connector
    that is [None] or a connector object, [__save_persistent_devices]
    leaves a JSON object with sorted keys in which a device is listed
    exactly when its connector is an object, under the name of that
    connector; devices whose connector is [None] are left out. *)
Theorem saved_file_lists_live_connectors (s : Service) :
  NoDup (PyDict.keys (__connected_devices s)) ->
  forallb (fun kv => savable (snd kv)) (__connected_devices s) = true ->
  exists doc,
    connected_devices_json (snd (__save_persistent_devices s)) = FileJson doc
    /\ sorted_keys doc
    /\ forall device,
         PyDict.get doc device
         = live_connector_name (__connected_devices s) device.
Proof.
  intros Hnodup Hall.
  destruct (saved_file_lookup s Hnodup Hall) as (doc & Hfile & Hsorted & Hget).
  exists doc. now repeat split.
Qed.

Lemma saved_file_lists_live_connectors_witness :
  exists doc,
    connected_devices_json (snd (__save_persistent_devices Sample.with_d1))
    = FileJson doc
    /\ sorted_keys doc
    /\ forall device,
         PyDict.get doc device
         = live_connector_name (__connected_devices Sample.with_d1) device.
Proof.
  apply (saved_file_lists_live_connectors Sample.with_d1).
  - vm_compute. repeat constructor; simpl; intuition discriminate.
  - reflexivity.
Defined.

(** X9.  When an entry of the connected-devices map has no [connector]
    key, or holds there something that is neither [None] nor a connector
    object, [__save_persistent_devices] still returns, but the file it
    opened stays empty: the exception is logged and the previous content
    of the file is lost. *)
Theorem unsavable_entry_empties_the_file (s : Service) :
  forallb (fun kv => savable (snd kv)) (__connected_devices s) = false ->
  exists e,
    __save_persistent_devices s
    = (Ok tt, with_log (fun l => l ++ [log_exception e]) (open_w s))
    /\ connected_devices_json (snd (__save_persistent_devices s)) = FileEmpty.
Proof.
  intros Hsome.
  destruct (data_to_save_unsavable _ [] Hsome) as (e & He).
  exists e. unfold __save_persistent_devices, log_record. run.
  cbn [open_w __connected_devices]. rewrite He. split; reflexivity.
Qed.

Lemma unsavable_entry_empties_the_file_witness :
  exists e,
    __save_persistent_devices
      (with_connected_devices
         (fun d => PyDict.set d "d3" [("device_type", PStr "default")])
         Sample.with_d1)
    = (Ok tt,
       with_log (fun l => l ++ [log_exception e])
         (open_w (with_connected_devices
                    (fun d => PyDict.set d "d3" [("device_type", PStr "default")])
                    Sample.with_d1)))
    /\ connected_devices_json
         (snd (__save_persistent_devices
                 (with_connected_devices
                    (fun d => PyDict.set d "d3" [("device_type", PStr "default")])
                    Sample.with_d1)))
       = FileEmpty.
Proof.
  apply (unsavable_entry_empties_the_file
           (with_connected_devices
              (fun d => PyDict.set d "d3" [("device_type", PStr "default")])
              Sample.with_d1)).
  reflexivity.
Defined.

(** ** Ingress: what an item changes *)

Lemma counters_zero_get (m : dict Z) (k : string) (n : Z) :
  counters_zero m = true -> PyDict.get m k = Some n -> n = 0.
Proof.
  unfold counters_zero.
  induction m as [|[k' n'] m IH]; cbn [forallb PyDict.get snd]; [discriminate|].
  intros Hall Hget. apply andb_prop in Hall as [Hn Hrest].
  destruct (String.eqb k' k); [|now apply IH].
  inversion Hget; subst. now apply Z.eqb_eq.
Qed.

Lemma counters_zero_set (m : dict Z) (k : string) :
  counters_zero m = true -> counters_zero (PyDict.set m k 0) = true.
Proof.
  unfold counters_zero.
  induction m as [|[k' n'] m IH]; cbn [forallb PyDict.set snd]; [reflexivity|].
  intros Hall. apply andb_prop in Hall as [Hn Hrest].
  destruct (String.eqb k' k); cbn [forallb snd].
  - now rewrite Hrest.
  - now rewrite Hn, IH.
Qed.

(** The counter update leaves the connector's counter at 0. *)
Lemma count_message_zero (connector_name : string) (m : dict Z) :
  counters_zero m = true ->
  counters_zero (count_message connector_name m) = true
  /\ PyDict.get (count_message connector_name m) connector_name = Some 0.
Proof.
  intros Hall. unfold count_message.
  destruct (PyDict.get m connector_name) as [n|] eqn:Hget.
  - rewrite (counters_zero_get m connector_name n Hall Hget). cbn [Z.eqb].
    split; [now apply counters_zero_set | apply PyDictFacts.get_set_same].
  - split; [now apply counters_zero_set | apply PyDictFacts.get_set_same].
Qed.

(** [add_device] keeps the counters, the storage, the settings, the
    connection flag and the log of the storage. *)
Lemma add_device_frame (device_name : string) (content : DeviceEntry)
  (device_type : PyVal) (s : Service) :
  exists s',
    add_device device_name content device_type s = (Ok tt, s')
    /\ _connector_incoming_messages s' = _connector_incoming_messages s
    /\ _event_storage s' = _event_storage s
    /\ settings s' = settings s
    /\ tb_is_connected s' = tb_is_connected s.
Proof.
  unfold add_device, __save_persistent_devices, tb_call, log_record. run.
  destruct (PyDict.contains (_saved_devices s) device_name); cbn [negb];
    [eexists; repeat split|].
  run. fields.
  destruct (data_to_save _ _) as [d|e|]; run; eexists; repeat split.
Qed.

Lemma split_telemetry_ends (items : list PyVal) :
  forall telemetry telemetry_with_ts,
    split_telemetry items telemetry telemetry_with_ts <> Hang.
Proof.
  induction items as [|item items IH]; intros telemetry with_ts; cbn;
    [discriminate|].
  destruct item as [| | | | |d|]; try discriminate.
  destruct (is_None (get_or_None d "ts")); [apply IH|].
  destruct (PyDict.get d "values") as [[| | | | |values|]|]; try discriminate.
  apply IH.
Qed.

Lemma normalize_telemetry_ends (now_ms : Z) (data : dict PyVal) :
  normalize_telemetry now_ms data <> Hang.
Proof.
  unfold normalize_telemetry.
  destruct (PyDict.get data "telemetry") as [t|]; [|discriminate].
  destruct (iterate t) as [items| |] eqn:Hit; try discriminate.
  - pose proof (split_telemetry_ends items [] []) as Hends.
    destruct (split_telemetry items [] []) as [[telemetry [|x l]]| |];
      try discriminate. contradiction.
  - destruct t; discriminate.
Qed.

(** [store_item] returns or raises; it changes the storage and the log
    only, and not the storage when this is full. *)
Lemma store_item_frame (now_ms : Z) (data : dict PyVal) (s : Service) :
  fst (store_item now_ms data s) <> Hang
  /\ registry_untouched s (snd (store_item now_ms data s))
  /\ _connector_incoming_messages (snd (store_item now_ms data s))
     = _connector_incoming_messages s
  /\ settings (snd (store_item now_ms data s)) = settings s
  /\ ((max_records (_event_storage s) <= length (stored (_event_storage s)))%nat ->
      _event_storage (snd (store_item now_ms data s)) = _event_storage s).
Proof.
  unfold store_item, log_record, registry_untouched. run.
  pose proof (normalize_telemetry_ends now_ms data) as Hends.
  destruct (normalize_telemetry now_ms data) as [data'|e|];
    [|cbn; repeat split; discriminate | contradiction].
  run. unfold put.
  destruct (Nat.ltb_spec (length (stored (_event_storage s)))
              (max_records (_event_storage s)));
    run; cbn; repeat split; try discriminate; intros; lia.
Qed.

(** The tail of the loop body: the item is stored and the loop goes on,
    also when storing raises. *)
Lemma store_and_continue (now_ms : Z) (data : dict PyVal) (s : Service) :
  exists s',
    try_except (store_item now_ms data ;;; ret Continue)
      (fun e => log_record (log_error (str_of_exn e)) ;;; ret Continue) s
    = (Ok Continue, s')
    /\ registry_untouched s s'
    /\ _connector_incoming_messages s' = _connector_incoming_messages s
    /\ settings s' = settings s
    /\ ((max_records (_event_storage s) <= length (stored (_event_storage s)))%nat ->
        _event_storage s' = _event_storage s).
Proof.
  destruct (store_item_frame now_ms data s)
    as (Hends & Hreg & Hcount & Hset & Hfull).
  unfold try_except, bind, log_record, modify, ret.
  destruct (store_item now_ms data s) as [[[]|e|] s1]; cbn [fst snd] in *;
    try contradiction; eexists; (split; [reflexivity|]); repeat split;
    try assumption; apply Hreg.
Qed.

(** What one pass of the consumer's loop does to the service, for any
    item: it returns a flow, never raises; it ends the function exactly on
    an item of a connector that fails validation; the counters stay 0; an
    item of the gateway itself, of a known device, or one that arrives
    while the cloud is disconnected leaves the registry alone; a full
    storage is left as it is. *)
Lemma ingest_outcome (now_ms : Z) (connector_name : string)
  (data : dict PyVal) (s : Service) :
  exists flow s',
    ingest now_ms connector_name data s = (Ok flow, s')
    /\ (flow = Return <->
        ends_consumer (name (settings s)) (connector_name, data) = true)
    /\ settings s' = settings s
    /\ (counters_zero (_connector_incoming_messages s) = true ->
        counters_zero (_connector_incoming_messages s') = true)
    /\ (connector_name = name (settings s) ->
        registry_untouched s s'
        /\ _connector_incoming_messages s' = _connector_incoming_messages s)
    /\ (tb_is_connected s = false
        \/ (exists device,
              PyDict.get data "deviceName" = Some (PStr device)
              /\ PyDict.contains (get_devices s) device = true) ->
        registry_untouched s s')
    /\ ((max_records (_event_storage s) <= length (stored (_event_storage s)))%nat ->
        _event_storage s' = _event_storage s).
Proof.
  unfold ingest, ends_consumer. cbn [fst snd].
  destruct (String.eqb_spec connector_name (name (settings s))) as [Hown|Hother].
  - (* an item of the gateway itself *)
    destruct (store_and_continue now_ms
                (PyDict.set data "deviceName" (PStr "currentThingsBoardGateway")) s)
      as (s' & Hrun & Hreg & Hcount & Hset & Hfull).
    revert Hrun. run. intros Hrun.
    rewrite Hown, String.eqb_refl. cbn [negb]. run.
    exists Continue, s'. split; [exact Hrun|].
    repeat split; try assumption; try discriminate; try apply Hreg.
    now rewrite Hcount.
  - apply String.eqb_neq in Hother as Hneq. cbn [negb andb].
    assert (Hfail : forall e : Exn,
              exists flow s',
                (log_record (log_error (str_of_exn e)) ;;; ret Continue) s
                = (Ok flow, s')
                /\ (flow = Return <-> false = true)
                /\ settings s' = settings s
                /\ (counters_zero (_connector_incoming_messages s) = true ->
                    counters_zero (_connector_incoming_messages s') = true)
                /\ (connector_name = name (settings s) ->
                    registry_untouched s s'
                    /\ _connector_incoming_messages s' = _connector_incoming_messages s)
                /\ (tb_is_connected s = false
                    \/ (exists device,
                          PyDict.get data "deviceName" = Some (PStr device)
                          /\ PyDict.contains (get_devices s) device = true) ->
                    registry_untouched s s')
                /\ ((max_records (_event_storage s)
                     <= length (stored (_event_storage s)))%nat ->
                    _event_storage s' = _event_storage s)).
    { intros e. unfold log_record. run. eexists; eexists.
      split; [reflexivity|].
      repeat split; try discriminate; try contradiction; auto. }
    assert (Htail : forall s0 : Service,
              _connector_incoming_messages s0 = _connector_incoming_messages s ->
              settings s0 = settings s ->
              _event_storage s0 = _event_storage s ->
              (tb_is_connected s = false
               \/ (exists device,
                     PyDict.get data "deviceName" = Some (PStr device)
                     /\ PyDict.contains (get_devices s) device = true) ->
               registry_untouched s s0) ->
              exists flow s',
                try_except (store_item now_ms data ;;; ret Continue)
                  (fun e => log_record (log_error (str_of_exn e)) ;;; ret Continue)
                  (with_incoming_messages (count_message connector_name) s0)
                = (Ok flow, s')
                /\ (flow = Return <-> false = true)
                /\ settings s' = settings s
                /\ (counters_zero (_connector_incoming_messages s) = true ->
                    counters_zero (_connector_incoming_messages s') = true)
                /\ (connector_name = name (settings s) ->
                    registry_untouched s s'
                    /\ _connector_incoming_messages s' = _connector_incoming_messages s)
                /\ (tb_is_connected s = false
                    \/ (exists device,
                          PyDict.get data "deviceName" = Some (PStr device)
                          /\ PyDict.contains (get_devices s) device = true) ->
                    registry_untouched s s')
                /\ ((max_records (_event_storage s)
                     <= length (stored (_event_storage s)))%nat ->
                    _event_storage s' = _event_storage s)).
    { intros s0 Hcount0 Hset0 Hstore0 Hreg0.
      destruct (store_and_continue now_ms data
                  (with_incoming_messages (count_message connector_name) s0))
        as (s' & -> & Hreg & Hcount & Hset & Hfull).
      fields_in Hcount. fields_in Hset. fields_in Hfull.
      unfold registry_untouched in Hreg. fields_in Hreg.
      exists Continue, s'. split; [reflexivity|].
      repeat match goal with |- _ /\ _ => split end;
        try (split; [discriminate | discriminate]);
        try (intros; contradiction).
      - congruence.
      - intros Hzero. rewrite Hcount, Hcount0. now apply count_message_zero.
      - intros Hknown. specialize (Hreg0 Hknown).
        unfold registry_untouched in *.
        destruct Hreg as (R1 & R2 & R3 & R4 & R5).
        destruct Hreg0 as (Q1 & Q2 & Q3 & Q4 & Q5).
        repeat split; congruence.
      - intros Hroom. rewrite Hfull by now rewrite Hstore0. exact Hstore0. }
    revert Hfail Htail. run. intros Hfail Htail. rewrite Hneq. cbn [negb].
    destruct (validate_converted_data data) eqn:Hvalid; cbn [negb].
    + assert (Hname : exists device,
                PyDict.get data "deviceName" = Some (PStr device)).
      { unfold validate_converted_data in Hvalid.
        destruct (PyDict.get data "deviceName") as [[| | |device| | |]|];
          try discriminate. now exists device. }
      destruct Hname as (device & Hname). rewrite Hname in *.
      unfold as_key. run.
      destruct (negb (PyDict.contains (get_devices s) device) && tb_is_connected s)
        eqn:Hadd.
      * apply andb_prop in Hadd as [Hnew Hconnected].
        apply negb_true_iff in Hnew.
        destruct (PyDict.get (available_connectors (settings s)) connector_name)
          as [connector|]; [|now apply Hfail].
        destruct (PyDict.get data "deviceType") as [device_type|];
          [|now apply Hfail].
        destruct (add_device_frame device [("connector", PObj connector)]
                    device_type s) as (s1 & -> & Hcount1 & Hstore1 & Hset1 & _).
        apply Htail; try assumption.
        intros [Hoff|(device' & Heq & Hknown)]; [congruence|].
        inversion Heq; subst. congruence.
      * apply Htail; try reflexivity. intros _. unfold registry_untouched.
        repeat split.
    + unfold log_record. run. eexists; eexists. split; [reflexivity|].
      repeat split; try discriminate; try contradiction; auto.
Qed.

(** X10.  The per-connector message counters never count: as long as every
    counter is 0, which holds when the gateway starts with none, every
    counter is still 0 after [__send_to_storage] has run on any queue of
    items.  The update of the counter takes the value 0 for a missing one
    and sets it to 0 again. *)
Theorem incoming_counters_stay_zero (clock : nat -> Z)
  (queue : list (string * dict PyVal)) :
  forall (n : nat) (s : Service),
    counters_zero (_connector_incoming_messages s) = true ->
    counters_zero
      (_connector_incoming_messages (snd (__send_to_storage clock n queue s)))
    = true.
Proof.
  induction queue as [|[connector_name data] queue IH]; intros n s Hzero;
    [exact Hzero|].
  cbn [__send_to_storage].
  destruct (ingest_outcome (clock n) connector_name data s)
    as (flow & s' & -> & _ & _ & Hcount & _).
  destruct flow; cbn [snd]; [apply IH|]; now apply Hcount.
Qed.

Lemma incoming_counters_stay_zero_witness :
  counters_zero
    (_connector_incoming_messages
       (snd (__send_to_storage Sample.clock 0
               [("c1", Sample.bare_list); ("c1", Sample.ts_list);
                ("c1", Sample.bare_list)]
               Sample.started)))
  = true.
Proof.
  apply (incoming_counters_stay_zero Sample.clock _ 0%nat Sample.started).
  reflexivity.
Defined.

(** X11.  [__send_to_storage] leaves its loop on an item of a connector
    that fails validation, and on nothing else: run on a queue, the
    consumer is still in its loop with the queue empty when no such item
    is in it, and otherwise it has returned at the first such item,
    leaving the items behind it in the queue.  No item makes it raise. *)
Theorem consumer_ends_exactly_on_invalid_item (clock : nat -> Z) (n : nat)
  (queue : list (string * dict PyVal)) (s : Service) :
  fst (__send_to_storage clock n queue s)
  = (if existsb (ends_consumer (name (settings s))) queue
     then Return else Continue,
     left_in_queue (name (settings s)) queue).
Proof.
  revert n s.
  induction queue as [|[connector_name data] queue IH]; intros n s;
    [reflexivity|].
  cbn [__send_to_storage existsb left_in_queue].
  destruct (ingest_outcome (clock n) connector_name data s)
    as (flow & s' & -> & Hflow & Hset & _).
  destruct flow.
  - rewrite IH, Hset.
    destruct (ends_consumer (name (settings s)) (connector_name, data));
      [|reflexivity].
    discriminate (proj2 Hflow eq_refl).
  - rewrite (proj1 Hflow eq_refl). reflexivity.
Qed.

(** X12.  An item queued under the gateway's own name is never validated and
    never touches the registry: whatever it holds, the consumer goes on,
    both device maps, the file, the counters and the calls on the cloud
    are as before.  With a well-formed telemetry list and room in the
    storage it is stored under the device name
    [currentThingsBoardGateway]. *)
Theorem own_item_is_stored_unchecked (now_ms : Z) (data : dict PyVal)
  (s : Service) :
  exists s',
    ingest now_ms (name (settings s)) data s = (Ok Continue, s')
    /\ registry_untouched s s'
    /\ _connector_incoming_messages s' = _connector_incoming_messages s
    /\ forall items,
         PyDict.get data "telemetry" = Some (PList items) ->
         forallb telemetry_entry items = true ->
         (length (stored (_event_storage s)) < max_records (_event_storage s))%nat ->
         stored (_event_storage s')
         = stored (_event_storage s)
           ++ [dumps (PDict (PyDict.set
                               (PyDict.set data "deviceName"
                                  (PStr "currentThingsBoardGateway"))
                               "telemetry"
                               (SpecWords.normal_telemetry now_ms items)))].
Proof.
  destruct (ingest_outcome now_ms (name (settings s)) data s)
    as (flow & s' & Hrun & Hflow & _ & _ & Hown & _).
  destruct (Hown eq_refl) as [Hreg Hcount].
  destruct flow.
  - exists s'. repeat split; try assumption; try apply Hreg.
    intros items Htelemetry Hentries Hroom.
    destruct (ingest_own_item_is_stored now_ms data items s
                Htelemetry Hentries Hroom) as (s2 & Hrun2 & Hstored).
    rewrite Hrun in Hrun2. inversion Hrun2; subst. exact Hstored.
  - pose proof (proj1 Hflow eq_refl) as Hends. unfold ends_consumer in Hends.
    cbn [fst] in Hends. rewrite String.eqb_refl in Hends. discriminate.
Qed.

(** X13.  When the storage is at its capacity no item changes it: the
    consumer handles the item as usual, and what the item carried is
    lost.  For an item of the gateway itself with a well-formed telemetry
    list the loss is logged as an error and the loop goes on. *)
Theorem full_storage_loses_the_item (now_ms : Z) (connector_name : string)
  (data : dict PyVal) (s : Service) :
  (max_records (_event_storage s) <= length (stored (_event_storage s)))%nat ->
  _event_storage (snd (ingest now_ms connector_name data s)) = _event_storage s
  /\ (forall items,
        connector_name = name (settings s) ->
        PyDict.get data "telemetry" = Some (PList items) ->
        forallb telemetry_entry items = true ->
        ingest now_ms connector_name data s
        = (Ok Continue,
           with_log
             (fun l => l ++ [log_error "Data from the device cannot be saved."])
             (with_event_storage (fun _ => _event_storage s) s))).
Proof.
  intros Hfull. split.
  - destruct (ingest_outcome now_ms connector_name data s)
      as (flow & s' & -> & _ & _ & _ & _ & _ & Hkept).
    now apply Hkept.
  - intros items -> Htelemetry Hentries. unfold ingest. run.
    rewrite String.eqb_refl. cbn [negb]. run. unfold store_item. run.
    rewrite (normalize_telemetry_entries now_ms _ items);
      [|rewrite PyDictFacts.get_set_other by discriminate; exact Htelemetry
       |exact Hentries].
    run. unfold put.
    destruct (Nat.ltb_spec (length (stored (_event_storage s)))
                (max_records (_event_storage s))); [lia|].
    unfold log_record. run. reflexivity.
Qed.

Lemma full_storage_loses_the_item_witness :
  _event_storage
    (snd (ingest 1700000001000 "c1" Sample.bare_list
            (with_event_storage (fun es => mkEventStorage (stored es) 0 10)
               Sample.started)))
  = mkEventStorage [] 0 10.
Proof.
  apply (proj1 (full_storage_loses_the_item 1700000001000 "c1" Sample.bare_list
                  (with_event_storage (fun es => mkEventStorage (stored es) 0 10)
                     Sample.started)
                  (Nat.le_refl 0))).
Defined.




(** X15.  An item that passes validation, of a device the gateway does not
    know, arriving while the cloud is connected, is dropped when the
    registration cannot be made: when the item has no [deviceType], or
    when its connector is not among the loaded ones.  The [KeyError] is
    logged as an error, the loop goes on, nothing is stored and the
    device is not registered. *)
Theorem unregistrable_item_is_dropped (now_ms : Z)
  (connector_name device : string) (data : dict PyVal) (s : Service) :
  connector_name <> name (settings s) ->
  validate_converted_data data = true ->
  PyDict.get data "deviceName" = Some (PStr device) ->
  PyDict.contains (get_devices s) device = false ->
  tb_is_connected s = true ->
  PyDict.get (available_connectors (settings s)) connector_name = None
  \/ PyDict.get data "deviceType" = None ->
  exists key,
    ingest now_ms connector_name data s
    = (Ok Continue,
       with_log (fun l => l ++ [log_error (str_of_exn (KeyError key))]) s)
    /\ (key = connector_name \/ key = "deviceType").
Proof.
  intros Hother Hvalid Hname Hnew Hconnected Hmissing.
  apply String.eqb_neq in Hother.
  unfold ingest, log_record. run. rewrite Hother, Hvalid. cbn [negb]. run.
  rewrite Hname. unfold as_key. run. rewrite Hnew, Hconnected.
  cbn [negb andb]. run.
  destruct (PyDict.get (available_connectors (settings s)) connector_name)
    as [connector|]; run.
  - destruct Hmissing as [Hnone|Hnone]; [discriminate|]. rewrite Hnone. run.
    exists "deviceType". split; [reflexivity | now right].
  - exists connector_name. split; [reflexivity | now left].
Qed.

Lemma unregistrable_item_is_dropped_witness :
  exists key,
    ingest 1700000001000 "c1"
      [("deviceName", PStr "d1"); ("telemetry", PList [PDict [("t", PInt 21)]])]
      Sample.started
    = (Ok Continue,
       with_log (fun l => l ++ [log_error (str_of_exn (KeyError key))])
         Sample.started)
    /\ (key = "c1" \/ key = "deviceType").
Proof.
  apply (unregistrable_item_is_dropped 1700000001000 "c1" "d1"
           [("deviceName", PStr "d1");
            ("telemetry", PList [PDict [("t", PInt 21)]])]
           Sample.started);
    try reflexivity; [discriminate | now right].
Defined.

(** ** Uplink: what the worker leaves alone *)

Section Keeps.

Variable R : Service -> Service -> Prop.
Hypothesis R_refl : forall s, R s s.
Hypothesis R_trans : forall s1 s2 s3, R s1 s2 -> R s2 s3 -> R s1 s3.

Lemma keeps_ret {A} (a : A) : keeps R (ret a).
Proof. intros s. apply R_refl. Qed.

Lemma keeps_raise {A} (e : Exn) : keeps R (@raise Service A e).
Proof. intros s. apply R_refl. Qed.

Lemma keeps_gets {A} (f : Service -> A) : keeps R (gets f).
Proof. intros s. apply R_refl. Qed.

Lemma keeps_lift {A} (r : Res A) : keeps R (lift r).
Proof. intros s. apply R_refl. Qed.

Lemma keeps_subscript {V} (d : dict V) (k : string) : keeps R (subscript d k).
Proof.
  intros s. unfold subscript. destruct (PyDict.get d k); apply R_refl.
Qed.

Lemma keeps_as_key (v : PyVal) : keeps R (as_key v).
Proof. intros s. destruct v; apply R_refl. Qed.

Lemma keeps_modify (f : Service -> Service) :
  (forall s, R s (f s)) -> keeps R (modify f).
Proof. intros Hf s. apply Hf. Qed.

Lemma keeps_bind {A B} (m : M Service A) (k : A -> M Service B) :
  keeps R m -> (forall a, keeps R (k a)) -> keeps R (bind m k).
Proof.
  intros Hm Hk s. unfold bind. specialize (Hm s).
  destruct (m s) as [[a|e|] s1]; cbn [snd] in *; try exact Hm.
  apply (R_trans s s1); [exact Hm | apply Hk].
Qed.

Lemma keeps_try_except {A} (m : M Service A) (h : Exn -> M Service A) :
  keeps R m -> (forall e, keeps R (h e)) -> keeps R (try_except m h).
Proof.
  intros Hm Hh s. unfold try_except. specialize (Hm s).
  destruct (m s) as [[a|e|] s1]; cbn [snd] in *; try exact Hm.
  apply (R_trans s s1); [exact Hm | apply Hh].
Qed.

Lemma keeps_when (b : bool) (m : M Service unit) :
  keeps R m -> keeps R (when b m).
Proof. intros Hm. destruct b; [exact Hm | apply keeps_ret]. Qed.

Lemma keeps_for_each {A} (l : list A) (body : A -> M Service unit) :
  (forall x, keeps R (body x)) -> keeps R (for_each l body).
Proof.
  intros Hbody. induction l as [|x l IH]; cbn [for_each].
  - apply keeps_ret.
  - apply keeps_bind; [apply Hbody | intros _; exact IH].
Qed.

Lemma keeps_fold_sizes {A} (l : list A) (f : Z -> A -> M Service Z) :
  (forall size x, keeps R (f size x)) ->
  forall size, keeps R (fold_sizes l size f).
Proof.
  intros Hf. induction l as [|x l IH]; intros size; cbn [fold_sizes].
  - apply keeps_ret.
  - apply keeps_bind; [apply Hf | intros size'; apply IH].
Qed.

End Keeps.

(** Takes a computation apart along its binds, loops and branches. *)
Ltac keeps_step :=
  match goal with
  | |- keeps _ (bind _ _) => apply keeps_bind
  | |- keeps _ (try_except _ _) => apply keeps_try_except
  | |- keeps _ (ret _) => apply keeps_ret
  | |- keeps _ (raise _) => apply keeps_raise
  | |- keeps _ (gets _) => apply keeps_gets
  | |- keeps _ (lift _) => apply keeps_lift
  | |- keeps _ (subscript _ _) => apply keeps_subscript
  | |- keeps _ (as_key _) => apply keeps_as_key
  | |- keeps _ (when _ _) => apply keeps_when
  | |- keeps _ (for_each _ _) => apply keeps_for_each
  | |- keeps _ (fold_sizes _ _ _) => apply keeps_fold_sizes
  | |- keeps _ (if ?b then _ else _) => destruct b
  | |- keeps _ (match ?x with _ => _ end) => destruct x
  | |- keeps _ (let _ := _ in _) => cbv zeta
  | |- forall _, _ => intro
  end.

Lemma world_kept_refl (s : Service) : world_kept s s.
Proof. unfold world_kept. repeat split. Qed.

Lemma world_kept_trans (s1 s2 s3 : Service) :
  world_kept s1 s2 -> world_kept s2 s3 -> world_kept s1 s3.
Proof.
  unfold world_kept. intros H12 H23.
  repeat match goal with
         | H : _ /\ _ |- _ => destruct H
         end.
  repeat split; congruence.
Qed.

(** Settles [keeps world_kept] for a computation made of the monad's
    operations and of steps already known to keep the world. *)
Ltac keeps_world :=
  repeat first
    [ match goal with
      | H : context [keeps world_kept] |- keeps world_kept _ => apply H
      end
    | match goal with
      | |- keeps world_kept (modify _) =>
          apply keeps_modify; intros ?; unfold world_kept; repeat split
      end
    | keeps_step; try apply world_kept_refl; try apply world_kept_trans ].

Section WorldKept.

Variable getsizeof : string -> Z.

Lemma publish_keeps_world (c : CloudCall) : keeps world_kept (publish c).
Proof. unfold publish, tb_call. keeps_world. Qed.

Lemma send_device_data_keeps_world (device : string) :
  keeps world_kept (send_device_data device).
Proof.
  pose proof publish_keeps_world. unfold send_device_data. keeps_world.
Qed.

Lemma send_data_keeps_world : keeps world_kept __send_data.
Proof.
  pose proof send_device_data_keeps_world.
  unfold __send_data, log_record. keeps_world.
Qed.

Lemma check_size_keeps_world (size : Z) : keeps world_kept (check_size size).
Proof.
  pose proof send_data_keeps_world. unfold check_size. keeps_world.
Qed.

Lemma fold_telemetry_keeps_world (device : string) (size : Z) (item : PyVal) :
  keeps world_kept (fold_telemetry getsizeof device size item).
Proof.
  pose proof check_size_keeps_world.
  unfold fold_telemetry, append_telemetry. keeps_world.
Qed.

Lemma fold_attributes_item_keeps_world (device : string) (size : Z)
  (item : PyVal) :
  keeps world_kept (fold_attributes_item getsizeof device size item).
Proof.
  pose proof check_size_keeps_world.
  unfold fold_attributes_item, update_attributes. keeps_world.
Qed.

Lemma fold_attributes_keeps_world (device : string) (size : Z) (attrs : PyVal) :
  keeps world_kept (fold_attributes getsizeof device size attrs).
Proof.
  pose proof check_size_keeps_world.
  unfold fold_attributes, update_attributes. keeps_world.
Qed.

Lemma fold_sections_keeps_world (device : string) (current_event : dict PyVal)
  (size : Z) :
  keeps world_kept (fold_sections getsizeof device current_event size).
Proof.
  pose proof fold_telemetry_keeps_world.
  pose proof fold_attributes_item_keeps_world.
  pose proof fold_attributes_keeps_world.
  unfold fold_sections. keeps_world.
Qed.

Lemma fold_event_keeps_world (size : Z) (event : Serialized) :
  keeps world_kept (fold_event getsizeof size event).
Proof.
  pose proof fold_sections_keeps_world.
  unfold fold_event, log_record. keeps_world.
Qed.

Lemma fold_events_keeps_world (events : list Serialized) (size : Z) :
  keeps world_kept (fold_sizes events size (fold_event getsizeof)).
Proof.
  apply keeps_fold_sizes;
    [apply world_kept_refl | apply world_kept_trans
     | apply fold_event_keeps_world].
Qed.

End WorldKept.

(** ** Uplink: idle passes, unreadable events and the drain *)

Lemma sleep_returns (s : Service) :
  exists s',
    sleep s = (Ok tt, s')
    /\ settings s' = settings s
    /\ _event_storage s' = _event_storage s
    /\ devices_data_in_event_pack s' = devices_data_in_event_pack s
    /\ _published_events s' = _published_events s
    /\ cloud s' = cloud s
    /\ log s' = log s.
Proof.
  unfold sleep, modify. destruct (schedule s) as [|w rest]; eexists;
    repeat split.
Qed.

Lemma sleep_calm (s : Service) : schedule s = [] -> sleep s = (Ok tt, s).
Proof. intros Hs. unfold sleep, modify. now rewrite Hs. Qed.

(** X16.  While the cloud is disconnected, while a remote configuration
    is in process, or when the storage has no event to hand out, a pass
    of the uplink worker is a sleep and nothing else: nothing is
    published, no token is taken from the queue, nothing is committed. *)
Theorem idle_pass_only_sleeps (getsizeof : string -> Z) (s : Service) :
  tb_is_connected s = false
  \/ remote_config_in_process s = true
  \/ get_event_pack (_event_storage s) = [] ->
  read_data_from_storage_pass getsizeof s = sleep s.
Proof.
  intros Hidle. unfold read_data_from_storage_pass. run.
  destruct (sleep_returns s) as (s' & Hsleep & _).
  destruct (tb_is_connected s); [|now rewrite Hsleep].
  destruct (remote_config_in_process s); cbn [negb]; [now rewrite Hsleep|].
  destruct Hidle as [Hidle|[Hidle|Hidle]]; try discriminate.
  rewrite Hidle. now rewrite Hsleep.
Qed.

Lemma idle_pass_only_sleeps_witness :
  read_data_from_storage_pass getsizeof_ascii
    (set_is_connected false Sample.first_token_fails)
  = sleep (set_is_connected false Sample.first_token_fails).
Proof.
  apply (idle_pass_only_sleeps getsizeof_ascii
           (set_is_connected false Sample.first_token_fails)).
  now left.
Defined.

Section Unreadable.

Variable getsizeof : string -> Z.

(** The fold of a pack that holds a poison event does not return. *)
Lemma fold_events_poison (events : list Serialized) :
  existsb poison events = true ->
  forall (size : Z) (s : Service),
    match fst (fold_sizes events size (fold_event getsizeof) s) with
    | Ok _ => False
    | _ => True
    end.
Proof.
  induction events as [|event events IH]; [discriminate|].
  cbn [existsb]. intros Hsome size s. cbn [fold_sizes]. unfold bind.
  destruct (poison event) eqn:Hpoison.
  - unfold fold_event, poison in *. run.
    destruct (loads event) as [[| | | | |current_event|]| |];
      try discriminate; try exact I.
    destruct (PyDict.get current_event "deviceName"); [discriminate|]. exact I.
  - cbn [orb] in Hsome.
    destruct (fold_event getsizeof size event s) as [[size1|e|] s1];
      cbn [fst]; try exact I.
    now apply IH.
Qed.

Lemma pass_keeps_poisoned_pack (s : Service) :
  existsb poison (get_event_pack (_event_storage s)) = true ->
  _event_storage (snd (read_data_from_storage_pass getsizeof s))
  = _event_storage s.
Proof.
  intros Hpoison.
  unfold read_data_from_storage_pass. run.
  destruct (tb_is_connected s).
  2:{ destruct (sleep_returns s) as (s' & -> & _ & Hst & _). exact Hst. }
  destruct (remote_config_in_process s); cbn [negb].
  { destruct (sleep_returns s) as (s' & -> & _ & Hst & _). exact Hst. }
  destruct (get_event_pack (_event_storage s)) as [|event events] eqn:Hpack;
    [discriminate|].
  pose proof (fold_events_poison (event :: events) Hpoison
                (getsizeof (py_str (pack_value (devices_data_in_event_pack s))) - 2)
                s) as Hfold.
  pose proof (fold_events_keeps_world getsizeof (event :: events)
                (getsizeof (py_str (pack_value (devices_data_in_event_pack s))) - 2)
                s) as Hkept.
  destruct (fold_sizes (event :: events) _ (fold_event getsizeof) s)
    as [[size1|e|] s1]; cbn [fst snd] in *; try contradiction.
  - unfold log_record. run.
    destruct (sleep_returns (with_log (fun l => l ++ [log_exception e]) s1))
      as (s' & -> & _ & Hst & _).
    cbn [snd]. rewrite Hst. apply Hkept.
  - apply Hkept.
Qed.

(** X17.  A stored event that is no JSON object, or an object without
    [deviceName], is never retired: as long as the checked-out pack holds
    one, the fold raises in every pass, the pack is not committed, and
    after any number of passes, whatever the connection does meanwhile,
    the storage is what it was. *)
Theorem poison_event_blocks_the_storage (n : nat) :
  forall s : Service,
    existsb poison (get_event_pack (_event_storage s)) = true ->
    _event_storage (uplink_passes getsizeof n s) = _event_storage s.
Proof.
  induction n as [|n IH]; intros s Hpoison; [reflexivity|].
  cbn [uplink_passes].
  pose proof (pass_keeps_poisoned_pack s Hpoison) as Hpass.
  destruct (read_data_from_storage_pass getsizeof s) as [[[]|e|] s1];
    cbn [snd] in Hpass; try exact Hpass.
  rewrite IH; [exact Hpass | now rewrite Hpass].
Qed.

End Unreadable.

Lemma poison_event_blocks_the_storage_witness :
  _event_storage
    (uplink_passes getsizeof_ascii 3
       (with_event_storage
          (fun es => mkEventStorage
                       (dumps (PDict [("telemetry", PList [])]) :: stored es)
                       100 10)
          Sample.first_token_fails))
  = mkEventStorage
      (dumps (PDict [("telemetry", PList [])])
       :: stored (_event_storage Sample.first_token_fails))
      100 10.
Proof.
  apply (poison_event_blocks_the_storage getsizeof_ascii 3
           (with_event_storage
              (fun es => mkEventStorage
                           (dumps (PDict [("telemetry", PList [])]) :: stored es)
                           100 10)
              Sample.first_token_fails)).
  reflexivity.
Defined.

(** *** The drain when nothing disturbs it *)

(** In a calm state the drain empties the queue and ends with [success]
    true, when the tokens are not consulted (a QoS other than 1) or each
    of them reports an acknowledgement. *)
Lemma drain_calm (queue : list Token) :
  forall (success : bool) (s : Service),
    calm s ->
    quality_of_service (settings s) <> 1
    \/ Forall (fun event => acknowledged event = true) queue ->
    queue <> [] ->
    drain_published_events queue success s
    = (Ok true, with_published_events (fun _ => []) s).
Proof.
  induction queue as [|event rest IH]; intros success s Hcalm Htokens Hsome;
    [contradiction|].
  destruct Hcalm as (Hc & Hp & Hr & Hs).
  cbn [drain_published_events]. unfold token_wait, sleep, log_record. run.
  rewrite Hp, Hc, Hr. cbn [orb negb]. run. fields. rewrite Hs. fields.
  rewrite Hc, Hp. cbn [andb negb]. run. fields.
  assert (Hnext : forall success',
            drain_published_events rest success'
              (with_published_events (fun _ => rest) s)
            = (Ok (match rest with [] => success' | _ => true end),
               with_published_events (fun _ => []) s)).
  { intros success'. destruct rest as [|event' rest']; [reflexivity|].
    rewrite IH; try discriminate; [reflexivity | now repeat split|].
    destruct Htokens as [Hqos|Hack]; [now left | right].
    now inversion Hack. }
  destruct (Z.eqb_spec (quality_of_service (settings s)) 1) as [Hqos|Hqos].
  - destruct Htokens as [Hne|Hack]; [contradiction|].
    inversion Hack as [|? ? Hevent Hrest]; subst.
    unfold acknowledged in Hevent. run. fields. rewrite Hs.
    destruct (token_get event) as [rc|e]; [|discriminate]. run. fields.
    rewrite Hs, Hevent, Hnext. now destruct rest.
  - run. fields. rewrite Hs, Hnext. now destruct rest.
Qed.

(** X18.  With a QoS other than 1 the drain never consults a token: in a
    calm state the queue is emptied, the pack is committed and the
    accumulator reset, and no exception is logged, whatever the tokens
    would have reported. *)
Theorem commit_without_acknowledgement (s : Service) :
  calm s ->
  quality_of_service (settings s) <> 1 ->
  _published_events s <> [] ->
  drain_and_commit s
  = (Ok tt,
     with_pack (fun _ => [])
       (with_event_storage event_pack_processing_done
          (with_published_events (fun _ => []) s))).
Proof.
  intros Hcalm Hqos Hsome. unfold drain_and_commit. run.
  destruct Hcalm as (Hc & Hp & Hr & Hs) eqn:Hcalm'. rewrite Hc, Hp.
  cbn [andb negb]. run.
  rewrite (drain_calm (_published_events s) true s); try assumption;
    [reflexivity | now left].
Qed.

Lemma commit_without_acknowledgement_witness :
  drain_and_commit
    (with_published_events
       (fun _ => [mkToken (Client.gw_send_telemetry "d1" []) (Returns 1)])
       (mkService
          (mkSettings Sample.gateway_name [] [] None None 0)
          [] [] [] FileEmpty 0 true false false [] [] true
          (mkEventStorage [Sample.event "d1" 1700000000000 21] 100 10)
          [] [] 0 [] []))
  = (Ok tt,
     mkService
       (mkSettings Sample.gateway_name [] [] None None 0)
       [] [] [] FileEmpty 0 true false false [] [] true
       (mkEventStorage [] 100 10)
       [] [] 0 [] []).
Proof.
  apply (commit_without_acknowledgement
           (with_published_events
              (fun _ => [mkToken (Client.gw_send_telemetry "d1" []) (Returns 1)])
              (mkService
                 (mkSettings Sample.gateway_name [] [] None None 0)
                 [] [] [] FileEmpty 0 true false false [] [] true
                 (mkEventStorage [Sample.event "d1" 1700000000000 21] 100 10)
                 [] [] 0 [] []))).
  - now repeat split.
  - discriminate.
  - discriminate.
Defined.

(** ** Uplink: what [__send_data] publishes *)

Lemma tokens_for_app (calls1 calls2 : list CloudCall) :
  forall outcomes,
    tokens_for (calls1 ++ calls2) outcomes
    = tokens_for calls1 outcomes
      ++ tokens_for calls2 (skipn (length calls1) outcomes).
Proof.
  induction calls1 as [|c calls1 IH]; intros outcomes; [reflexivity|].
  cbn [app tokens_for length]. rewrite IH.
  destruct outcomes as [|o outcomes]; cbn [tl skipn]; [|reflexivity].
  now rewrite skipn_nil.
Qed.

Lemma skipn_skipn {A} (n m : nat) (l : list A) :
  skipn m (skipn n l) = skipn (n + m) l.
Proof.
  revert l. induction n as [|n IH]; intros l; [reflexivity|].
  destruct l as [|x l]; cbn [skipn Nat.add]; [now rewrite skipn_nil | apply IH].
Qed.

(** What [s'] differs in from [s] after the publishes [calls]: the calls
    are on the cloud client, their tokens in the queue, their outcomes
    used up. *)
Lemma publish_run (c : CloudCall) (s : Service) :
  exists s',
    publish c s = (Ok tt, s')
    /\ cloud s' = cloud s ++ [c]
    /\ _published_events s' = _published_events s ++ tokens_for [c] (token_outcomes s)
    /\ token_outcomes s' = skipn 1 (token_outcomes s)
    /\ devices_data_in_event_pack s' = devices_data_in_event_pack s
    /\ log s' = log s
    /\ settings s' = settings s.
Proof.
  unfold publish, tb_call. run. eexists. split; [reflexivity|]. fields.
  destruct (token_outcomes s); repeat split.
Qed.

(** The body of the loop of [__send_data] for a device the accumulator
    holds. *)
Lemma send_device_data_run (device : string) (data : DeviceData) (s : Service) :
  PyDict.get (devices_data_in_event_pack s) device = Some data ->
  let calls := device_publishes (name (settings s)) (device, data) in
  exists s',
    send_device_data device s = (Ok tt, s')
    /\ cloud s' = cloud s ++ calls
    /\ _published_events s'
       = _published_events s ++ tokens_for calls (token_outcomes s)
    /\ token_outcomes s' = skipn (length calls) (token_outcomes s)
    /\ devices_data_in_event_pack s'
       = PyDict.set (devices_data_in_event_pack s) device empty_device_data
    /\ log s' = log s
    /\ settings s' = settings s.
Proof.
  intros Hget. cbn zeta. unfold send_device_data, device_publishes. run.
  rewrite Hget. run. cbn [fst snd].
  set (own := String.eqb device (name (settings s))
              || String.eqb device "currentThingsBoardGateway").
  destruct (truthy (PDict (attributes data))).
  - destruct (publish_run (if own then Client.send_attributes (attributes data)
                           else Client.gw_send_attributes device (attributes data)) s)
      as (s1 & -> & C1 & Q1 & O1 & P1 & L1 & S1).
    run. destruct (truthy (PList (telemetry data))).
    + destruct (publish_run (if own then Client.send_telemetry (telemetry data)
                             else Client.gw_send_telemetry device (telemetry data)) s1)
        as (s2 & -> & C2 & Q2 & O2 & P2 & L2 & S2).
      run. eexists. split; [reflexivity|]. fields.
      rewrite C2, C1, Q2, Q1, O2, O1, P2, P1, L2, L1, S2, S1.
      rewrite <- !app_assoc, skipn_skipn. cbn [app tokens_for length Nat.add].
      destruct (token_outcomes s) as [|o [|o' outcomes]]; repeat split.
    + run. eexists. split; [reflexivity|]. fields.
      rewrite C1, Q1, O1, P1, L1, S1. cbn [app length]. repeat split.
  - run. destruct (truthy (PList (telemetry data))).
    + destruct (publish_run (if own then Client.send_telemetry (telemetry data)
                             else Client.gw_send_telemetry device (telemetry data)) s)
        as (s2 & -> & C2 & Q2 & O2 & P2 & L2 & S2).
      run. eexists. split; [reflexivity|]. fields.
      rewrite C2, Q2, O2, P2, L2, S2. cbn [app length]. repeat split.
    + run. eexists. split; [reflexivity|]. fields. cbn [app length tokens_for skipn].
      rewrite !app_nil_r. repeat split.
Qed.

(** The loop of [__send_data] over the devices not yet visited. *)
Lemma send_loop_run (rest : dict DeviceData) :
  forall (visited : dict DeviceData) (s : Service),
    NoDup (PyDict.keys (visited ++ rest)) ->
    devices_data_in_event_pack s = blank visited ++ rest ->
    let calls := flat_map (device_publishes (name (settings s))) rest in
    exists s',
      for_each (PyDict.keys rest) send_device_data s = (Ok tt, s')
      /\ cloud s' = cloud s ++ calls
      /\ _published_events s'
         = _published_events s ++ tokens_for calls (token_outcomes s)
      /\ token_outcomes s' = skipn (length calls) (token_outcomes s)
      /\ devices_data_in_event_pack s' = blank (visited ++ rest)
      /\ log s' = log s
      /\ settings s' = settings s.
Proof.
  induction rest as [|[device data] rest IH]; intros visited s Hnodup Hpack;
    cbn zeta.
  - exists s. cbn. rewrite !app_nil_r. repeat split.
    now rewrite Hpack, app_nil_r.
  - assert (Hfresh : ~ In device (PyDict.keys (blank visited))).
    { rewrite keys_blank. unfold PyDict.keys in *. rewrite map_app in Hnodup.
      apply NoDup_remove_2 in Hnodup. intros Hin. apply Hnodup.
      apply in_or_app. now left. }
    assert (Hget : PyDict.get (devices_data_in_event_pack s) device = Some data).
    { rewrite Hpack, PackFacts.get_app_notin by exact Hfresh.
      cbn. now rewrite String.eqb_refl. }
    destruct (send_device_data_run device data s Hget)
      as (s1 & Hrun & C1 & Q1 & O1 & P1 & L1 & S1).
    cbn [PyDict.keys map fst for_each flat_map]. unfold bind. rewrite Hrun.
    destruct (IH (visited ++ [(device, data)]) s1) as
      (s2 & Hloop & C2 & Q2 & O2 & P2 & L2 & S2).
    + now rewrite <- app_assoc.
    + rewrite P1, Hpack, PackFacts.set_app_notin by exact Hfresh.
      cbn [PyDict.set]. rewrite String.eqb_refl.
      unfold blank. rewrite map_app. cbn [map fst].
      now rewrite <- app_assoc.
    + exists s2. split; [exact Hloop|].
      rewrite C2, Q2, O2, P2, L2, S2, C1, Q1, O1, L1, S1.
      rewrite tokens_for_app, length_app, skipn_skipn, <- !app_assoc.
      repeat split.
Qed.

(** X19.  [__send_data] goes through the devices of the accumulator in
    their order and publishes, for each, its attributes when it has some
    and then its telemetry when it has some, on the gateway's own channel
    for the devices named as the gateway or [currentThingsBoardGateway]
    and on the gateway-device channel for the others.  The token of each
    publish joins the queue in the same order, and every device of the
    accumulator is left with no telemetry and no attributes. *)
Theorem send_data_publishes_the_accumulator (s : Service) :
  NoDup (PyDict.keys (devices_data_in_event_pack s)) ->
  let calls :=
    flat_map (device_publishes (name (settings s)))
      (devices_data_in_event_pack s) in
  exists s',
    __send_data s = (Ok tt, s')
    /\ cloud s' = cloud s ++ calls
    /\ _published_events s'
       = _published_events s ++ tokens_for calls (token_outcomes s)
    /\ devices_data_in_event_pack s' = blank (devices_data_in_event_pack s)
    /\ log s' = log s.
Proof.
  intros Hnodup. cbn zeta. unfold __send_data. run.
  destruct (send_loop_run (devices_data_in_event_pack s) [] s Hnodup eq_refl)
    as (s' & Hloop & C & Q & O & P & L & S).
  unfold PyDict.keys in *. rewrite Hloop. exists s'. now repeat split.
Qed.

Lemma send_data_publishes_the_accumulator_witness :
  exists s',
    __send_data
      (with_pack
         (fun _ => [("d1", mkDeviceData [Sample.reading_b] []);
                    ("currentThingsBoardGateway",
                     mkDeviceData [Sample.reading_c] [("version", PStr "3.0")])])
         Sample.started)
    = (Ok tt, s')
    /\ cloud s'
       = [Client.gw_send_telemetry "d1" [Sample.reading_b];
          Client.send_attributes [("version", PStr "3.0")];
          Client.send_telemetry [Sample.reading_c]]
    /\ _published_events s'
       = [mkToken (Client.gw_send_telemetry "d1" [Sample.reading_b])
            (Returns TB_ERR_SUCCESS);
          mkToken (Client.send_attributes [("version", PStr "3.0")])
            (Returns TB_ERR_SUCCESS);
          mkToken (Client.send_telemetry [Sample.reading_c])
            (Returns TB_ERR_SUCCESS)]
    /\ devices_data_in_event_pack s'
       = [("d1", mkDeviceData [] []);
          ("currentThingsBoardGateway", mkDeviceData [] [])]
    /\ log s' = [].
Proof.
  apply (send_data_publishes_the_accumulator
           (with_pack
              (fun _ => [("d1", mkDeviceData [Sample.reading_b] []);
                         ("currentThingsBoardGateway",
                          mkDeviceData [Sample.reading_c] [("version", PStr "3.0")])])
              Sample.started)).
  vm_compute. repeat constructor; simpl; intuition discriminate.
Defined.

(** ** Uplink: every entry is published once *)

Lemma sent_telemetry_app (device : string) (calls1 calls2 : list CloudCall) :
  sent_telemetry device (calls1 ++ calls2)
  = sent_telemetry device calls1 ++ sent_telemetry device calls2.
Proof. unfold sent_telemetry. apply flat_map_app. Qed.

Lemma held_telemetry_blank (device : string) (pack : dict DeviceData) :
  held_telemetry device (blank pack) = [].
Proof.
  unfold held_telemetry.
  induction pack as [|[d data] pack IH]; [reflexivity|].
  cbn. destruct (String.eqb d device); [reflexivity | exact IH].
Qed.

(** What [__send_data] publishes for a device that does not stand for the
    gateway is the telemetry the accumulator holds for it. *)
Lemma sent_publishes (self_name device : string) (pack : dict DeviceData) :
  other_device self_name device = true ->
  NoDup (PyDict.keys pack) ->
  sent_telemetry device (flat_map (device_publishes self_name) pack)
  = held_telemetry device pack.
Proof.
  intros Hother. unfold other_device in Hother. apply negb_true_iff in Hother.
  induction pack as [|[d data] pack IH]; intros Hnodup; [reflexivity|].
  cbn [PyDict.keys map fst] in Hnodup.
  inversion Hnodup as [|? ? Hnotin Hnodup']; subst.
  cbn [flat_map]. rewrite sent_telemetry_app, (IH Hnodup').
  unfold held_telemetry at 2. cbn [PyDict.get]. fold (held_telemetry device pack).
  unfold device_publishes. cbn [fst snd]. rewrite sent_telemetry_app.
  destruct (String.eqb_spec d device) as [->|Hd].
  - rewrite Hother. unfold held_telemetry.
    rewrite (PyDictFacts.get_notin pack device Hnotin), app_nil_r.
    destruct (truthy (PDict (attributes data))); cbn [sent_telemetry flat_map app];
      destruct (telemetry data) as [|x l] eqn:Ht; cbn [truthy sent_telemetry flat_map app];
      rewrite ?String.eqb_refl, ?app_nil_r; reflexivity.
  - apply String.eqb_neq in Hd.
    destruct (truthy (PDict (attributes data))),
      (truthy (PList (telemetry data))),
      (String.eqb d self_name || String.eqb d "currentThingsBoardGateway");
      cbn [sent_telemetry flat_map app]; rewrite ?Hd; reflexivity.
Qed.

Section Conservation.

Variable getsizeof : string -> Z.
Variable self_name : string.

Lemma in_keys_get {V} (d : dict V) (k : string) :
  In k (PyDict.keys d) -> exists v, PyDict.get d k = Some v.
Proof.
  intros Hin. apply PyDictFacts.contains_get. now apply PyDictFacts.get_key_in.
Qed.

Lemma contains_in_keys {V} (d : dict V) (k : string) :
  PyDict.contains d k = true -> In k (PyDict.keys d).
Proof.
  unfold PyDict.contains.
  induction d as [|[k' v'] d IH]; cbn; [discriminate|].
  destruct (String.eqb_spec k' k) as [->|Hk]; [now left|].
  intros Hin. right. now apply IH.
Qed.

Lemma folds_ext {A} device (items items' : string -> list PyVal)
  (m : M Service A) :
  (forall d, items d = items' d) ->
  folds self_name device items m -> folds self_name device items' m.
Proof.
  intros Hext Hm s Hready Hin.
  destruct (Hm s Hready Hin) as (a & s' & Hrun & Hready' & Hkeys & Hbalance).
  exists a, s'. repeat split; try assumption; try apply Hready'.
  intros d Hd. rewrite <- Hext. now apply Hbalance.
Qed.

Lemma folds_ret {A} device (a : A) :
  folds self_name device (fun _ => []) (ret a).
Proof.
  intros s Hready Hin. exists a, s. repeat split; try apply Hready.
  intros d _. now rewrite app_nil_r.
Qed.

Lemma folds_bind {A B} device (items1 items2 : string -> list PyVal)
  (m : M Service A) (k : A -> M Service B) :
  folds self_name device items1 m ->
  (forall a, folds self_name device items2 (k a)) ->
  folds self_name device (fun d => items1 d ++ items2 d) (bind m k).
Proof.
  intros Hm Hk s Hready Hin.
  destruct (Hm s Hready Hin) as (a & s1 & Hrun & Hready1 & Hkeys1 & Hbalance1).
  assert (Hin1 : In device (PyDict.keys (devices_data_in_event_pack s1)))
    by now rewrite Hkeys1.
  destruct (Hk a s1 Hready1 Hin1) as (b & s2 & Hrun2 & Hready2 & Hkeys2 & Hbalance2).
  exists b, s2. unfold bind. rewrite Hrun. repeat split; try apply Hready2.
  - exact Hrun2.
  - congruence.
  - intros d Hd. rewrite (Hbalance2 d Hd), (Hbalance1 d Hd).
    now rewrite app_assoc.
Qed.

Lemma folds_fold_sizes {A} device (entries : A -> string -> list PyVal)
  (f : Z -> A -> M Service Z) (l : list A) :
  (forall size x, In x l -> folds self_name device (entries x) (f size x)) ->
  forall size,
    folds self_name device (fun d => flat_map (fun x => entries x d) l)
      (fold_sizes l size f).
Proof.
  induction l as [|x l IH]; intros Hf size; cbn [fold_sizes flat_map].
  - apply folds_ret.
  - apply (folds_bind device (entries x)).
    + apply Hf. now left.
    + intros size'. apply IH. intros size0 y Hy. apply Hf. now right.
Qed.

(** [check_size] moves what the accumulator holds to the cloud, or
    changes nothing. *)
Lemma check_size_folds device (size : Z) :
  folds self_name device (fun _ => []) (check_size size).
Proof.
  intros s Hready Hin. unfold check_size. run.
  destruct (size >=? max_payload_size s);
    [|exact (folds_ret device size s Hready Hin)].
  destruct Hready as [Hname Hnodup].
  destruct (send_loop_run (devices_data_in_event_pack s) [] s Hnodup eq_refl)
    as (s' & Hloop & C & Q & O & P & L & S).
  unfold __send_data. run. unfold PyDict.keys in *. rewrite Hloop.
  exists 0, s'. split; [reflexivity|]. cbn [app] in P.
  assert (Hkeys : map fst (devices_data_in_event_pack s')
                  = map fst (devices_data_in_event_pack s)).
  { rewrite P. apply keys_blank. }
  repeat split.
  - congruence.
  - unfold PyDict.keys. now rewrite Hkeys.
  - exact Hkeys.
  - intros d Hd. unfold telemetry_balance.
    rewrite C, P, sent_telemetry_app, held_telemetry_blank, !app_nil_r.
    rewrite Hname, (sent_publishes self_name d _ Hd Hnodup). reflexivity.
Qed.

Lemma append_telemetry_folds device (item : PyVal) :
  folds self_name device
    (fun d => if String.eqb device d then [item] else [])
    (append_telemetry device item).
Proof.
  intros s [Hname Hnodup] Hin. unfold append_telemetry. run.
  destruct (in_keys_get _ _ Hin) as (data & Hget). rewrite Hget. run.
  eexists; eexists. split; [reflexivity|]. fields.
  assert (Hcontains : PyDict.contains (devices_data_in_event_pack s) device = true)
    by (unfold PyDict.contains; now rewrite Hget).
  repeat split.
  - exact Hname.
  - now apply PackFacts.nodup_set.
  - now apply PackFacts.keys_set_present.
  - intros d Hd. unfold telemetry_balance, held_telemetry. fields.
    destruct (String.eqb_spec device d) as [->|Hne].
    + rewrite PyDictFacts.get_set_same, Hget. cbn [telemetry].
      now rewrite app_assoc.
    + rewrite PyDictFacts.get_set_other by exact Hne. now rewrite app_nil_r.
Qed.

Lemma update_attributes_folds device (items : dict PyVal) :
  folds self_name device (fun _ => []) (update_attributes device items).
Proof.
  intros s [Hname Hnodup] Hin. unfold update_attributes. run.
  destruct (in_keys_get _ _ Hin) as (data & Hget). rewrite Hget. run.
  eexists; eexists. split; [reflexivity|]. fields.
  assert (Hcontains : PyDict.contains (devices_data_in_event_pack s) device = true)
    by (unfold PyDict.contains; now rewrite Hget).
  repeat split.
  - exact Hname.
  - now apply PackFacts.nodup_set.
  - now apply PackFacts.keys_set_present.
  - intros d Hd. unfold telemetry_balance, held_telemetry. fields.
    rewrite app_nil_r.
    destruct (String.eqb_spec device d) as [->|Hne].
    + now rewrite PyDictFacts.get_set_same, Hget.
    + now rewrite PyDictFacts.get_set_other by exact Hne.
Qed.

Lemma fold_telemetry_folds device (size : Z) (item : PyVal) :
  folds self_name device
    (fun d => if String.eqb device d then [item] else [])
    (fold_telemetry getsizeof device size item).
Proof.
  unfold fold_telemetry. cbv zeta.
  apply (folds_ext device
           (fun d => [] ++ ((if String.eqb device d then [item] else []) ++ [])));
    [intros d; now rewrite app_nil_r|].
  apply folds_bind; [apply check_size_folds|]. intros size'.
  apply folds_bind; [apply append_telemetry_folds|]. intros _.
  apply folds_ret.
Qed.

Lemma fold_attributes_item_folds device (size : Z) (items : dict PyVal) :
  folds self_name device (fun _ => [])
    (fold_attributes_item getsizeof device size (PDict items)).
Proof.
  unfold fold_attributes_item. cbv zeta.
  apply (folds_ext device (fun d => [] ++ ([] ++ []))); [reflexivity|].
  apply folds_bind; [apply check_size_folds|]. intros size'.
  apply folds_bind; [apply update_attributes_folds|]. intros _.
  apply folds_ret.
Qed.

Lemma fold_attributes_folds device (size : Z) (items : dict PyVal) :
  folds self_name device (fun _ => [])
    (fold_attributes getsizeof device size (PDict items)).
Proof.
  unfold fold_attributes. cbv zeta.
  apply (folds_ext device (fun d => [] ++ ([] ++ []))); [reflexivity|].
  apply folds_bind; [apply check_size_folds|]. intros size'.
  apply folds_bind; [apply update_attributes_folds|]. intros _.
  apply folds_ret.
Qed.

Lemma flat_map_nil {A B} (l : list A) : flat_map (fun _ : A => @nil B) l = [].
Proof. induction l; [reflexivity | assumption]. Qed.

Lemma flat_map_single {A} (l : list A) : flat_map (fun x => [x]) l = l.
Proof. induction l as [|x l IH]; [reflexivity | cbn; now rewrite IH]. Qed.

(** The two sections of a readable event. *)
Lemma fold_sections_folds device (current_event : dict PyVal) (size : Z) :
  readable_attributes (get_or_None current_event "attributes") = true ->
  folds self_name device
    (fun d => if String.eqb device d
              then telemetry_items (Dumped (PDict current_event)) else [])
    (fold_sections getsizeof device current_event size).
Proof.
  intros Hattributes. unfold fold_sections.
  apply (folds_ext device
           (fun d => (if String.eqb device d
                      then telemetry_items (Dumped (PDict current_event))
                      else []) ++ []));
    [intros d; now rewrite app_nil_r|].
  apply folds_bind.
  - unfold telemetry_items. cbn [loads]. cbv zeta.
    destruct (truthy (get_or_None current_event "telemetry")).
    + destruct (get_or_None current_event "telemetry") as [| | | |items| |] eqn:Ht;
        try apply fold_telemetry_folds.
      apply (folds_ext device
               (fun d => flat_map (fun x => if String.eqb device d then [x] else [])
                           items)).
      * intros d. destruct (String.eqb device d);
          [apply flat_map_single | apply flat_map_nil].
      * apply (folds_fold_sizes device
                 (fun x d => if String.eqb device d then [x] else [])).
        intros size0 x _. apply fold_telemetry_folds.
    + apply (folds_ext device (fun _ => [])); [|apply folds_ret].
      intros d. now destruct (String.eqb device d).
  - intros size'. unfold readable_attributes in Hattributes.
    destruct (truthy (get_or_None current_event "attributes"));
      [|apply folds_ret].
    cbn [negb orb] in Hattributes.
    destruct (get_or_None current_event "attributes") as [| | | |items|items|];
      try discriminate.
    + apply (folds_ext device (fun d => flat_map (fun _ : PyVal => []) items));
        [intros d; apply flat_map_nil|].
      apply (folds_fold_sizes device (fun _ _ => [])).
      intros size0 x Hx.
      rewrite forallb_forall in Hattributes. specialize (Hattributes x Hx).
      destruct x; try discriminate. apply fold_attributes_item_folds.
    + apply fold_attributes_folds.
Qed.

(** The fold of one readable event. *)
Lemma fold_event_returns (size : Z) (event : Serialized) (s : Service) :
  readable event = true ->
  fold_ready self_name s ->
  exists size' s',
    fold_event getsizeof size event s = (Ok size', s')
    /\ fold_ready self_name s'
    /\ forall d,
         other_device self_name d = true ->
         telemetry_balance d s' = telemetry_balance d s ++ event_telemetry d event.
Proof.
  intros Hreadable [Hname Hnodup].
  unfold fold_event, readable, event_telemetry in *. run.
  destruct (loads event) as [[| | | | |current_event|]|e|] eqn:Hloads;
    try discriminate.
  - destruct (PyDict.get current_event "deviceName") as [[| | |device| | |]|]
      eqn:Hdevice; try discriminate.
    run. unfold as_key. run.
    set (s1 := with_counter (fun c => c + 1) s).
    assert (Hinsert : exists s2,
              when (negb (PyDict.contains (devices_data_in_event_pack s1) device))
                (modify (with_pack (fun p => PyDict.set p device empty_device_data)))
                s1 = (Ok tt, s2)
              /\ fold_ready self_name s2
              /\ In device (PyDict.keys (devices_data_in_event_pack s2))
              /\ forall d, telemetry_balance d s2 = telemetry_balance d s).
    { destruct (PyDict.contains (devices_data_in_event_pack s1) device) eqn:Hin.
      - exists s1. cbn. repeat split; try assumption.
        now apply contains_in_keys.
      - eexists. cbn [negb when]. unfold modify. split; [reflexivity|].
        subst s1. fields. cbn [with_counter devices_data_in_event_pack] in Hin.
        apply RegistryFacts.contains_false_get in Hin.
        repeat split.
        + exact Hname.
        + now apply PackFacts.nodup_set.
        + rewrite PackFacts.keys_set_absent by exact Hin.
          apply in_or_app. right. now left.
        + intros d. unfold telemetry_balance, held_telemetry. fields.
          destruct (String.eqb_spec device d) as [->|Hne].
          * now rewrite PyDictFacts.get_set_same, Hin.
          * now rewrite PyDictFacts.get_set_other by exact Hne. }
    revert Hinsert. run. intros (s2 & -> & Hready2 & Hin2 & Hbalance2).
    destruct (fold_sections_folds device current_event size Hreadable s2
                Hready2 Hin2) as (size' & s3 & Hrun & Hready3 & _ & Hbalance3).
    revert Hrun. run. intros ->.
    exists size', s3. split; [reflexivity|]. split; [exact Hready3|].
    intros d Hd. rewrite (Hbalance3 d Hd), Hbalance2.
    unfold telemetry_items. now rewrite Hloads.
  - unfold log_record. run. eexists; eexists. split; [reflexivity|].
    split; [split; assumption|]. intros d _.
    unfold telemetry_balance. fields. now rewrite app_nil_r.
  - destruct event; discriminate.
Qed.

(** The fold of a pack of readable events. *)
Lemma fold_events_return (events : list Serialized) :
  forallb readable events = true ->
  forall (size : Z) (s : Service),
    fold_ready self_name s ->
    exists size' s',
      fold_sizes events size (fold_event getsizeof) s = (Ok size', s')
      /\ fold_ready self_name s'
      /\ forall d,
           other_device self_name d = true ->
           telemetry_balance d s'
           = telemetry_balance d s
             ++ flat_map (event_telemetry d) events.
Proof.
  induction events as [|event events IH]; intros Hall size s Hready.
  - exists size, s. cbn. repeat split; try apply Hready.
    intros d _. now rewrite app_nil_r.
  - cbn [forallb] in Hall. apply andb_prop in Hall as [Hevent Hrest].
    destruct (fold_event_returns size event s Hevent Hready)
      as (size1 & s1 & Hrun1 & Hready1 & Hbalance1).
    destruct (IH Hrest size1 s1 Hready1) as (size2 & s2 & Hrun2 & Hready2 & Hbalance2).
    exists size2, s2. cbn [fold_sizes flat_map]. unfold bind. rewrite Hrun1.
    split; [exact Hrun2|]. split; [exact Hready2|].
    intros d Hd. rewrite (Hbalance2 d Hd), (Hbalance1 d Hd).
    now rewrite app_assoc.
Qed.

End Conservation.

(** ** Uplink: a readable pack in a calm world *)

Lemma acknowledged_kept_refl (s : Service) : acknowledged_kept s s.
Proof. now intros H. Qed.

Lemma acknowledged_kept_trans (s1 s2 s3 : Service) :
  acknowledged_kept s1 s2 -> acknowledged_kept s2 s3 -> acknowledged_kept s1 s3.
Proof. unfold acknowledged_kept. auto. Qed.

Ltac keeps_acknowledged :=
  repeat first
    [ match goal with
      | H : context [keeps acknowledged_kept] |- keeps acknowledged_kept _ =>
          apply H
      end
    | match goal with
      | |- keeps acknowledged_kept (modify _) =>
          apply keeps_modify; intros ? Hack; exact Hack
      end
    | keeps_step; try apply acknowledged_kept_refl;
      try apply acknowledged_kept_trans ].

Section AcknowledgedKept.

Variable getsizeof : string -> Z.

Lemma publish_keeps_acknowledged (c : CloudCall) :
  keeps acknowledged_kept (publish c).
Proof.
  intros s [Houtcomes Hqueue]. unfold publish, tb_call. run. cbn [snd].
  split; fields.
  - destruct (token_outcomes s); [constructor | now inversion Houtcomes].
  - apply Forall_app. split; [exact Hqueue|]. constructor; [|constructor].
    unfold acknowledged. cbn [token_get].
    destruct (token_outcomes s) as [|o outcomes]; [reflexivity|].
    inversion Houtcomes; subst. reflexivity.
Qed.

Lemma send_data_keeps_acknowledged : keeps acknowledged_kept __send_data.
Proof.
  pose proof publish_keeps_acknowledged.
  unfold __send_data, send_device_data, log_record. keeps_acknowledged.
Qed.

Lemma fold_events_keep_acknowledged (events : list Serialized) (size : Z) :
  keeps acknowledged_kept (fold_sizes events size (fold_event getsizeof)).
Proof.
  pose proof send_data_keeps_acknowledged.
  apply keeps_fold_sizes;
    [apply acknowledged_kept_refl | apply acknowledged_kept_trans|].
  intros size0 event.
  unfold fold_event, fold_sections, fold_telemetry, fold_attributes_item,
    fold_attributes, check_size, append_telemetry, update_attributes,
    log_record.
  keeps_acknowledged.
Qed.

End AcknowledgedKept.

Section ReadablePass.

Variable getsizeof : string -> Z.

Lemma calm_kept (s s' : Service) : world_kept s s' -> calm s -> calm s'.
Proof.
  unfold world_kept, calm. intros Hkept Hcalm.
  repeat match goal with
         | H : _ /\ _ |- _ => destruct H
         end.
  repeat split; congruence.
Qed.

(** The drain and the commit in a calm state whose tokens are not
    consulted or all acknowledged. *)
Lemma drain_and_commit_calm (s : Service) :
  calm s ->
  quality_of_service (settings s) <> 1 \/ all_acknowledged s ->
  exists s',
    drain_and_commit s = (Ok tt, s')
    /\ _event_storage s' = event_pack_processing_done (_event_storage s)
    /\ devices_data_in_event_pack s' = []
    /\ _published_events s' = []
    /\ cloud s' = cloud s.
Proof.
  intros Hcalm Htokens. unfold drain_and_commit. run.
  destruct Hcalm as (Hc & Hp & Hr & Hs) eqn:Hcalm'. rewrite Hc, Hp.
  cbn [andb negb]. run.
  destruct (_published_events s) as [|event queue] eqn:Hqueue.
  - cbn [drain_published_events]. run. eexists. split; [reflexivity|].
    fields. now rewrite Hqueue.
  - rewrite (drain_calm (event :: queue) true s); try assumption;
      try discriminate.
    + run. eexists. split; [reflexivity|]. now fields.
    + destruct Htokens as [Hqos|[_ Hack]]; [now left | right].
      now rewrite Hqueue in Hack.
Qed.

(** X20.  In a calm state (connected, no remote configuration and no RPC
    reply under way, now and for good), with tokens that are not consulted
    (a QoS other than 1) or all acknowledged, one pass of the worker over
    a pack of readable events returns with the pack committed, the
    accumulator reset and the queue of tokens empty.  For every device
    that does not stand for the gateway, the telemetry published for it
    up to then is, entry by entry and in order, what had been published
    and what the accumulator held before the pass, followed by the
    entries of its events in the pack: nothing is lost, repeated or
    reordered by the flushes at the payload limit. *)
Theorem readable_pack_is_published_and_committed (s : Service) :
  calm s ->
  get_event_pack (_event_storage s) <> [] ->
  forallb readable (get_event_pack (_event_storage s)) = true ->
  NoDup (PyDict.keys (devices_data_in_event_pack s)) ->
  quality_of_service (settings s) <> 1 \/ all_acknowledged s ->
  exists s',
    read_data_from_storage_pass getsizeof s = (Ok tt, s')
    /\ _event_storage s' = event_pack_processing_done (_event_storage s)
    /\ devices_data_in_event_pack s' = []
    /\ _published_events s' = []
    /\ forall device,
         other_device (name (settings s)) device = true ->
         sent_telemetry device (cloud s')
         = telemetry_balance device s
           ++ flat_map (event_telemetry device)
                (get_event_pack (_event_storage s)).
Proof.
  intros Hcalm Hsome Hreadable Hnodup Htokens.
  unfold read_data_from_storage_pass. run.
  destruct Hcalm as (Hc & Hp & Hr & Hs) eqn:Hcalm'. clear Hcalm'.
  rewrite Hc, Hp. cbn [negb].
  destruct (get_event_pack (_event_storage s)) as [|event events] eqn:Hpack;
    [contradiction|].
  set (size := getsizeof (py_str (pack_value (devices_data_in_event_pack s))) - 2).
  destruct (fold_events_return getsizeof (name (settings s)) (event :: events)
              Hreadable size s (conj eq_refl Hnodup))
    as (size1 & s1 & Hfold & [Hname1 Hnodup1] & Hbalance1).
  pose proof (fold_events_keeps_world getsizeof (event :: events) size s) as Hkept1.
  pose proof (fold_events_keep_acknowledged getsizeof (event :: events) size s)
    as Hack1.
  rewrite Hfold in Hkept1, Hack1 |- *. cbn [snd] in Hkept1, Hack1.
  assert (Hcalm1 : calm s1)
    by (apply (calm_kept s); [exact Hkept1 | now repeat split]).
  assert (Hstorage1 : _event_storage s1 = _event_storage s) by apply Hkept1.
  assert (Htokens1 : quality_of_service (settings s1) <> 1 \/ all_acknowledged s1).
  { destruct Htokens as [Hqos|Hack]; [left | right; now apply Hack1].
    destruct Hkept1 as (-> & _). exact Hqos. }
  destruct (devices_data_in_event_pack s1) as [|first others] eqn:Hacc.
  - destruct (drain_and_commit_calm s1 Hcalm1 Htokens1)
      as (s' & -> & Hst & Hp' & Hq' & Hcl').
    exists s'. split; [reflexivity|]. rewrite Hst, Hstorage1.
    repeat split; try assumption.
    intros device Hdevice. rewrite Hcl', <- (Hbalance1 device Hdevice).
    unfold telemetry_balance, held_telemetry. rewrite Hacc. cbn.
    now rewrite app_nil_r.
  - destruct Hcalm1 as (Hc1 & Hp1 & Hr1 & Hs1) eqn:Hcalm1'. clear Hcalm1'.
    rewrite Hc1. cbn [negb].
    assert (Hwait : wait_rpc_reply_sent (schedule s1) s1 = (Ok tt, s1)).
    { rewrite Hs1. cbn. now rewrite Hr1. }
    rewrite Hwait.
    assert (Hnodup1' : NoDup (PyDict.keys (devices_data_in_event_pack s1)))
      by now rewrite Hacc.
    destruct (send_loop_run (devices_data_in_event_pack s1) [] s1 Hnodup1' eq_refl)
      as (s2 & Hloop & C2 & Q2 & O2 & P2 & L2 & S2).
    pose proof (send_data_keeps_world s1) as Hkept2.
    pose proof (send_data_keeps_acknowledged s1) as Hack2.
    assert (Hsend : __send_data s1 = (Ok tt, s2)).
    { unfold __send_data. run. unfold PyDict.keys in *. now rewrite Hloop. }
    rewrite Hsend in Hkept2, Hack2 |- *. cbn [snd] in Hkept2, Hack2.
    assert (Hcalm2 : calm s2)
      by (apply (calm_kept s1); [exact Hkept2 | now repeat split]).
    rewrite (sleep_calm s2) by apply Hcalm2.
    assert (Htokens2 : quality_of_service (settings s2) <> 1 \/ all_acknowledged s2).
    { destruct Htokens1 as [Hqos|Hack]; [left | right; now apply Hack2].
      now rewrite S2. }
    destruct (drain_and_commit_calm s2 Hcalm2 Htokens2)
      as (s' & -> & Hst & Hp' & Hq' & Hcl').
    exists s'. split; [reflexivity|].
    assert (Hstorage2 : _event_storage s2 = _event_storage s1) by apply Hkept2.
    rewrite Hst, Hstorage2, Hstorage1.
    repeat split; try assumption.
    intros device Hdevice. rewrite Hcl', <- (Hbalance1 device Hdevice).
    unfold telemetry_balance. rewrite C2, sent_telemetry_app. f_equal.
    rewrite Hname1. apply sent_publishes; assumption.
Qed.

End ReadablePass.

Lemma readable_pack_is_published_and_committed_witness :
  exists s',
    read_data_from_storage_pass getsizeof_ascii Sample.four_readings = (Ok tt, s')
    /\ _event_storage s'
       = event_pack_processing_done (_event_storage Sample.four_readings)
    /\ devices_data_in_event_pack s' = []
    /\ _published_events s' = []
    /\ forall device,
         other_device (name (settings Sample.four_readings)) device = true ->
         sent_telemetry device (cloud s')
         = telemetry_balance device Sample.four_readings
           ++ flat_map (event_telemetry device)
                (get_event_pack (_event_storage Sample.four_readings)).
Proof.
  apply (readable_pack_is_published_and_committed getsizeof_ascii
           Sample.four_readings).
  - now repeat split.
  - discriminate.
  - reflexivity.
  - constructor.
  - right. split; constructor.
Defined.

(** ** Uplink: the flushes at the payload limit *)

Section BatchFacts.

Variable getsizeof : string -> Z.
Hypothesis getsizeof_header : forall text, 2 <= getsizeof text.

Lemma piece_size_nonneg (p : Piece) : 0 <= piece_size getsizeof p.
Proof.
  unfold piece_size. specialize (getsizeof_header (piece_text p)). lia.
Qed.

Lemma pieces_size_cons (p : Piece) (batch : list Piece) :
  pieces_size getsizeof (p :: batch)
  = piece_size getsizeof p + pieces_size getsizeof batch.
Proof. reflexivity. Qed.

Lemma pieces_size_nonneg (batch : list Piece) : 0 <= pieces_size getsizeof batch.
Proof.
  induction batch as [|p batch IH]; [cbn; lia|].
  rewrite pieces_size_cons. pose proof (piece_size_nonneg p). lia.
Qed.

Lemma pieces_size_app (batch : list Piece) (p : Piece) :
  pieces_size getsizeof (batch ++ [p])
  = pieces_size getsizeof batch + piece_size getsizeof p.
Proof.
  induction batch as [|q batch IH]; cbn [app].
  - rewrite pieces_size_cons. cbn. lia.
  - rewrite !pieces_size_cons, IH. lia.
Qed.

(** *** What the accumulator holds *)

Lemma assemble_app (device : string) (batch : list Piece) (p : Piece) :
  assemble device (batch ++ [p])
  = if String.eqb (piece_device p) device
    then put_piece p (assemble device batch)
    else assemble device batch.
Proof. unfold assemble. now rewrite fold_left_app. Qed.

Lemma assemble_none (device : string) (batch : list Piece) :
  (forall p, In p batch -> piece_device p <> device) ->
  assemble device batch = empty_device_data.
Proof.
  induction batch as [|p batch IH] using rev_ind; intros Hnone; [reflexivity|].
  rewrite assemble_app.
  destruct (String.eqb_spec (piece_device p) device) as [Heq|_].
  - exfalso. apply (Hnone p); [apply in_or_app; right; now left | exact Heq].
  - apply IH. intros q Hq. apply Hnone. apply in_or_app. now left.
Qed.

Lemma get_some_in {V} (d : dict V) (k : string) (v : V) :
  PyDict.get d k = Some v -> In k (PyDict.keys d).
Proof.
  induction d as [|[k' v'] d IH]; cbn; [discriminate|].
  destruct (String.eqb_spec k' k) as [->|_]; [now left|].
  intros H. right. now apply IH.
Qed.

Lemma holds_nothing_holds (pack : dict DeviceData) :
  holds_nothing pack -> holds_batch [] pack.
Proof.
  intros (Hnodup & Hempty). split; [exact Hnodup|]. split.
  - intros device data Hget. now apply (Hempty device).
  - intros p [].
Qed.

Lemma holds_blank (pack : dict DeviceData) :
  NoDup (PyDict.keys pack) -> holds_batch [] (blank pack).
Proof.
  intros Hnodup. split; [now rewrite keys_blank|]. split.
  - intros device data Hget.
    assert (Hin : PyDict.contains pack device = true).
    { apply PyDictFacts.get_key_in. rewrite <- (keys_blank pack).
      now apply (get_some_in _ _ data). }
    rewrite (get_blank pack device Hin) in Hget. now injection Hget as <-.
  - intros p [].
Qed.

(** A piece put into the data of its device. *)
Lemma holds_put (batch : list Piece) (pack : dict DeviceData) (p : Piece)
  (data : DeviceData) :
  holds_batch batch pack ->
  PyDict.get pack (piece_device p) = Some data ->
  holds_batch (batch ++ [p])
    (PyDict.set pack (piece_device p) (put_piece p data)).
Proof.
  intros (Hnodup & Hheld & Hin) Hget. split; [|split].
  - now apply PackFacts.nodup_set.
  - intros device data' Hget'. rewrite assemble_app.
    destruct (String.eqb_spec (piece_device p) device) as [<-|Hne].
    + rewrite PyDictFacts.get_set_same in Hget'. injection Hget' as <-.
      now rewrite (Hheld _ _ Hget).
    + rewrite PyDictFacts.get_set_other in Hget' by exact Hne.
      now apply Hheld.
  - intros q Hq. apply contains_set_other.
    apply in_app_or in Hq. destruct Hq as [Hq|[<-|[]]]; [now apply Hin|].
    apply PyDictFacts.contains_get. now exists data.
Qed.

(** A device the accumulator did not have, given its place. *)
Lemma holds_new_device (batch : list Piece) (pack : dict DeviceData)
  (device : string) :
  holds_batch batch pack ->
  PyDict.contains pack device = false ->
  holds_batch batch (PyDict.set pack device empty_device_data).
Proof.
  intros (Hnodup & Hheld & Hin) Hnew. split; [|split].
  - now apply PackFacts.nodup_set.
  - intros device' data' Hget'.
    destruct (String.eqb_spec device device') as [<-|Hne].
    + rewrite PyDictFacts.get_set_same in Hget'. injection Hget' as <-.
      symmetry. apply assemble_none. intros p Hp Heq.
      specialize (Hin p Hp). rewrite Heq in Hin. congruence.
    + rewrite PyDictFacts.get_set_other in Hget' by exact Hne.
      now apply Hheld.
  - intros q Hq. apply contains_set_other. now apply Hin.
Qed.

(** What [__send_data] publishes for an accumulator that holds a batch
    are the publishes of the flush of that batch. *)
Lemma holds_publishes (self_name : string) (batch : list Piece)
  (pack : dict DeviceData) :
  holds_batch batch pack ->
  flat_map (device_publishes self_name) pack
  = flush_publishes self_name (PyDict.keys pack, batch).
Proof.
  intros (Hnodup & Hheld & _). unfold flush_publishes. cbn [fst snd].
  induction pack as [|[device data] pack IH]; [reflexivity|].
  cbn [PyDict.keys map fst flat_map] in *.
  inversion Hnodup as [|? ? Hnotin Hnodup']; subst.
  rewrite <- (Hheld device data) by (cbn; now rewrite String.eqb_refl).
  f_equal. apply IH; [exact Hnodup'|].
  intros device' data' Hget'. apply Hheld. cbn.
  destruct (String.eqb_spec device device') as [->|_]; [|exact Hget'].
  exfalso. apply Hnotin. now apply (get_some_in _ _ data').
Qed.

(** *** The counter and the batch *)

Lemma counted_batch_within (limit : Z) (batch : list Piece) (size : Z) :
  0 <= limit ->
  counted_batch getsizeof limit batch size ->
  pieces_size getsizeof (tl batch) <= limit.
Proof.
  intros Hlimit (Hsize & Htail & [->|Hlow]); [cbn; lia | lia].
Qed.

Lemma counted_batch_put (limit : Z) (batch : list Piece) (size : Z) (p : Piece) :
  counted_batch getsizeof limit batch size ->
  size + piece_size getsizeof p < limit ->
  counted_batch getsizeof limit (batch ++ [p]) (size + piece_size getsizeof p).
Proof.
  intros (Hsize & Htail & _) Hlow. pose proof (piece_size_nonneg p) as Hp.
  split; [lia|]. split; [|right; lia].
  destruct batch as [|q batch]; cbn [app tl] in *; [cbn; lia|].
  rewrite pieces_size_app. lia.
Qed.

Lemma counted_batch_first (limit : Z) (p : Piece) :
  0 <= limit -> counted_batch getsizeof limit [p] 0.
Proof. intros Hlimit. split; [lia|]. split; [cbn; lia | right; lia]. Qed.

(** *** The flushes *)

Lemma flushes_of_refl (s : Service) : flushes_of getsizeof s [] s.
Proof.
  split; [reflexivity|]. split; [cbn; now rewrite app_nil_r | constructor].
Qed.

Lemma flushes_of_silent (s0 : Service) (flushed : list Flush) (s s' : Service) :
  flushes_of getsizeof s0 flushed s ->
  settings s' = settings s ->
  cloud s' = cloud s ->
  flushes_of getsizeof s0 flushed s'.
Proof.
  intros (Hset & Hcloud & Hall) Hset' Hcloud'.
  split; [congruence|]. split; [congruence | exact Hall].
Qed.

Lemma flushes_of_flush (s0 : Service) (flushed : list Flush) (s s' : Service)
  (f : Flush) :
  flushes_of getsizeof s0 flushed s ->
  settings s' = settings s ->
  cloud s' = cloud s ++ flush_publishes (name (settings s0)) f ->
  within_limit getsizeof (max_payload_size s0) f ->
  flushes_of getsizeof s0 (flushed ++ [f]) s'.
Proof.
  intros (Hset & Hcloud & Hall) Hset' Hcloud' Hwithin.
  split; [congruence|]. split.
  - rewrite Hcloud', Hcloud, flat_map_app. cbn [flat_map].
    now rewrite app_nil_r, app_assoc.
  - apply Forall_app. split; [exact Hall | now constructor].
Qed.

Lemma tracked_flushed (s0 : Service) (done more : list Piece) (s : Service)
  (size : Z) :
  tracked getsizeof s0 done s size ->
  flushed_within getsizeof s0 (done ++ more) s.
Proof.
  intros (flushed & batch & <- & Hflushes & _).
  exists flushed, (batch ++ more). split; [now rewrite app_assoc | exact Hflushes].
Qed.

Lemma flushed_within_more (s0 : Service) (all more : list Piece) (s : Service) :
  flushed_within getsizeof s0 all s ->
  flushed_within getsizeof s0 (all ++ more) s.
Proof.
  intros (flushed & rest & <- & Hflushes).
  exists flushed, (rest ++ more). split; [now rewrite app_assoc | exact Hflushes].
Qed.

Lemma flushed_within_silent (s0 : Service) (all : list Piece) (s s' : Service) :
  flushed_within getsizeof s0 all s ->
  settings s' = settings s ->
  cloud s' = cloud s ->
  flushed_within getsizeof s0 all s'.
Proof.
  intros (flushed & rest & Hall & Hflushes) Hset Hcloud.
  exists flushed, rest. split; [exact Hall|].
  now apply (flushes_of_silent s0 flushed s).
Qed.

Lemma tracked_silent (s0 : Service) (done : list Piece) (s s' : Service)
  (size : Z) :
  tracked getsizeof s0 done s size ->
  settings s' = settings s ->
  cloud s' = cloud s ->
  devices_data_in_event_pack s' = devices_data_in_event_pack s ->
  tracked getsizeof s0 done s' size.
Proof.
  intros (flushed & batch & Hdone & Hflushes & Hholds & Hcount) Hset Hcloud
    Hpack.
  exists flushed, batch. split; [exact Hdone|]. split.
  - now apply (flushes_of_silent s0 flushed s).
  - rewrite Hpack. now split.
Qed.

(** [__send_data] on an accumulator with distinct devices. *)
Lemma send_data_run (s : Service) :
  NoDup (PyDict.keys (devices_data_in_event_pack s)) ->
  exists s',
    __send_data s = (Ok tt, s')
    /\ cloud s'
       = cloud s
         ++ flat_map (device_publishes (name (settings s)))
              (devices_data_in_event_pack s)
    /\ _published_events s'
       = _published_events s
         ++ tokens_for (flat_map (device_publishes (name (settings s)))
                          (devices_data_in_event_pack s))
              (token_outcomes s)
    /\ devices_data_in_event_pack s' = blank (devices_data_in_event_pack s)
    /\ settings s' = settings s.
Proof.
  intros Hnodup. unfold __send_data, try_except. run.
  destruct (send_loop_run (devices_data_in_event_pack s) [] s Hnodup eq_refl)
    as (s' & -> & Hcloud & Htokens & _ & Hpack & _ & Hset).
  exists s'. repeat split; assumption.
Qed.

(** [check_size] after a piece of size [w] was counted: at or above the
    limit the batch goes out in a flush and the next batch is empty;
    below, nothing changes. *)
Lemma check_size_tracked (s0 : Service) (flushed : list Flush)
  (batch : list Piece) (s : Service) (size w : Z) :
  0 <= max_payload_size s0 ->
  flushes_of getsizeof s0 flushed s ->
  holds_batch batch (devices_data_in_event_pack s) ->
  counted_batch getsizeof (max_payload_size s0) batch size ->
  0 <= w ->
  exists r s' flushed' batch',
    check_size (size + w) s = (Ok r, s')
    /\ concat (map snd flushed') ++ batch' = concat (map snd flushed) ++ batch
    /\ flushes_of getsizeof s0 flushed' s'
    /\ holds_batch batch' (devices_data_in_event_pack s')
    /\ keeps_devices s s'
    /\ forall p,
         piece_size getsizeof p = w ->
         counted_batch getsizeof (max_payload_size s0) (batch' ++ [p]) r.
Proof.
  intros Hlimit Hflushes Hholds Hcount Hw.
  assert (Hsame : max_payload_size s = max_payload_size s0).
  { unfold max_payload_size. now rewrite (proj1 Hflushes). }
  unfold check_size. run. rewrite Hsame.
  destruct (Z.geb_spec (size + w) (max_payload_size s0)) as [Hge|Hlt].
  - destruct (send_data_run s (proj1 Hholds))
      as (s' & -> & Hcloud & _ & Hpack & Hset).
    run.
    exists 0, s',
      (flushed ++ [(PyDict.keys (devices_data_in_event_pack s), batch)]), [].
    split; [reflexivity|]. split.
    { rewrite map_app, concat_app. cbn. now rewrite !app_nil_r. }
    split.
    { apply (flushes_of_flush s0 flushed s); [exact Hflushes | exact Hset | |].
      - rewrite Hcloud, (proj1 Hflushes).
        now rewrite (holds_publishes _ batch).
      - split; [|split]; cbn [fst snd].
        + now apply (counted_batch_within _ _ size).
        + exact (proj1 Hholds).
        + intros p Hp. apply contains_in_keys.
          now apply (proj2 (proj2 Hholds)). }
    split; [rewrite Hpack; apply holds_blank; exact (proj1 Hholds)|].
    split.
    { intros device Hdevice. rewrite Hpack. now apply contains_blank. }
    intros p _. now apply counted_batch_first.
  - exists (size + w), s, flushed, batch.
    split; [reflexivity|]. split; [reflexivity|].
    split; [exact Hflushes|]. split; [exact Hholds|].
    split; [apply keeps_devices_refl|].
    intros p <-. now apply counted_batch_put.
Qed.

End BatchFacts.

Section StepFacts.

Variable getsizeof : string -> Z.
Hypothesis getsizeof_header : forall text, 2 <= getsizeof text.

(** *** Steps in sequence *)

Lemma tracks_ret (pre : Service -> Prop) :
  tracks getsizeof pre [] (fun size => ret size).
Proof.
  intros s0 done s size Hlimit Htracked Hpre. unfold ret. cbn [fst snd].
  rewrite app_nil_r. split.
  - rewrite <- (app_nil_r done). now apply (tracked_flushed _ _ _ _ _ size).
  - intros size' [= <-]. now split.
Qed.

Lemma tracks_bind (pre : Service -> Prop) (pieces1 pieces2 : list Piece)
  (m1 m2 : Z -> M Service Z) :
  tracks getsizeof pre pieces1 m1 ->
  tracks getsizeof pre pieces2 m2 ->
  tracks getsizeof pre (pieces1 ++ pieces2)
    (fun size => size' <- m1 size ;; m2 size').
Proof.
  intros H1 H2 s0 done s size Hlimit Htracked Hpre.
  destruct (H1 s0 done s size Hlimit Htracked Hpre) as (F1 & T1).
  unfold bind. rewrite app_assoc.
  destruct (m1 size s) as [[size1|e|] s1]; cbn [fst snd] in *.
  - destruct (T1 size1 eq_refl) as (Htracked1 & Hpre1).
    exact (H2 s0 (done ++ pieces1) s1 size1 Hlimit Htracked1 Hpre1).
  - split; [now apply flushed_within_more | discriminate].
  - split; [now apply flushed_within_more | discriminate].
Qed.

Lemma tracks_fold_sizes {A} (pre : Service -> Prop) (pieces : A -> list Piece)
  (f : Z -> A -> M Service Z) (l : list A) :
  (forall x, In x l -> tracks getsizeof pre (pieces x) (fun size => f size x)) ->
  tracks getsizeof pre (flat_map pieces l) (fun size => fold_sizes l size f).
Proof.
  induction l as [|x l IH]; intros Hall; cbn [flat_map fold_sizes].
  - apply tracks_ret.
  - apply (tracks_bind pre (pieces x) (flat_map pieces l)
             (fun size => f size x) (fun size => fold_sizes l size f)).
    + apply Hall. now left.
    + apply IH. intros y Hy. apply Hall. now right.
Qed.

(** A step that raises at once, having done nothing. *)
Lemma tracks_raise (pre : Service -> Prop) (pieces : list Piece) (e : Exn) :
  tracks getsizeof pre pieces (fun _ => raise e).
Proof.
  intros s0 done s size Hlimit Htracked Hpre. unfold raise. cbn [fst snd].
  split; [now apply (tracked_flushed _ _ _ _ _ size) | discriminate].
Qed.

(** *** One piece *)

(** The size is counted and checked, then the piece is put into the data
    of its device. *)
Lemma check_then_put (p : Piece) (put : M Service unit) :
  (forall s data,
     PyDict.get (devices_data_in_event_pack s) (piece_device p) = Some data ->
     put s
     = (Ok tt,
        with_pack (fun pack => PyDict.set pack (piece_device p)
                                 (put_piece p data)) s)) ->
  tracks getsizeof (has_device (piece_device p)) [p]
    (fun size =>
       size' <- check_size (size + piece_size getsizeof p) ;;
       put ;;; ret size').
Proof.
  intros Hput s0 done s size Hlimit
    (flushed & batch & Hdone & Hflushes & Hholds & Hcount) Hdevice.
  destruct (check_size_tracked getsizeof getsizeof_header s0 flushed batch s
              size (piece_size getsizeof p) Hlimit Hflushes Hholds Hcount
              (piece_size_nonneg getsizeof getsizeof_header p))
    as (r & s1 & flushed1 & batch1 & Hrun & Hcat & Hfl1 & Hh1 & Hk1 & Hc1).
  unfold bind. rewrite Hrun.
  destruct (proj1 (PyDictFacts.contains_get _ _) (Hk1 _ Hdevice))
    as (data & Hget).
  rewrite (Hput s1 data Hget). unfold ret. cbn [fst snd].
  assert (Htracked :
            tracked getsizeof s0 (done ++ [p])
              (with_pack (fun pack => PyDict.set pack (piece_device p)
                                        (put_piece p data)) s1) r).
  { exists flushed1, (batch1 ++ [p]).
    split; [now rewrite app_assoc, Hcat, Hdone|].
    split; [now apply (flushes_of_silent getsizeof s0 flushed1 s1)|].
    split; [fields; now apply holds_put | now apply Hc1]. }
  split.
  - rewrite <- (app_nil_r (done ++ [p])).
    now apply (tracked_flushed getsizeof _ _ _ _ r).
  - intros size' [= <-]. split; [exact Htracked|].
    unfold has_device. fields. apply contains_set_other. now apply Hk1.
Qed.

(** The size is counted and checked, then the step raises. *)
Lemma check_then_raise (pre : Service -> Prop) (w : Z) (e : Exn) :
  0 <= w ->
  tracks getsizeof pre []
    (fun size => size' <- check_size (size + w) ;; raise e).
Proof.
  intros Hw s0 done s size Hlimit
    (flushed & batch & Hdone & Hflushes & Hholds & Hcount) Hpre.
  destruct (check_size_tracked getsizeof getsizeof_header s0 flushed batch s
              size w Hlimit Hflushes Hholds Hcount Hw)
    as (r & s1 & flushed1 & batch1 & Hrun & Hcat & Hfl1 & _).
  unfold bind. rewrite Hrun. unfold raise. cbn [fst snd]. rewrite app_nil_r.
  split; [|discriminate].
  exists flushed1, batch1. split; [now rewrite Hcat, Hdone | exact Hfl1].
Qed.

Lemma fold_telemetry_tracks (device : string) (item : PyVal) :
  tracks getsizeof (has_device device) [telemetry_piece device item]
    (fun size => fold_telemetry getsizeof device size item).
Proof.
  apply (check_then_put (telemetry_piece device item)
           (append_telemetry device item)).
  intros s data Hget. cbn [piece_device] in Hget.
  unfold append_telemetry. run. now rewrite Hget.
Qed.

Lemma fold_attributes_item_tracks (device : string) (item : PyVal) :
  tracks getsizeof (has_device device) (attributes_item_pieces device item)
    (fun size => fold_attributes_item getsizeof device size item).
Proof.
  assert (Hsize : 0 <= getsizeof (py_str item) - 2)
    by (specialize (getsizeof_header (py_str item)); lia).
  destruct item as [| | | | |d|];
    try exact (check_then_raise (has_device device)
                 (getsizeof (py_str _) - 2) _ Hsize).
  apply (check_then_put (attributes_piece device d (py_str (PDict d)))
           (update_attributes device d)).
  intros s data Hget. cbn [piece_device] in Hget.
  unfold update_attributes. run. now rewrite Hget.
Qed.

Lemma fold_attributes_tracks (device : string) (attrs : PyVal) :
  tracks getsizeof (has_device device)
    (match attrs with
     | PDict d => [attributes_piece device d (py_str_items d)]
     | _ => []
     end)
    (fun size => fold_attributes getsizeof device size attrs).
Proof.
  destruct attrs as [| | | | |d|]; try apply tracks_raise.
  apply (check_then_put (attributes_piece device d (py_str_items d))
           (update_attributes device d)).
  intros s data Hget. cbn [piece_device] in Hget.
  unfold update_attributes. run. now rewrite Hget.
Qed.

Lemma flat_map_singleton {A B} (f : A -> B) (l : list A) :
  flat_map (fun x => [f x]) l = map f l.
Proof. induction l as [|x l IH]; cbn; [reflexivity | now rewrite IH]. Qed.

(** The two sections of an event. *)
Lemma fold_sections_tracks (device : string) (current_event : dict PyVal) :
  tracks getsizeof (has_device device)
    (telemetry_pieces device (get_or_None current_event "telemetry")
     ++ attribute_pieces device (get_or_None current_event "attributes"))
    (fun size => fold_sections getsizeof device current_event size).
Proof.
  unfold fold_sections.
  apply (tracks_bind (has_device device)
           (telemetry_pieces device (get_or_None current_event "telemetry"))
           (attribute_pieces device (get_or_None current_event "attributes"))
           (fun size =>
              let t := get_or_None current_event "telemetry" in
              if truthy t then
                match t with
                | PList items =>
                    fold_sizes items size (fold_telemetry getsizeof device)
                | _ => fold_telemetry getsizeof device size t
                end
              else ret size)
           (fun size =>
              let a := get_or_None current_event "attributes" in
              if truthy a then
                match a with
                | PList items =>
                    fold_sizes items size
                      (fold_attributes_item getsizeof device)
                | _ => fold_attributes getsizeof device size a
                end
              else ret size)).
  - cbv zeta. unfold telemetry_pieces.
    destruct (truthy (get_or_None current_event "telemetry"));
      [|apply tracks_ret].
    destruct (get_or_None current_event "telemetry") as [| | | |items| |];
      try apply fold_telemetry_tracks.
    rewrite <- flat_map_singleton.
    apply (tracks_fold_sizes (has_device device)
             (fun item => [telemetry_piece device item])
             (fold_telemetry getsizeof device)).
    intros item _. apply fold_telemetry_tracks.
  - cbv zeta. unfold attribute_pieces.
    destruct (truthy (get_or_None current_event "attributes"));
      [|apply tracks_ret].
    destruct (get_or_None current_event "attributes") as [| | | |items|d|];
      try (match goal with
           | |- tracks _ _ _ (fun size => fold_attributes _ _ size ?a) =>
               exact (fold_attributes_tracks device a)
           end).
    apply (tracks_fold_sizes (has_device device)
             (attributes_item_pieces device)
             (fold_attributes_item getsizeof device)).
    intros item _. apply fold_attributes_item_tracks.
Qed.

End StepFacts.

Section EventFacts.

Variable getsizeof : string -> Z.
Hypothesis getsizeof_header : forall text, 2 <= getsizeof text.

(** The fold of one stored event. *)
Lemma fold_event_tracks (event : Serialized) :
  tracks getsizeof (fun _ => True) (pieces_of_event event)
    (fun size => fold_event getsizeof size event).
Proof.
  intros s0 done s size Hlimit Htracked _.
  set (s1 := with_counter (fun c => c + 1) s).
  assert (T1 : tracked getsizeof s0 done s1 size)
    by now apply (tracked_silent getsizeof s0 done s).
  assert (Hfail : forall e : Exn,
            flushed_within getsizeof s0 (done ++ []) (snd (@Raise Z e, s1))
            /\ forall size',
                 fst (@Raise Z e, s1) = Ok size' ->
                 tracked getsizeof s0 (done ++ []) (snd (@Raise Z e, s1)) size'
                 /\ True).
  { intros e.
    exact (tracks_raise getsizeof (fun _ => True) [] e s0 done s1 size Hlimit
             T1 I). }
  assert (Hsections : forall (device : string) (current_event : dict PyVal)
                             (s2 : Service),
            tracked getsizeof s0 done s2 size ->
            has_device device s2 ->
            let out := fold_sections getsizeof device current_event size s2 in
            flushed_within getsizeof s0
              (done
               ++ telemetry_pieces device (get_or_None current_event "telemetry")
               ++ attribute_pieces device
                    (get_or_None current_event "attributes"))
              (snd out)
            /\ forall size',
                 fst out = Ok size' ->
                 tracked getsizeof s0
                   (done
                    ++ telemetry_pieces device
                         (get_or_None current_event "telemetry")
                    ++ attribute_pieces device
                         (get_or_None current_event "attributes"))
                   (snd out) size'
                 /\ True).
  { intros device current_event s2 T2 Hdevice. cbv zeta.
    destruct (fold_sections_tracks getsizeof getsizeof_header device
                current_event s0 done s2 size Hlimit T2 Hdevice)
      as (F & T).
    split; [exact F|]. intros size' Hsize'.
    split; [exact (proj1 (T size' Hsize')) | exact I]. }
  unfold fold_event, pieces_of_event.
  destruct event as [[| | | | |current_event|]|raw]; cbn [loads]; run;
    try apply Hfail.
  - destruct (PyDict.get current_event "deviceName") as [n|];
      [|apply Hfail].
    unfold as_key.
    destruct n as [| | |device| | |]; run; try apply Hfail.
    fold s1.
    destruct (PyDict.contains (devices_data_in_event_pack s1) device) eqn:Hin;
      cbn [negb]; run.
    + now apply Hsections.
    + apply Hsections.
      * destruct T1 as (flushed & batch & Hdone & Hflushes & Hholds & Hcount).
        exists flushed, batch. split; [exact Hdone|].
        split; [now apply (flushes_of_silent getsizeof s0 flushed s1)|].
        split; [fields; now apply holds_new_device | exact Hcount].
      * unfold has_device. fields. unfold PyDict.contains.
        now rewrite PyDictFacts.get_set_same.
  - unfold log_record. run. cbn [fst snd]. rewrite app_nil_r.
    assert (T2 : tracked getsizeof s0 done
                   (with_log
                      (fun l => l ++ [log_exception (ValueError "JSONDecodeError")])
                      s1) size)
      by now apply (tracked_silent getsizeof s0 done s1).
    split.
    + rewrite <- (app_nil_r done).
      now apply (tracked_flushed getsizeof _ _ _ _ size).
    + intros size' [= <-]. now split.
Qed.

(** The fold of a pack of stored events. *)
Lemma fold_events_tracks (events : list Serialized) :
  tracks getsizeof (fun _ => True) (flat_map pieces_of_event events)
    (fun size => fold_sizes events size (fold_event getsizeof)).
Proof.
  apply (tracks_fold_sizes getsizeof (fun _ => True) pieces_of_event
           (fold_event getsizeof)).
  intros event _. apply fold_event_tracks.
Qed.

End EventFacts.

Section PassFlushes.

Variable getsizeof : string -> Z.
Hypothesis getsizeof_header : forall text, 2 <= getsizeof text.

(** The accumulator goes out in a last flush. *)
Lemma send_data_flushes_all (s0 : Service) (all : list Piece) (s : Service)
  (size : Z) :
  0 <= max_payload_size s0 ->
  tracked getsizeof s0 all s size ->
  exists s' flushed,
    __send_data s = (Ok tt, s')
    /\ concat (map snd flushed) = all
    /\ flushes_of getsizeof s0 flushed s'.
Proof.
  intros Hlimit (flushed & batch & Hdone & Hflushes & Hholds & Hcount).
  destruct (send_data_run s (proj1 Hholds))
    as (s' & Hrun & Hcloud & _ & Hpack & Hset).
  exists s', (flushed ++ [(PyDict.keys (devices_data_in_event_pack s), batch)]).
  split; [exact Hrun|]. split.
  - rewrite map_app, concat_app. cbn. now rewrite !app_nil_r.
  - apply (flushes_of_flush getsizeof s0 flushed s);
      [exact Hflushes | exact Hset | |].
    + rewrite Hcloud, (proj1 Hflushes).
      now rewrite (holds_publishes _ batch).
    + split; [|split]; cbn [fst snd].
      * now apply (counted_batch_within getsizeof _ _ size).
      * exact (proj1 Hholds).
      * intros p Hp. apply contains_in_keys.
        now apply (proj2 (proj2 Hholds)).
Qed.

(** One pass of the worker from an accumulator that holds no data: the
    publishes made are those of flushes within the limit, of pieces that
    open the pieces of the pack, in their order. *)
Lemma pass_flushes (s : Service) :
  0 <= max_payload_size s ->
  holds_nothing (devices_data_in_event_pack s) ->
  flushed_within getsizeof s
    (flat_map pieces_of_event (get_event_pack (_event_storage s)))
    (snd (read_data_from_storage_pass getsizeof s)).
Proof.
  intros Hlimit Hnothing.
  set (all := flat_map pieces_of_event (get_event_pack (_event_storage s))).
  assert (Hstart : flushed_within getsizeof s all s).
  { exists [], all. split; [reflexivity | apply flushes_of_refl]. }
  unfold read_data_from_storage_pass.
  (* the handler of the loop *)
  match goal with
  | |- flushed_within _ _ _ (snd (try_except ?body ?handler s)) =>
      assert (Hbody : flushed_within getsizeof s all (snd (body s)));
      [|unfold try_except;
        destruct (body s) as [[[]|e|] s1]; cbn [snd] in *; try exact Hbody;
        unfold log_record; run;
        destruct (sleep_flags (with_log (fun l => l ++ [log_exception e]) s1))
          as (s2 & -> & S2 & C2 & _);
        cbn [snd]; apply (flushed_within_silent getsizeof s all s1);
        [exact Hbody | exact S2 | exact C2]]
  end.
  assert (Hsleep : forall s0 : Service,
            flushed_within getsizeof s all s0 ->
            flushed_within getsizeof s all (snd (sleep s0))).
  { intros s0 X0. destruct (sleep_flags s0) as (s1 & -> & S1 & C1 & _).
    cbn [snd]. now apply (flushed_within_silent getsizeof s all s0). }
  unfold bind at 1. unfold gets at 1.
  destruct (tb_is_connected s); [|now apply Hsleep].
  unfold bind at 1. unfold gets at 1. unfold bind at 1. unfold gets at 1.
  unfold bind at 1.
  set (size := getsizeof (py_str (pack_value (devices_data_in_event_pack s))) - 2).
  assert (Hsize : 0 <= size)
    by (unfold size;
        specialize (getsizeof_header
                      (py_str (pack_value (devices_data_in_event_pack s))));
        lia).
  assert (Htracked : tracked getsizeof s [] s size).
  { exists [], []. split; [reflexivity|]. split; [apply flushes_of_refl|].
    split; [now apply holds_nothing_holds|].
    split; [exact Hsize|]. split; [cbn; lia | now left]. }
  destruct (remote_config_in_process s); cbn [negb].
  - unfold ret at 1. now apply Hsleep.
  - unfold gets at 1. unfold all in *.
    destruct (get_event_pack (_event_storage s)) as [|event events] eqn:Hpack;
      [now apply Hsleep|].
    fold all in Hstart, Hsleep |- *.
    unfold bind at 1.
    destruct (fold_events_tracks getsizeof getsizeof_header (event :: events)
                s [] s size Hlimit Htracked I)
      as (X1 & C1).
    cbn [app] in X1, C1. fold all in X1, C1.
    destruct (fold_sizes (event :: events) size (fold_event getsizeof) s)
      as [[size1|e|] s1]; cbn [fst snd] in *; try exact X1.
    destruct (C1 size1 eq_refl) as (T1 & _).
    unfold bind at 1. unfold gets at 1. unfold bind at 1.
    assert (Hcommit : forall s0 : Service,
              flushed_within getsizeof s all s0 ->
              flushed_within getsizeof s all (snd (drain_and_commit s0))).
    { intros s0 X0. destruct (drain_and_commit_silent s0) as (S0 & C0).
      now apply (flushed_within_silent getsizeof s all s0). }
    destruct (devices_data_in_event_pack s1) as [|first others] eqn:Hacc.
    + unfold ret at 1. now apply Hcommit.
    + unfold bind at 1. unfold gets at 1.
      destruct (tb_is_connected s1); cbn [negb];
        [|unfold ret at 1; exact X1].
      unfold bind at 1.
      destruct (wait_rpc_reply_sent_flags (schedule s1) s1) as (S2 & C2 & P2).
      destruct (wait_rpc_reply_sent (schedule s1) s1) as [[[]|e|] s2];
        cbn [snd] in *;
        try now apply (flushed_within_silent getsizeof s all s1).
      unfold bind at 1.
      assert (T2 : tracked getsizeof s all s2 size1)
        by now apply (tracked_silent getsizeof s all s1).
      destruct (send_data_flushes_all s all s2 size1 Hlimit T2)
        as (s3 & flushed & -> & Hall & Hflushes).
      unfold bind at 1.
      destruct (sleep_flags s3) as (s4 & -> & S4 & C4 & _).
      unfold ret at 1. apply Hcommit.
      apply (flushed_within_silent getsizeof s all s3); [|exact S4 | exact C4].
      exists flushed, []. split; [now rewrite app_nil_r | exact Hflushes].
Qed.

Lemma flushed_all_silent (s0 : Service) (all : list Piece) (s s' : Service) :
  flushed_all getsizeof s0 all s ->
  settings s' = settings s ->
  cloud s' = cloud s ->
  flushed_all getsizeof s0 all s'.
Proof.
  intros (flushed & Hall & Hflushes) Hset Hcloud.
  exists flushed. split; [exact Hall|].
  now apply (flushes_of_silent getsizeof s0 flushed s).
Qed.

(** The same pass in a calm state over a pack of readable events: every
    piece of the pack goes out. *)
Lemma pass_flushes_all (s : Service) :
  0 <= max_payload_size s ->
  holds_nothing (devices_data_in_event_pack s) ->
  calm s ->
  forallb readable (get_event_pack (_event_storage s)) = true ->
  flushed_all getsizeof s
    (flat_map pieces_of_event (get_event_pack (_event_storage s)))
    (snd (read_data_from_storage_pass getsizeof s)).
Proof.
  intros Hlimit Hnothing Hcalm Hreadable.
  set (all := flat_map pieces_of_event (get_event_pack (_event_storage s))).
  unfold read_data_from_storage_pass.
  match goal with
  | |- flushed_all _ _ _ (snd (try_except ?body ?handler s)) =>
      assert (Hbody : flushed_all getsizeof s all (snd (body s)));
      [|unfold try_except;
        destruct (body s) as [[[]|e|] s1]; cbn [snd] in *; try exact Hbody;
        unfold log_record; run;
        destruct (sleep_flags (with_log (fun l => l ++ [log_exception e]) s1))
          as (s2 & -> & S2 & C2 & _);
        cbn [snd]; apply (flushed_all_silent s all s1);
        [exact Hbody | exact S2 | exact C2]]
  end.
  destruct Hcalm as (Hc & Hp & Hr & Hs) eqn:Hcalm'. clear Hcalm'.
  run. rewrite Hc, Hp. cbn [negb].
  unfold all in *.
  destruct (get_event_pack (_event_storage s)) as [|event events] eqn:Hpack.
  - rewrite (sleep_calm s Hs). cbn [snd flat_map].
    exists []. split; [reflexivity | apply flushes_of_refl].
  - fold all.
    set (size := getsizeof (py_str (pack_value (devices_data_in_event_pack s))) - 2).
    assert (Hsize : 0 <= size)
      by (unfold size;
          specialize (getsizeof_header
                        (py_str (pack_value (devices_data_in_event_pack s))));
          lia).
    assert (Htracked : tracked getsizeof s [] s size).
    { exists [], []. split; [reflexivity|]. split; [apply flushes_of_refl|].
      split; [now apply holds_nothing_holds|].
      split; [exact Hsize|]. split; [cbn; lia | now left]. }
    destruct (fold_events_return getsizeof (name (settings s)) (event :: events)
                Hreadable size s (conj eq_refl (proj1 Hnothing)))
      as (size1 & s1 & Hfold & _).
    pose proof (fold_events_keeps_world getsizeof (event :: events) size s)
      as Hkept1.
    destruct (fold_events_tracks getsizeof getsizeof_header (event :: events)
                s [] s size Hlimit Htracked I)
      as (_ & C1).
    rewrite Hfold in Hkept1, C1 |- *. cbn [fst snd app] in Hkept1, C1.
    fold all in C1.
    destruct (C1 size1 eq_refl) as (T1 & _).
    assert (Hcalm1 : calm s1)
      by (apply (calm_kept s); [exact Hkept1 | now repeat split]).
    assert (Hcommit : forall s0 : Service,
              flushed_all getsizeof s all s0 ->
              flushed_all getsizeof s all (snd (drain_and_commit s0))).
    { intros s0 X0. destruct (drain_and_commit_silent s0) as (S0 & C0).
      now apply (flushed_all_silent s all s0). }
    assert (Hout : forall (r : Res unit) (s0 : Service),
              flushed_all getsizeof s all s0 ->
              flushed_all getsizeof s all
                (snd (match drain_and_commit s0 with
                      | (Ok a, s') => (Ok a, s')
                      | (Raise e, s') => (Raise e, s')
                      | (Hang, s') => (Hang, s')
                      end))).
    { intros _ s0 X0. specialize (Hcommit s0 X0).
      now destruct (drain_and_commit s0) as [[[]|e|] s']. }
    destruct (devices_data_in_event_pack s1) as [|first others] eqn:Hacc.
    + apply Hcommit.
      destruct T1 as (flushed & batch & Hdone & Hflushes & Hholds & _).
      exists flushed. split; [|exact Hflushes].
      destruct batch as [|p batch]; [now rewrite app_nil_r in Hdone|].
      destruct Hholds as (_ & _ & Hin).
      specialize (Hin p (or_introl eq_refl)). rewrite Hacc in Hin.
      discriminate.
    + destruct Hcalm1 as (Hc1 & Hp1 & Hr1 & Hs1) eqn:Hcalm1'. clear Hcalm1'.
      rewrite Hc1. cbn [negb].
      assert (Hwait : wait_rpc_reply_sent (schedule s1) s1 = (Ok tt, s1)).
      { rewrite Hs1. cbn. now rewrite Hr1. }
      rewrite Hwait.
      destruct (send_data_flushes_all s all s1 size1 Hlimit T1)
        as (s2 & flushed & Hsend & Hall & Hflushes).
      pose proof (send_data_keeps_world s1) as Hkept2.
      rewrite Hsend in Hkept2 |- *. cbn [snd] in Hkept2.
      assert (Hcalm2 : calm s2)
        by (apply (calm_kept s1); [exact Hkept2 | now repeat split]).
      rewrite (sleep_calm s2) by apply Hcalm2.
      apply Hcommit. now exists flushed.
Qed.

End PassFlushes.

(** *** What [check_size] does *)

(** [check_size] on any accumulator: at or above the limit the
    accumulator goes out through [__send_data], is left blank, and the
    count returned is 0; below the limit nothing changes. *)
Lemma check_size_sends (size : Z) (s : Service) :
  NoDup (PyDict.keys (devices_data_in_event_pack s)) ->
  exists r s',
    check_size size s = (Ok r, s')
    /\ (max_payload_size s <= size ->
        r = 0
        /\ cloud s'
           = cloud s
             ++ flat_map (device_publishes (name (settings s)))
                  (devices_data_in_event_pack s)
        /\ devices_data_in_event_pack s' = blank (devices_data_in_event_pack s))
    /\ (size < max_payload_size s -> r = size /\ s' = s).
Proof.
  intros Hnodup. unfold check_size. run.
  destruct (Z.geb_spec size (max_payload_size s)) as [Hge|Hlt].
  - destruct (send_data_run s Hnodup) as (s' & -> & Hcloud & _ & Hpack & _).
    run. exists 0, s'. split; [reflexivity|]. split; [now repeat split | lia].
  - exists size, s. split; [reflexivity|]. split; [lia | now split].
Qed.

(** The entry that makes the count reach the limit is appended after the
    flush, which does not carry it, and the count returned is 0: the
    accumulator starts again with that entry uncounted. *)
Lemma fold_telemetry_sends_then_appends (getsizeof : string -> Z)
  (device : string) (size : Z) (item : PyVal) (s : Service) :
  NoDup (PyDict.keys (devices_data_in_event_pack s)) ->
  PyDict.contains (devices_data_in_event_pack s) device = true ->
  max_payload_size s <= size + entry_size getsizeof item ->
  exists s',
    fold_telemetry getsizeof device size item s = (Ok 0, s')
    /\ cloud s'
       = cloud s
         ++ flat_map (device_publishes (name (settings s)))
              (devices_data_in_event_pack s)
    /\ PyDict.get (devices_data_in_event_pack s') device
       = Some (mkDeviceData [item] []).
Proof.
  intros Hnodup Hdevice Hreach. unfold fold_telemetry.
  fold (entry_size getsizeof item). run.
  destruct (check_size_sends (size + entry_size getsizeof item) s Hnodup)
    as (r & s1 & -> & Hflush & _).
  destruct (Hflush Hreach) as (-> & Hcloud & Hpack).
  unfold append_telemetry. run. rewrite Hpack, (get_blank _ _ Hdevice). run.
  eexists. split; [reflexivity|]. fields. rewrite Hpack, Hcloud.
  split; [reflexivity|]. now rewrite PyDictFacts.get_set_same.
Qed.

(** The telemetry a flush publishes for a device was counted among the
    pieces of its batch: it exceeds the limit by no more than the size of
    the first piece of the batch. *)
Lemma flush_telemetry_within (getsizeof : string -> Z) (limit : Z) (f : Flush)
  (device : string) :
  (forall text, 2 <= getsizeof text) ->
  within_limit getsizeof limit f ->
  telemetry_size getsizeof (telemetry (assemble device (snd f)))
  <= limit + match snd f with
             | [] => 0
             | first :: _ => piece_size getsizeof first
             end.
Proof.
  intros Hheader (Htail & _).
  assert (Hle : forall batch,
            telemetry_size getsizeof (telemetry (assemble device batch))
            <= pieces_size getsizeof batch).
  { induction batch as [|p batch IH] using rev_ind; [cbn; lia|].
    rewrite assemble_app, pieces_size_app.
    pose proof (piece_size_nonneg getsizeof Hheader p) as Hp.
    destruct (String.eqb (piece_device p) device); [|lia].
    destruct p as [d item|d items text]; cbn [put_piece telemetry].
    - rewrite telemetry_size_app.
      change (entry_size getsizeof item)
        with (piece_size getsizeof (telemetry_piece d item)).
      lia.
    - lia. }
  specialize (Hle (snd f)).
  destruct (snd f) as [|first batch]; cbn [tl] in Htail.
  - cbn in *. lia.
  - rewrite pieces_size_cons in Hle. lia.
Qed.

(** C6.  [check_size] at or above [maxPayloadSizeBytes] flushes the
    accumulator through [__send_data]: what every device holds is
    published, the accumulator is left blank and the count returned is
    0; below the limit nothing changes.  The entry that triggered the
    flush is appended after it: the flush does not carry it and the count
    does not include it.  So in a pass that starts from an accumulator
    without data, with a limit that is not negative, the publishes are
    those of flushes, each of a batch of pieces (telemetry entries and
    attributes, in the order of the pack) of which all but the first were
    counted for no more than the limit; the first is the piece that
    triggered the flush before.  In a calm state and over readable events
    the batches are all the pieces of the pack.  The telemetry a flush
    publishes for a device so exceeds the limit by no more than the
    counted size of the first piece of the batch. *)
Theorem publishes_within_limit_and_one_entry (getsizeof : string -> Z)
  (s : Service) :
  (forall text, 2 <= getsizeof text) ->
  NoDup (PyDict.keys (devices_data_in_event_pack s)) ->
  let limit := max_payload_size s in
  let held :=
    flat_map (device_publishes (name (settings s)))
      (devices_data_in_event_pack s) in
  let pieces :=
    flat_map pieces_of_event (get_event_pack (_event_storage s)) in
  let after_pass := snd (read_data_from_storage_pass getsizeof s) in
  (forall size,
     exists r s',
       check_size size s = (Ok r, s')
       /\ (limit <= size ->
           r = 0
           /\ cloud s' = cloud s ++ held
           /\ devices_data_in_event_pack s'
              = blank (devices_data_in_event_pack s))
       /\ (size < limit -> r = size /\ s' = s))
  /\ (forall device size item,
        PyDict.contains (devices_data_in_event_pack s) device = true ->
        limit <= size + entry_size getsizeof item ->
        exists s',
          fold_telemetry getsizeof device size item s = (Ok 0, s')
          /\ cloud s' = cloud s ++ held
          /\ PyDict.get (devices_data_in_event_pack s') device
             = Some (mkDeviceData [item] []))
  /\ (0 <= limit ->
      holds_nothing (devices_data_in_event_pack s) ->
      (exists flushed rest,
         concat (map snd flushed) ++ rest = pieces
         /\ cloud after_pass
            = cloud s ++ flat_map (flush_publishes (name (settings s))) flushed
         /\ Forall (within_limit getsizeof limit) flushed)
      /\ (calm s ->
          forallb readable (get_event_pack (_event_storage s)) = true ->
          exists flushed,
            concat (map snd flushed) = pieces
            /\ cloud after_pass
               = cloud s
                 ++ flat_map (flush_publishes (name (settings s))) flushed
            /\ Forall (within_limit getsizeof limit) flushed))
  /\ (forall (f : Flush) (device : string),
        within_limit getsizeof limit f ->
        telemetry_size getsizeof (telemetry (assemble device (snd f)))
        <= limit + match snd f with
                   | [] => 0
                   | first :: _ => piece_size getsizeof first
                   end).
Proof.
  intros Hheader Hnodup. cbv zeta. split; [|split; [|split]].
  - intros size. now apply check_size_sends.
  - intros device size item Hdevice Hreach.
    now apply fold_telemetry_sends_then_appends.
  - intros Hlimit Hnothing. split.
    + destruct (pass_flushes getsizeof Hheader s Hlimit Hnothing)
        as (flushed & rest & Hall & _ & Hcloud & Hwithin).
      now exists flushed, rest.
    + intros Hcalm Hreadable.
      destruct (pass_flushes_all getsizeof Hheader s Hlimit Hnothing Hcalm
                  Hreadable)
        as (flushed & Hall & _ & Hcloud & Hwithin).
      now exists flushed.
  - intros f device Hwithin. now apply flush_telemetry_within.
Qed.

Lemma getsizeof_ascii_header (text : string) : 2 <= getsizeof_ascii text.
Proof. unfold getsizeof_ascii. lia. Defined.

Lemma publishes_within_limit_and_one_entry_witness :
  exists flushed,
    concat (map snd flushed)
    = flat_map pieces_of_event
        (get_event_pack (_event_storage Sample.four_readings))
    /\ cloud (snd (read_data_from_storage_pass getsizeof_ascii
                    Sample.four_readings))
       = cloud Sample.four_readings
         ++ flat_map (flush_publishes (name (settings Sample.four_readings)))
              flushed
    /\ Forall (within_limit getsizeof_ascii 200) flushed.
Proof.
  assert (Hlimit : 0 <= max_payload_size Sample.four_readings)
    by discriminate.
  assert (Hnothing :
            holds_nothing (devices_data_in_event_pack Sample.four_readings))
    by (split; [constructor | discriminate]).
  apply (proj2 (proj1 (proj2 (proj2
           (publishes_within_limit_and_one_entry getsizeof_ascii
              Sample.four_readings getsizeof_ascii_header (NoDup_nil _))))
           Hlimit Hnothing)).
  - repeat split.
  - reflexivity.
Defined.

(** The bound in the wording of the specification, with the entry that
    triggered the flush, does not hold.  The limit is 200 and the pack is
    one event of [d1] with four readings, counted 309, 89, 89 and 89.
    The first makes the count reach the limit while the accumulator is
    still empty; it is appended after that flush, uncounted.  The second
    and third bring the count to 178 with no publish.  The fourth
    triggers the flush that publishes the first three: telemetry counted
    487, above the limit by 287, more than the 89 of the entry that
    triggered the flush.  The same in characters of [str]: 352 against
    200 and 42.

    Nor does a bound hold for a pass that starts from an accumulator with
    data.  With the limit 420 and a pack of one event on whose attributes
    the fold raises, every pass appends the reading of the event again
    and starts its count from the length of the text of the accumulator:
    after six passes nothing is published and the accumulator holds the
    reading six times; the seventh pass publishes the six, counted 534,
    above the limit by more than the 89 of any entry.

    Nor for a limit below zero: with the limit -1 every entry triggers a
    flush, and the one reading of the pack is published alone, counted
    89, above the limit by more than its own 89. *)
Lemma publish_exceeds_limit_by_more_than_trigger :
  max_payload_size Sample.d1_ready = 200
  /\ (exists s',
        fold_sizes [Sample.reading_a; Sample.reading_b; Sample.reading_c] 49
          (fold_telemetry getsizeof_ascii "d1") Sample.d1_ready
        = (Ok 178, s')
        /\ cloud s' = []
        /\ (exists s'',
              fold_telemetry getsizeof_ascii "d1" 178 Sample.reading_d s'
              = (Ok 0, s'')
              /\ cloud s''
                 = [Client.gw_send_telemetry "d1"
                      [Sample.reading_a; Sample.reading_b; Sample.reading_c]]
              /\ PyDict.get (devices_data_in_event_pack s'') "d1"
                 = Some (mkDeviceData [Sample.reading_d] [])))
  /\ cloud (snd (read_data_from_storage_pass getsizeof_ascii Sample.four_readings))
     = [Client.gw_send_telemetry "d1"
          [Sample.reading_a; Sample.reading_b; Sample.reading_c];
        Client.gw_send_telemetry "d1" [Sample.reading_d]]
  /\ telemetry_size getsizeof_ascii
       [Sample.reading_a; Sample.reading_b; Sample.reading_c] = 487
  /\ entry_size getsizeof_ascii Sample.reading_d = 89
  /\ max_payload_size Sample.four_readings
     + entry_size getsizeof_ascii Sample.reading_d
     < publish_size getsizeof_ascii
         (Client.gw_send_telemetry "d1"
            [Sample.reading_a; Sample.reading_b; Sample.reading_c])
  /\ String.length
       (py_str (PList [Sample.reading_a; Sample.reading_b; Sample.reading_c]))
     = 352%nat
  /\ String.length (py_str Sample.reading_d) = 42%nat
  /\ (let six := repeat Sample.reading_b 6 in
      let s := uplink_passes getsizeof_ascii 6 Sample.blocked_pack in
      cloud s = []
      /\ devices_data_in_event_pack s = [("d1", mkDeviceData six [])]
      /\ cloud (snd (read_data_from_storage_pass getsizeof_ascii s))
         = [Client.gw_send_telemetry "d1" six]
      /\ entry_size getsizeof_ascii Sample.reading_b = 89
      /\ max_payload_size s + entry_size getsizeof_ascii Sample.reading_b
         < publish_size getsizeof_ascii (Client.gw_send_telemetry "d1" six))
  /\ max_payload_size Sample.negative_limit = -1
  /\ holds_nothing (devices_data_in_event_pack Sample.negative_limit)
  /\ cloud (snd (read_data_from_storage_pass getsizeof_ascii
                   Sample.negative_limit))
     = [Client.gw_send_telemetry "d1" [Sample.reading_b]]
  /\ max_payload_size Sample.negative_limit
     + entry_size getsizeof_ascii Sample.reading_b
     < publish_size getsizeof_ascii
         (Client.gw_send_telemetry "d1" [Sample.reading_b]).
Proof.
  split; [reflexivity|]. split.
  - exists (snd (fold_sizes
                   [Sample.reading_a; Sample.reading_b; Sample.reading_c] 49
                   (fold_telemetry getsizeof_ascii "d1") Sample.d1_ready)).
    split; [vm_compute; reflexivity|]. split; [vm_compute; reflexivity|].
    exists (snd (fold_telemetry getsizeof_ascii "d1" 178 Sample.reading_d
                   (snd (fold_sizes
                           [Sample.reading_a; Sample.reading_b; Sample.reading_c]
                           49 (fold_telemetry getsizeof_ascii "d1")
                           Sample.d1_ready)))).
    vm_compute. repeat split.
  - vm_compute. repeat split; try constructor; discriminate.
Qed.

(** ** RPC dispatch to the connectors of a type *)

Section BroadcastFacts.

Variable server_side_rpc_handler : Connector -> dict PyVal -> M Service PyVal.

(** X21.  A request for a connector type goes to every loaded connector of
    that type, in the order of [available_connectors]; the result that is
    kept, and from which the reply is made, is that of the last of them:
    what the connectors before it returned is dropped.  Connectors of
    other types are passed over. *)
Theorem broadcast_keeps_the_last_result (module : string)
  (content : dict PyVal) (connectors : dict Connector) :
  forall (result : PyVal),
    (forall connector_name connector (after : dict Connector) s,
       _connector_type connector = module ->
       broadcast server_side_rpc_handler module content
         (connectors ++ (connector_name, connector) :: after) result s
       = (broadcast server_side_rpc_handler module content connectors result ;;;
          result <- server_side_rpc_handler connector content ;;
          broadcast server_side_rpc_handler module content after result) s)
    /\ (forall connector_name connector s,
          _connector_type connector = module ->
          broadcast server_side_rpc_handler module content
            (connectors ++ [(connector_name, connector)]) result s
          = (broadcast server_side_rpc_handler module content connectors result ;;;
             server_side_rpc_handler connector content) s)
    /\ (forall s,
          forallb (fun kv => negb (String.eqb (_connector_type (snd kv)) module))
            connectors = true ->
          broadcast server_side_rpc_handler module content connectors result s
          = (Ok result, s)).
Proof.
  induction connectors as [|[name0 connector0] connectors IH]; intros result.
  - split; [|split].
    + intros connector_name connector after s Htype.
      cbn [app broadcast]. apply String.eqb_eq in Htype. rewrite Htype.
      reflexivity.
    + intros connector_name connector s Htype.
      cbn [app broadcast]. apply String.eqb_eq in Htype. rewrite Htype.
      run. now destruct (server_side_rpc_handler connector content s) as [[?|?|] ?].
    + reflexivity.
  - split; [|split].
    + intros connector_name connector after s Htype. cbn [app broadcast].
      destruct (String.eqb (_connector_type connector0) module).
      * run. destruct (server_side_rpc_handler connector0 content s)
          as [[result0|e|] s0]; try reflexivity.
        rewrite (proj1 (IH result0) connector_name connector after s0 Htype).
        run. reflexivity.
      * rewrite (proj1 (IH result) connector_name connector after s Htype).
        reflexivity.
    + intros connector_name connector s Htype. cbn [app broadcast].
      destruct (String.eqb (_connector_type connector0) module).
      * run. destruct (server_side_rpc_handler connector0 content s)
          as [[result0|e|] s0]; try reflexivity.
        rewrite (proj1 (proj2 (IH result0)) connector_name connector s0 Htype).
        run. reflexivity.
      * rewrite (proj1 (proj2 (IH result)) connector_name connector s Htype).
        reflexivity.
    + intros s Hnone. cbn [forallb snd] in Hnone.
      apply andb_prop in Hnone as [Hfirst Hrest].
      apply negb_true_iff in Hfirst. cbn [broadcast]. rewrite Hfirst.
      now apply (proj2 (proj2 (IH result))).
Qed.

End BroadcastFacts.

Lemma broadcast_keeps_the_last_result_witness :
  broadcast (fun connector _ => ret (PDict [("by", PStr (get_name connector))]))
    "mqtt" [("method", PStr "mqtt_ping")]
    ([("a", mkConnector "a" "mqtt" 1); ("m", mkConnector "m" "modbus" 2)]
     ++ [("b", mkConnector "b" "mqtt" 3)])
    PNone Sample.started
  = (broadcast (fun connector _ => ret (PDict [("by", PStr (get_name connector))]))
       "mqtt" [("method", PStr "mqtt_ping")]
       [("a", mkConnector "a" "mqtt" 1); ("m", mkConnector "m" "modbus" 2)] PNone ;;;
     ret (PDict [("by", PStr "b")])) Sample.started.
Proof.
  apply (proj1 (proj2 (broadcast_keeps_the_last_result
                         (fun connector _ =>
                            ret (PDict [("by", PStr (get_name connector))]))
                         "mqtt" [("method", PStr "mqtt_ping")]
                         [("a", mkConnector "a" "mqtt" 1);
                          ("m", mkConnector "m" "modbus" 2)]
                         PNone))
           "b" (mkConnector "b" "mqtt" 3) Sample.started eq_refl).
Defined.

(** ** The registry across a restart *)

Lemma keys_insert_sorted (k0 v : string) (l : list (string * string)) (k : string) :
  In k (PyDict.keys (insert_sorted k0 v l)) <-> k0 = k \/ In k (PyDict.keys l).
Proof.
  unfold PyDict.keys.
  induction l as [|[k1 v1] l IH]; cbn [insert_sorted map fst In]; [tauto|].
  destruct (String.leb k0 k1); cbn [map fst In]; [tauto|].
  rewrite IH. tauto.
Qed.

Lemma nodup_insert_sorted (k0 v : string) (l : list (string * string)) :
  ~ In k0 (PyDict.keys l) ->
  NoDup (PyDict.keys l) -> NoDup (PyDict.keys (insert_sorted k0 v l)).
Proof.
  induction l as [|[k1 v1] l IH]; intros Hnotin Hnodup;
    cbn [insert_sorted].
  - repeat constructor. tauto.
  - destruct (String.leb k0 k1).
    + now constructor.
    + cbn [PyDict.keys map fst] in *.
      inversion Hnodup as [|? ? Hk1 Hnodup']; subst.
      constructor.
      * fold (PyDict.keys (insert_sorted k0 v l)). rewrite keys_insert_sorted.
        intros [->|Hin]; [apply Hnotin; now left | contradiction].
      * apply IH; [|exact Hnodup']. intros Hin. apply Hnotin. now right.
Qed.

Lemma keys_sort_keys (d : dict string) (k : string) :
  In k (PyDict.keys (sort_keys d)) <-> In k (PyDict.keys d).
Proof.
  induction d as [|[k0 v0] d IH]; [reflexivity|].
  cbn [sort_keys fold_right fst snd]. fold (sort_keys d).
  rewrite keys_insert_sorted, IH. cbn. tauto.
Qed.

Lemma nodup_sort_keys (d : dict string) :
  NoDup (PyDict.keys d) -> NoDup (PyDict.keys (sort_keys d)).
Proof.
  induction d as [|[k0 v0] d IH]; intros Hnodup; [constructor|].
  cbn [PyDict.keys map fst] in Hnodup.
  inversion Hnodup as [|? ? Hnotin Hnodup']; subst.
  cbn [sort_keys fold_right fst snd]. fold (sort_keys d).
  apply nodup_insert_sorted; [|now apply IH].
  now rewrite keys_sort_keys.
Qed.

Lemma nodup_data_to_save (devices : dict DeviceEntry) :
  forall acc d : dict string,
    data_to_save devices acc = Ok d ->
    NoDup (PyDict.keys acc) -> NoDup (PyDict.keys d).
Proof.
  induction devices as [|[device entry] rest IH]; intros acc d Hrun Hnodup.
  - cbn in Hrun. now inversion Hrun; subst.
  - cbn [data_to_save] in Hrun.
    destruct (connector_name_of entry) as [[n|]| |]; try discriminate.
    + apply (IH _ _ Hrun). now apply PackFacts.nodup_set.
    + now apply (IH _ _ Hrun).
Qed.

(** One entry of the file. *)
Lemma load_device_run (device_name connector_name : string) (s : Service) :
  load_device device_name connector_name s
  = (Ok tt,
     match PyDict.get (available_connectors (settings s)) connector_name with
     | Some connector =>
         with_connected_devices
           (fun d => PyDict.set d device_name [("connector", PObj connector)]) s
     | None => s
     end).
Proof.
  unfold load_device. run.
  destruct (PyDict.get (available_connectors (settings s)) connector_name)
    as [connector|] eqn:Hget; run; [|reflexivity].
  now rewrite Hget.
Qed.

(** The loop over the entries of the file. *)
Lemma load_loop_run (doc : list (string * string)) :
  NoDup (PyDict.keys doc) ->
  forall s : Service,
    exists s',
      for_each doc (fun entry => load_device (fst entry) (snd entry)) s
      = (Ok tt, s')
      /\ registry_untouched
           (with_connected_devices (fun _ => __connected_devices s') s) s'
      /\ settings s' = settings s
      /\ _event_storage s' = _event_storage s
      /\ tb_is_connected s' = tb_is_connected s
      /\ forall device,
           PyDict.get (__connected_devices s') device
           = match PyDict.get doc device with
             | Some n =>
                 match PyDict.get (available_connectors (settings s)) n with
                 | Some c => Some [("connector", PObj c)]
                 | None => PyDict.get (__connected_devices s) device
                 end
             | None => PyDict.get (__connected_devices s) device
             end.
Proof.
  induction doc as [|[device0 n0] doc IH]; intros Hnodup s.
  - exists s. cbn. unfold registry_untouched. now repeat split.
  - cbn [PyDict.keys map fst] in Hnodup.
    inversion Hnodup as [|? ? Hnotin Hnodup']; subst.
    cbn [for_each fst snd]. unfold bind. rewrite load_device_run.
    set (s1 := match PyDict.get (available_connectors (settings s)) n0 with
               | Some connector =>
                   with_connected_devices
                     (fun d => PyDict.set d device0 [("connector", PObj connector)]) s
               | None => s
               end).
    assert (Hs1 : settings s1 = settings s
                  /\ _saved_devices s1 = _saved_devices s
                  /\ connected_devices_json s1 = connected_devices_json s
                  /\ file_writes s1 = file_writes s
                  /\ cloud s1 = cloud s
                  /\ _event_storage s1 = _event_storage s
                  /\ tb_is_connected s1 = tb_is_connected s).
    { subst s1. destruct (PyDict.get (available_connectors (settings s)) n0);
        now repeat split. }
    destruct Hs1 as (Hset1 & Hsaved1 & Hfile1 & Hw1 & Hcloud1 & Hst1 & Hc1).
    destruct (IH Hnodup' s1)
      as (s' & -> & (_ & R2 & R3 & R4 & R5) & Hset & Hst & Hc & Hget).
    fields_in R2. fields_in R3. fields_in R4. fields_in R5.
    exists s'. split; [reflexivity|]. unfold registry_untouched. fields.
    repeat match goal with |- _ /\ _ => split end; try congruence.
    intros device. rewrite Hget, Hset1. cbn [PyDict.get].
    destruct (String.eqb_spec device0 device) as [->|Hother].
    + rewrite (PyDictFacts.get_notin doc device Hnotin). subst s1.
      destruct (PyDict.get (available_connectors (settings s)) n0);
        [|reflexivity].
      fields. apply PyDictFacts.get_set_same.
    + assert (Hkeep : PyDict.get (__connected_devices s1) device
                      = PyDict.get (__connected_devices s) device).
      { subst s1. destruct (PyDict.get (available_connectors (settings s)) n0);
          [|reflexivity].
        fields. now apply PyDictFacts.get_set_other. }
      now rewrite Hkeep.
Qed.

(** X22.  What [__save_persistent_devices] wrote, [_load_persistent_devices]
    reads back in a restarted gateway whose connected-devices map is
    empty: a device is bound again exactly when its connector was an
    object and a connector is loaded under that object's name; it is then
    bound to the connector loaded under that name, with no device type.
    Devices whose connector was [None] or is not loaded are not in the
    map. *)
Theorem load_restores_what_save_wrote (s restarted : Service) :
  NoDup (PyDict.keys (__connected_devices s)) ->
  forallb (fun kv => savable (snd kv)) (__connected_devices s) = true ->
  connected_devices_json restarted
  = connected_devices_json (snd (__save_persistent_devices s)) ->
  __connected_devices restarted = [] ->
  exists s',
    _load_persistent_devices restarted = (Ok tt, s')
    /\ forall device,
         PyDict.get (get_devices s') device
         = match live_connector_name (__connected_devices s) device with
           | Some n =>
               match PyDict.get (available_connectors (settings restarted)) n with
               | Some c => Some [("connector", PObj c)]
               | None => None
               end
           | None => None
           end.
Proof.
  intros Hnodup Hsavable Hfile Hempty.
  destruct (data_to_save_savable _ [] Hsavable) as (d & Hd).
  destruct (save_persistent_devices_run s) as (s1 & Hsave & _ & _ & _ & Hf & _).
  rewrite Hsave in Hfile. cbn [snd] in Hfile. rewrite Hf in Hfile.
  unfold registry_file in Hfile. rewrite Hd in Hfile.
  assert (Hdoc : NoDup (PyDict.keys (sort_keys d))).
  { apply nodup_sort_keys. apply (nodup_data_to_save _ _ _ Hd). constructor. }
  destruct (load_loop_run (sort_keys d) Hdoc restarted)
    as (s' & Hloop & _ & _ & _ & _ & Hget).
  exists s'. unfold _load_persistent_devices. run. rewrite Hfile. run.
  split; [exact Hloop|]. intros device. unfold get_devices.
  rewrite Hget, get_sort_keys, (data_to_save_get _ _ _ Hnodup Hd device), Hempty.
  cbn [PyDict.get].
  destruct (live_connector_name (__connected_devices s) device) as [n|];
    [|reflexivity].
  now destruct (PyDict.get (available_connectors (settings restarted)) n).
Qed.

Lemma load_restores_what_save_wrote_witness :
  exists s',
    _load_persistent_devices
      (with_connected_devices (fun _ => [])
         (snd (__save_persistent_devices Sample.with_d1)))
    = (Ok tt, s')
    /\ forall device,
         PyDict.get (get_devices s') device
         = match live_connector_name (__connected_devices Sample.with_d1) device with
           | Some n =>
               match PyDict.get [("c1", Sample.c1); ("c2", Sample.c2)] n with
               | Some c => Some [("connector", PObj c)]
               | None => None
               end
           | None => None
           end.
Proof.
  apply (load_restores_what_save_wrote Sample.with_d1
           (with_connected_devices (fun _ => [])
              (snd (__save_persistent_devices Sample.with_d1)))).
  - vm_compute. repeat constructor; simpl; intuition discriminate.
  - reflexivity.
  - reflexivity.
  - reflexivity.
Defined.

(** X23.  [_load_persistent_devices] fills the connected-devices map only:
    the saved-devices map and the calls on the cloud are as before, so a
    device restored from the file has not been announced; and since the
    ingress registers only devices missing from the connected-devices
    map, an item of a restored device is handled without announcing it
    either. *)
Theorem restored_device_is_not_announced (s : Service) :
  exists s',
    _load_persistent_devices s = (Ok tt, s')
    /\ _saved_devices s' = _saved_devices s
    /\ cloud s' = cloud s
    /\ forall doc device connector_name connector now_ms from data,
         connected_devices_json s = FileJson doc ->
         NoDup (PyDict.keys doc) ->
         PyDict.get doc device = Some connector_name ->
         PyDict.get (available_connectors (settings s)) connector_name
         = Some connector ->
         PyDict.get data "deviceName" = Some (PStr device) ->
         PyDict.get (get_devices s') device = Some [("connector", PObj connector)]
         /\ registry_untouched s' (snd (ingest now_ms from data s')).
Proof.
  unfold _load_persistent_devices. run.
  destruct (connected_devices_json s) as [|doc0] eqn:Hfile.
  - run. cbn [for_each]. run. eexists. split; [reflexivity|]. fields.
    repeat split; discriminate.
  - run.
    assert (Hany : exists s',
              for_each doc0 (fun entry => load_device (fst entry) (snd entry)) s
              = (Ok tt, s')
              /\ _saved_devices s' = _saved_devices s /\ cloud s' = cloud s).
    { clear Hfile. revert s. induction doc0 as [|[device0 n0] doc0 IH]; intros s.
      - exists s. now repeat split.
      - cbn [for_each fst snd]. unfold bind. rewrite load_device_run.
        match goal with
        | |- context [for_each doc0 _ ?s1] =>
            destruct (IH s1) as (s' & -> & Hsaved & Hcloud)
        end.
        exists s'. split; [reflexivity|]. rewrite Hsaved, Hcloud.
        destruct (PyDict.get (available_connectors (settings s)) n0);
          now split. }
    destruct Hany as (s' & Hloop & Hsaved & Hcloud).
    exists s'. split; [exact Hloop|]. split; [exact Hsaved|].
    split; [exact Hcloud|].
    intros doc device connector_name connector now_ms from data
      Hdoc Hnodup Hentry Hconnector Hname.
    inversion Hdoc; subst doc0.
    destruct (load_loop_run doc Hnodup s) as (s2 & Hloop2 & _ & _ & _ & _ & Hget).
    rewrite Hloop in Hloop2. inversion Hloop2; subst s2.
    assert (Hbound : PyDict.get (get_devices s') device
                     = Some [("connector", PObj connector)]).
    { unfold get_devices. now rewrite Hget, Hentry, Hconnector. }
    split; [exact Hbound|].
    destruct (ingest_outcome now_ms from data s')
      as (flow & s3 & -> & _ & _ & _ & _ & Hknown & _).
    apply Hknown. right. exists device. split; [exact Hname|].
    unfold PyDict.contains. now rewrite Hbound.
Qed.

(** ** RPC requests in progress *)

(** Reduces the projections of the gateway applied to its updates. *)
Ltac gateway_fields :=
  cbn [service __sheduled_rpc_calls _rpc_register_queue
       _rpc_requests_in_progress outside with_service with_sheduled_rpc_calls
       with_register_queue with_requests_in_progress with_outside].

(** [cancel_rpc_request] on a request whose content names a target. *)
Lemma cancel_rpc_request_run (topic : string) (data : RpcData)
  (target : option string * Z) (g : Gateway) :
  PyDict.get (_rpc_requests_in_progress g) topic = Some (Pending data) ->
  request_target data = Some target ->
  cancel_rpc_request topic g
  = (Ok tt,
     with_service
       (fun s => set_rpc_reply_sent false
                   (with_cloud (fun l => l ++ [failure_reply target])
                      (set_rpc_reply_sent true s)))
       g).
Proof.
  intros Hget Htarget. unfold cancel_rpc_request, request_content. run.
  rewrite Hget. run. unfold request_target in Htarget.
  destruct (rpc_content data) as [| | | | |content|]; try discriminate.
  cbn [item]. run.
  destruct (PyDict.get content "device") as [[| | |device| | |]|];
    try discriminate;
    destruct (PyDict.get content "data") as [[| | | | |d|]|];
    try discriminate; cbn [item]; run;
    destruct (PyDict.get d "id") as [[| |id| | | |]|]; try discriminate;
    inversion Htarget; subst; unfold as_device, as_req_id; run;
    unfold on_service, send_rpc_reply, tb_call; run; reflexivity.
Qed.

Lemma keys_marked (cur_time : Z) (l : dict InProgress) :
  PyDict.keys (marked cur_time l) = PyDict.keys l.
Proof.
  unfold PyDict.keys, marked. rewrite map_map. apply map_ext.
  intros kv. now destruct (expired cur_time kv).
Qed.

Lemma filter_marked (cur_time : Z) (l : dict InProgress) :
  forallb cancellable l = true ->
  filter (fun kv => negb (is_Del (snd kv))) (marked cur_time l)
  = filter (fun kv => negb (expired cur_time kv)) l.
Proof.
  induction l as [|[topic value] l IH]; intros Hall; [reflexivity|].
  cbn [forallb] in Hall. apply andb_prop in Hall as [Hentry Hrest].
  cbn [marked map filter]. fold (marked cur_time l). rewrite (IH Hrest).
  unfold cancellable in Hentry. cbn [snd] in Hentry.
  destruct value as [data|]; [|discriminate].
  destruct (expired cur_time (topic, Pending data)); reflexivity.
Qed.

(** The loop over the requests in progress not yet visited. *)
Lemma expire_loop_run (cur_time : Z) (rest : dict InProgress) :
  forall (visited : dict InProgress) (g : Gateway),
    NoDup (PyDict.keys (visited ++ rest)) ->
    forallb cancellable rest = true ->
    _rpc_requests_in_progress g = marked cur_time visited ++ rest ->
    exists g',
      for_each rest (expire cur_time) g = (Ok tt, g')
      /\ _rpc_requests_in_progress g' = marked cur_time (visited ++ rest)
      /\ _rpc_register_queue g' = _rpc_register_queue g
      /\ __sheduled_rpc_calls g' = __sheduled_rpc_calls g
      /\ outside g'
         = outside g ++ flat_map cancel_of (filter (expired cur_time) rest)
      /\ cloud (service g')
         = cloud (service g)
           ++ flat_map failure_reply_of (filter (expired cur_time) rest).
Proof.
  induction rest as [|[topic value] rest IH]; intros visited g Hnodup Hall Hpack.
  - exists g. cbn. rewrite !app_nil_r in *. now repeat split.
  - cbn [forallb] in Hall. apply andb_prop in Hall as [Hentry Hrest].
    unfold cancellable in Hentry. cbn [snd] in Hentry.
    destruct value as [data|]; [|discriminate].
    destruct (request_target data) as [target|] eqn:Htarget; [|discriminate].
    assert (Hfresh : ~ In topic (PyDict.keys (marked cur_time visited))).
    { rewrite keys_marked. unfold PyDict.keys in *. rewrite map_app in Hnodup.
      apply NoDup_remove_2 in Hnodup. intros Hin. apply Hnodup.
      apply in_or_app. now left. }
    assert (Hget : PyDict.get (_rpc_requests_in_progress g) topic
                   = Some (Pending data)).
    { rewrite Hpack, PackFacts.get_app_notin by exact Hfresh.
      cbn. now rewrite String.eqb_refl. }
    assert (Hexpired : expired cur_time (topic, Pending data)
                       = (cur_time >=? rpc_timeout data)) by reflexivity.
    cbn [for_each]. unfold bind at 1. cbn [expire filter]. rewrite Hexpired.
    destruct (cur_time >=? rpc_timeout data) eqn:Hdue.
    + run.
      rewrite (cancel_rpc_request_run topic data target (with_outside _ g)
                 Hget Htarget).
      gateway_fields.
      match goal with
      | |- context [for_each rest _ ?g1] =>
          destruct (IH (visited ++ [(topic, Pending data)]) g1)
            as (g' & -> & Hp & Hq & Hs & Ho & Hc)
      end.
      * now rewrite <- app_assoc.
      * exact Hrest.
      * gateway_fields. rewrite Hpack, PackFacts.set_app_notin by exact Hfresh.
        cbn [PyDict.set]. rewrite String.eqb_refl.
        unfold marked. rewrite map_app. cbn [map]. rewrite Hexpired.
        cbn [fst]. now rewrite <- app_assoc.
      * exists g'. split; [reflexivity|]. gateway_fields.
        revert Ho Hc. gateway_fields. fields. intros Ho Hc.
        rewrite Hp, Hq, Hs, Ho, Hc, <- !app_assoc.
        cbn [flat_map cancel_of failure_reply_of snd fst app].
        rewrite Htarget. now repeat split.
    + run.
      destruct (IH (visited ++ [(topic, Pending data)]) g)
        as (g' & -> & Hp & Hq & Hs & Ho & Hc).
      * now rewrite <- app_assoc.
      * exact Hrest.
      * rewrite Hpack. unfold marked. rewrite map_app. cbn [map].
        rewrite Hexpired. now rewrite <- app_assoc.
      * exists g'. split; [reflexivity|].
        rewrite Hp, <- app_assoc. now repeat split.
Qed.

(** One tick on the requests in progress and the register queue. *)
Lemma tick_cancels_expired_and_admits_one_helper (cur_time : Z) (g : Gateway) :
  tb_is_connected (service g) = true ->
  NoDup (PyDict.keys (_rpc_requests_in_progress g)) ->
  forallb cancellable (_rpc_requests_in_progress g) = true ->
  exists g',
    rpc_requests_tick cur_time g = (Ok tt, g')
    /\ _rpc_requests_in_progress g'
       = take_from_queue (_rpc_register_queue g)
           (filter (fun kv => negb (expired cur_time kv))
              (_rpc_requests_in_progress g))
    /\ _rpc_register_queue g' = tl (_rpc_register_queue g)
    /\ outside g'
       = outside g
         ++ flat_map cancel_of
              (filter (expired cur_time) (_rpc_requests_in_progress g))
    /\ cloud (service g')
       = cloud (service g)
         ++ flat_map failure_reply_of
              (filter (expired cur_time) (_rpc_requests_in_progress g)).
Proof.
  intros Hconnected Hnodup Hall. unfold rpc_requests_tick. run.
  rewrite Hconnected, andb_true_r.
  destruct (_rpc_requests_in_progress g) as [|entry in_progress] eqn:Hpack.
  - destruct (_rpc_register_queue g) as [|[topic data] queue] eqn:Hqueue;
      cbn [orb]; run.
    + exists g. cbn. rewrite !app_nil_r. now repeat split.
    + rewrite Hqueue. run. eexists. split; [reflexivity|]. gateway_fields.
      cbn. rewrite !app_nil_r. now repeat split.
  - cbn [orb]. run.
    destruct (expire_loop_run cur_time (entry :: in_progress) [] g Hnodup Hall)
      as (g1 & -> & Hp & Hq & Hs & Ho & Hc); [exact Hpack|].
    run. rewrite Hp. cbn [app]. rewrite (filter_marked cur_time _ Hall), Hq.
    destruct (_rpc_register_queue g) as [|[topic data] queue] eqn:Hqueue; run;
      eexists; (split; [reflexivity|]); gateway_fields;
      rewrite ?Hq, ?Hqueue, Ho, Hc; now repeat split.
Qed.

(** X24.  One tick of the main loop on the RPC requests.  While the cloud
    is disconnected nothing happens, whatever the time: no request is
    cancelled, however long its deadline has passed, and none is taken
    from the register queue.  While it is connected, every request in
    progress whose deadline has come is cancelled, in the order of the map
    (its cancel callback is called on the topic and a reply
    [{"success": false}] is sent on its request id, to the device or to
    the gateway), and it is removed; the others stay; and one request, the
    oldest, is taken from the register queue and put in progress, however
    many are waiting. *)
Theorem tick_cancels_expired_and_admits_one (cur_time : Z) (g : Gateway) :
  (tb_is_connected (service g) = false ->
   rpc_requests_tick cur_time g = (Ok tt, g))
  /\ (tb_is_connected (service g) = true ->
      NoDup (PyDict.keys (_rpc_requests_in_progress g)) ->
      forallb cancellable (_rpc_requests_in_progress g) = true ->
      exists g',
        rpc_requests_tick cur_time g = (Ok tt, g')
        /\ _rpc_requests_in_progress g'
           = take_from_queue (_rpc_register_queue g)
               (filter (fun kv => negb (expired cur_time kv))
                  (_rpc_requests_in_progress g))
        /\ _rpc_register_queue g' = tl (_rpc_register_queue g)
        /\ outside g'
           = outside g
             ++ flat_map cancel_of
                  (filter (expired cur_time) (_rpc_requests_in_progress g))
        /\ cloud (service g')
           = cloud (service g)
             ++ flat_map failure_reply_of
                  (filter (expired cur_time) (_rpc_requests_in_progress g))).
Proof.
  split.
  - intros Hoff. unfold rpc_requests_tick. run.
    now rewrite Hoff, andb_false_r.
  - intros Hconnected Hnodup Hall.
    destruct (tick_cancels_expired_and_admits_one_helper cur_time g Hconnected
                Hnodup Hall) as (g' & Hrun & Hp & Hq & Ho & Hc).
    exists g'. now repeat split.
Qed.

Lemma tick_cancels_expired_and_admits_one_witness :
  exists g',
    rpc_requests_tick 5000
      (mkGateway Sample.started [] 
         [("t3", mkRpcData (PDict [("device", PStr "d3");
                                   ("data", PDict [("id", PInt 3)])])
                   9000 "cancel_c1");
          ("t4", mkRpcData (PDict [("device", PStr "d4");
                                   ("data", PDict [("id", PInt 4)])])
                   9000 "cancel_c1")]
         [("t1", Pending (mkRpcData (PDict [("device", PStr "d1");
                                            ("data", PDict [("id", PInt 1)])])
                            4000 "cancel_c1"));
          ("t2", Pending (mkRpcData (PDict [("device", PNone);
                                            ("data", PDict [("id", PInt 2)])])
                            6000 "cancel_c2"))]
         [])
    = (Ok tt, g')
    /\ _rpc_requests_in_progress g'
       = [("t2", Pending (mkRpcData (PDict [("device", PNone);
                                            ("data", PDict [("id", PInt 2)])])
                            6000 "cancel_c2"));
          ("t3", Pending (mkRpcData (PDict [("device", PStr "d3");
                                            ("data", PDict [("id", PInt 3)])])
                            9000 "cancel_c1"))]
    /\ _rpc_register_queue g'
       = [("t4", mkRpcData (PDict [("device", PStr "d4");
                                   ("data", PDict [("id", PInt 4)])])
                   9000 "cancel_c1")]
    /\ outside g' = [cancel_call "cancel_c1" "t1"]
    /\ cloud (service g')
       = [Client.gw_send_rpc_reply "d1" 1
            (Dumps (PDict [("success", PBool false)])) (PInt 0)].
Proof.
  apply (proj2 (tick_cancels_expired_and_admits_one 5000
           (mkGateway Sample.started []
              [("t3", mkRpcData (PDict [("device", PStr "d3");
                                        ("data", PDict [("id", PInt 3)])])
                        9000 "cancel_c1");
               ("t4", mkRpcData (PDict [("device", PStr "d4");
                                        ("data", PDict [("id", PInt 4)])])
                        9000 "cancel_c1")]
              [("t1", Pending (mkRpcData (PDict [("device", PStr "d1");
                                                 ("data", PDict [("id", PInt 1)])])
                                 4000 "cancel_c1"));
               ("t2", Pending (mkRpcData (PDict [("device", PNone);
                                                 ("data", PDict [("id", PInt 2)])])
                                 6000 "cancel_c2"))]
              []))).
  - reflexivity.
  - vm_compute. repeat constructor; simpl; intuition discriminate.
  - reflexivity.
Defined.

(** [rpc_with_reply_processing] on a request whose content names a
    target. *)
Lemma rpc_with_reply_processing_run (topic : string) (data : RpcData)
  (target : option string * Z) (content : ReplyContent) (g : Gateway) :
  PyDict.get (_rpc_requests_in_progress g) topic = Some (Pending data) ->
  request_target data = Some target ->
  rpc_with_reply_processing topic (Some content) g
  = (Ok tt,
     with_service
       (fun s => set_rpc_reply_sent false
                   (with_cloud (fun l => l ++ [reply_call target content])
                      (set_rpc_reply_sent true s)))
       g).
Proof.
  intros Hget Htarget. unfold rpc_with_reply_processing, request_content. run.
  rewrite Hget. run. unfold request_target in Htarget.
  destruct data as [request timeout cancel_method]. cbn [rpc_content] in *.
  destruct request as [| | | | |request|]; try discriminate.
  cbn [item]. run.
  destruct (PyDict.get request "device") as [[| | |device| | |]|] eqn:Hdevice;
    try discriminate;
    destruct (PyDict.get request "data") as [[| | | | |d|]|];
    try discriminate; cbn [item]; run;
    destruct (PyDict.get d "id") as [[| |id| | | |]|]; try discriminate;
    inversion Htarget; subst; run; rewrite Hget; run;
    cbn [rpc_content item]; run; rewrite Hdevice; run;
    unfold as_device, as_req_id; run;
    unfold on_service, send_rpc_reply, tb_call; run; reflexivity.
Qed.

(** X25.  A reply handed over with [rpc_with_reply_processing] is sent on
    the request id of the registered request, but the request stays in
    progress: when its deadline comes the main loop cancels it all the
    same, so the cloud receives the reply and later, for the same request
    id, the reply [{"success": false}].  A reply for a topic that is not
    in progress, as after the cancellation, raises [KeyError] and sends
    nothing. *)
Theorem answered_request_is_cancelled_at_its_deadline (topic : string)
  (data : RpcData) (target : option string * Z) (content : ReplyContent)
  (cur_time : Z) (g : Gateway) :
  _rpc_requests_in_progress g = [(topic, Pending data)] ->
  _rpc_register_queue g = [] ->
  request_target data = Some target ->
  tb_is_connected (service g) = true ->
  rpc_timeout data <= cur_time ->
  exists g',
    (rpc_with_reply_processing topic (Some content) ;;;
     rpc_requests_tick cur_time) g = (Ok tt, g')
    /\ cloud (service g')
       = cloud (service g) ++ [reply_call target content; failure_reply target]
    /\ outside g' = outside g ++ [cancel_call (rpc_cancel_method data) topic]
    /\ _rpc_requests_in_progress g' = []
    /\ rpc_with_reply_processing topic (Some content) g'
       = (Raise (KeyError topic), g').
Proof.
  intros Hpack Hqueue Htarget Hconnected Hdue.
  assert (Hget : PyDict.get (_rpc_requests_in_progress g) topic
                 = Some (Pending data)).
  { rewrite Hpack. cbn. now rewrite String.eqb_refl. }
  unfold bind.
  rewrite (rpc_with_reply_processing_run topic data target content g Hget Htarget).
  match goal with
  | |- context [rpc_requests_tick cur_time ?g1] =>
      destruct (tick_cancels_expired_and_admits_one_helper cur_time g1)
        as (g' & -> & Hp & Hq & Ho & Hc)
  end.
  - exact Hconnected.
  - gateway_fields. rewrite Hpack. repeat constructor. cbn. tauto.
  - gateway_fields. rewrite Hpack. cbn. unfold cancellable. cbn.
    now rewrite Htarget.
  - assert (Hexpired : expired cur_time (topic, Pending data) = true)
      by (unfold expired; cbn [snd]; now apply Z.geb_le).
    revert Hp Hq Ho Hc. gateway_fields. fields. rewrite Hpack, Hqueue.
    cbn [filter]. rewrite Hexpired.
    cbn [negb take_from_queue flat_map cancel_of failure_reply_of snd fst app tl].
    rewrite Htarget. cbn [app]. intros Hp Hq Ho Hc.
    exists g'. split; [reflexivity|]. rewrite Hc, Ho, Hp, <- app_assoc.
    repeat split.
    unfold rpc_with_reply_processing, request_content. run. now rewrite Hp.
Qed.

Lemma answered_request_is_cancelled_at_its_deadline_witness :
  exists g',
    (rpc_with_reply_processing "t1" (Some (Dumps (PDict [("value", PInt 21)]))) ;;;
     rpc_requests_tick 5000)
      (mkGateway Sample.started [] []
         [("t1", Pending (mkRpcData (PDict [("device", PStr "d1");
                                            ("data", PDict [("id", PInt 1)])])
                            4000 "cancel_c1"))]
         [])
    = (Ok tt, g')
    /\ cloud (service g')
       = [Client.gw_send_rpc_reply "d1" 1 (Dumps (PDict [("value", PInt 21)]))
            (PInt 0);
          Client.gw_send_rpc_reply "d1" 1
            (Dumps (PDict [("success", PBool false)])) (PInt 0)]
    /\ outside g' = [cancel_call "cancel_c1" "t1"]
    /\ _rpc_requests_in_progress g' = []
    /\ rpc_with_reply_processing "t1" (Some (Dumps (PDict [("value", PInt 21)]))) g'
       = (Raise (KeyError "t1"), g').
Proof.
  apply (answered_request_is_cancelled_at_its_deadline "t1"
           (mkRpcData (PDict [("device", PStr "d1");
                              ("data", PDict [("id", PInt 1)])])
              4000 "cancel_c1")
           (Some "d1", 1) (Dumps (PDict [("value", PInt 21)])) 5000
           (mkGateway Sample.started [] []
              [("t1", Pending (mkRpcData (PDict [("device", PStr "d1");
                                                 ("data", PDict [("id", PInt 1)])])
                                 4000 "cancel_c1"))]
              []));
    try reflexivity.
  cbn. lia.
Defined.

(** ** Scheduled calls *)

Section ScheduledFacts.

Variable call_scheduled : ScheduledMethod -> Res PyVal.
Hypothesis call_ends : forall method, call_scheduled method <> Hang.

Lemma length_pop_at {A} (i : nat) (l : list A) :
  (i < length l)%nat -> length (pop_at i l) = (length l - 1)%nat.
Proof.
  intros Hi. unfold pop_at.
  rewrite length_app, length_firstn, length_skipn. lia.
Qed.

Lemma pop_at_middle {A} (before : list A) (x : A) (after : list A) :
  pop_at (length before) (before ++ x :: after) = before ++ after.
Proof.
  unfold pop_at. rewrite firstn_app, Nat.sub_diag, firstn_all. cbn [firstn].
  rewrite app_nil_r. f_equal.
  change (S (length before)) with (1 + length before)%nat.
  rewrite Nat.add_comm, <- skipn_skipn, skipn_app, Nat.sub_diag, skipn_all.
  reflexivity.
Qed.

(** The indices that point at calls whose time has not come are passed
    over. *)
Lemma scan_not_due (cur_time : Z) (indices rest : list nat) (g : Gateway) :
  (forall i, In i indices ->
     exists call, nth_error (__sheduled_rpc_calls g) i = Some call
                  /\ due cur_time call = false) ->
  scan_sheduled_rpc_calls call_scheduled cur_time (indices ++ rest) g
  = scan_sheduled_rpc_calls call_scheduled cur_time rest g.
Proof.
  induction indices as [|i indices IH]; intros Hall; [reflexivity|].
  cbn [app scan_sheduled_rpc_calls].
  destruct (Hall i (or_introl eq_refl)) as ([time method] & -> & Hnot).
  unfold due in Hnot. cbn [fst] in Hnot. rewrite Hnot.
  apply IH. intros j Hj. apply Hall. now right.
Qed.

(** Once the list is shorter than the range, the scan runs out of
    it. *)
Lemma scan_overrun (cur_time : Z) (len : nat) :
  forall (j : nat) (g : Gateway),
    (0 < len)%nat ->
    (length (__sheduled_rpc_calls g) < j + len)%nat ->
    exists i g' more,
      scan_sheduled_rpc_calls call_scheduled cur_time (seq j len) g
      = (ScanIndexError i, g')
      /\ outside g' = outside g ++ more.
Proof.
  induction len as [|len IH]; intros j g Hlen Hshort; [lia|].
  cbn [seq scan_sheduled_rpc_calls].
  destruct (nth_error (__sheduled_rpc_calls g) j) as [[time method]|] eqn:Hnth.
  - assert (Hj : (j < length (__sheduled_rpc_calls g))%nat)
      by (apply nth_error_Some; congruence).
    assert (Hmore : (0 < len)%nat) by lia.
    destruct (cur_time >? time).
    + cbv zeta.
      pose proof (call_ends method) as Hends.
      destruct (call_scheduled method) as [status|e|]; [| |contradiction].
      * match goal with
        | |- context [scan_sheduled_rpc_calls _ _ _ ?g1] =>
            destruct (IH (S j) g1 Hmore) as (i & g' & more & -> & Ho)
        end.
        { gateway_fields. rewrite length_pop_at by exact Hj. lia. }
        exists i, g', (scheduled_call method :: more).
        split; [reflexivity|]. rewrite Ho. gateway_fields.
        now rewrite <- app_assoc.
      * match goal with
        | |- context [scan_sheduled_rpc_calls _ _ _ ?g1] =>
            destruct (IH (S j) g1 Hmore) as (i & g' & more & -> & Ho)
        end.
        { gateway_fields. rewrite length_pop_at by exact Hj. lia. }
        exists i, g', (scheduled_call method :: more).
        split; [reflexivity|]. rewrite Ho. gateway_fields.
        now rewrite <- app_assoc.
    + destruct (IH (S j) g Hmore) as (i & g' & more & -> & Ho); [lia|].
      now exists i, g', more.
  - exists j, g, []. split; [reflexivity | now rewrite app_nil_r].
Qed.

(** X26.  The scan of the scheduled calls goes by the indices of the list
    as it was when the scan began, and takes a call whose time has come
    out of the list before it calls it.  When no call is due the list is
    left as it is.  When the first due call is the last of the list, it
    is called and removed.  When the first due call is not the last, it
    is called and the scan then runs out of the shortened list: it ends
    in [IndexError], which the main loop does not handle but by stopping
    the gateway. *)
Theorem sheduled_scan_outcomes (cur_time : Z) (g : Gateway)
  (before : list (Z * ScheduledMethod)) :
  forallb (fun call => negb (due cur_time call)) before = true ->
  (__sheduled_rpc_calls g = before ->
   run_sheduled_rpc_calls call_scheduled cur_time g = (Scanned, g))
  /\ (forall call,
        __sheduled_rpc_calls g = before ++ [call] ->
        due cur_time call = true ->
        exists g',
          run_sheduled_rpc_calls call_scheduled cur_time g = (Scanned, g')
          /\ __sheduled_rpc_calls g' = before
          /\ outside g' = outside g ++ [scheduled_call (snd call)])
  /\ (forall call after,
        __sheduled_rpc_calls g = before ++ call :: after ->
        due cur_time call = true ->
        after <> [] ->
        exists index g' more,
          run_sheduled_rpc_calls call_scheduled cur_time g
          = (ScanIndexError index, g')
          /\ outside g' = outside g ++ scheduled_call (snd call) :: more).
Proof.
  intros Hbefore.
  assert (Hskip : forall after (rest : list nat),
            __sheduled_rpc_calls g = before ++ after ->
            scan_sheduled_rpc_calls call_scheduled cur_time
              (seq 0 (length before) ++ rest) g
            = scan_sheduled_rpc_calls call_scheduled cur_time rest g).
  { intros after rest Hcalls. apply scan_not_due. intros i Hi.
    apply in_seq in Hi. rewrite Hcalls, nth_error_app1 by lia.
    destruct (nth_error before i) as [call|] eqn:Hnth;
      [|apply nth_error_None in Hnth; lia].
    exists call. split; [reflexivity|].
    rewrite forallb_forall in Hbefore.
    apply nth_error_In in Hnth. apply Hbefore in Hnth.
    now apply negb_true_iff. }
  split; [|split].
  - intros Hcalls. unfold run_sheduled_rpc_calls. rewrite Hcalls.
    rewrite <- (app_nil_r (seq 0 (length before))).
    rewrite (Hskip [] []); [reflexivity | now rewrite app_nil_r].
  - intros [time method] Hcalls Hdue. unfold run_sheduled_rpc_calls.
    assert (Hlength : length (__sheduled_rpc_calls g) = (length before + 1)%nat)
      by (rewrite Hcalls, length_app; reflexivity).
    assert (Hnth : nth_error (__sheduled_rpc_calls g) (length before)
                   = Some (time, method)).
    { rewrite Hcalls, nth_error_app2, Nat.sub_diag by lia. reflexivity. }
    rewrite Hlength, seq_app. cbn [seq Nat.add].
    rewrite (Hskip [(time, method)] _ Hcalls).
    cbn [scan_sheduled_rpc_calls]. rewrite Hnth.
    unfold due in Hdue. cbn [fst] in Hdue. rewrite Hdue. cbv zeta.
    pose proof (call_ends method) as Hends.
    destruct (call_scheduled method) as [status|e|]; [| |contradiction];
      eexists; (split; [reflexivity|]); gateway_fields;
      rewrite Hcalls, pop_at_middle, app_nil_r; now split.
  - intros [time method] after Hcalls Hdue Hafter.
    unfold run_sheduled_rpc_calls.
    assert (Hlength : length (__sheduled_rpc_calls g)
                      = (length before + S (length after))%nat)
      by (rewrite Hcalls, length_app; reflexivity).
    assert (Hnth : nth_error (__sheduled_rpc_calls g) (length before)
                   = Some (time, method)).
    { rewrite Hcalls, nth_error_app2, Nat.sub_diag by lia. reflexivity. }
    rewrite Hlength, seq_app. cbn [seq Nat.add].
    rewrite (Hskip ((time, method) :: after) _ Hcalls).
    cbn [scan_sheduled_rpc_calls]. rewrite Hnth.
    unfold due in Hdue. cbn [fst] in Hdue. rewrite Hdue. cbv zeta.
    assert (Hlen : (0 < length after)%nat) by (destruct after; [contradiction | cbn; lia]).
    pose proof (call_ends method) as Hends.
    destruct (call_scheduled method) as [status|e|]; [| |contradiction].
    + match goal with
      | |- context [scan_sheduled_rpc_calls _ _ _ ?g1] =>
          destruct (scan_overrun cur_time (length after) (S (length before)) g1 Hlen)
            as (i & g' & more & -> & Ho)
      end.
      { gateway_fields. rewrite Hcalls, pop_at_middle, length_app. lia. }
      exists i, g', more. split; [reflexivity|]. rewrite Ho. gateway_fields.
      now rewrite <- app_assoc.
    + match goal with
      | |- context [scan_sheduled_rpc_calls _ _ _ ?g1] =>
          destruct (scan_overrun cur_time (length after) (S (length before)) g1 Hlen)
            as (i & g' & more & -> & Ho)
      end.
      { gateway_fields. rewrite Hcalls, pop_at_middle, length_app. lia. }
      exists i, g', more. split; [reflexivity|]. rewrite Ho. gateway_fields.
      now rewrite <- app_assoc.
Qed.

End ScheduledFacts.

Lemma sheduled_scan_outcomes_witness :
  exists index g' more,
    run_sheduled_rpc_calls (fun _ => Ok (PInt 256)) 2000
      (mkGateway Sample.started [(1000, reboot); (1500, reboot)] [] [] [])
    = (ScanIndexError index, g')
    /\ outside g' = [] ++ scheduled_call reboot :: more.
Proof.
  apply (proj2 (proj2 (sheduled_scan_outcomes (fun _ => Ok (PInt 256))
                         (fun method H => eq_ind (Ok (PInt 256))
                                            (fun r => match r with
                                                      | Hang => False
                                                      | _ => True
                                                      end) I Hang H)
                         2000
                         (mkGateway Sample.started
                            [(1000, reboot); (1500, reboot)] [] [] [])
                         [] eq_refl))
           (1000, reboot) [(1500, reboot)]).
  - reflexivity.
  - reflexivity.
  - discriminate.
Defined.

(** ** The gateway's own methods *)

Section GatewayMethodFacts.

Variable shell_call : string -> list PyVal -> M Gateway PyVal.
Variable _updater_update : M Gateway PyVal.
Variable _updater_get_version : M Gateway PyVal.

(** X27.  A request to the gateway for a scheduled method ([restart] or
    [reboot], once [gateway_] is taken out of the method; no command of
    the remote shell has that name) whose parameter is a number of
    seconds and which carries no timeout is answered with
    [{"success": true}] and put at the end of the list of scheduled calls
    for the time of the request plus that many seconds.  As long as no
    call scheduled before it is due, a scan of the list up to that time
    leaves the list as it is, and a scan after that time takes the call
    out of the list and calls it, once: the scan is then through when
    the function returns or raises, and does not return when the function
    does not, as [execv] when it succeeds. *)
Theorem sheduled_method_runs_after_its_delay
  (call_scheduled : ScheduledMethod -> Res PyVal)
  (now_ms request_id : Z) (content : dict PyVal) (method : string)
  (sheduled : ScheduledMethod) (seconds : Z) (g : Gateway) :
  PyDict.get content "method" = Some (PStr method) ->
  rpc_sheduled_methods_functions (replace "gateway_" EmptyString method)
  = Some sheduled ->
  PyDict.get content "params" = Some (PInt seconds) ->
  is_None (get_or_None content "timeout") = true ->
  no_shell_command (replace "gateway_" EmptyString method) g ->
  exists g1,
    rpc_gateway_processing shell_call _updater_update _updater_get_version
      now_ms request_id content g
    = (Ok (PDict [("success", PBool true)]), g1)
    /\ __sheduled_rpc_calls g1
       = __sheduled_rpc_calls g ++ [(now_ms + seconds * 1000, sheduled)]
    /\ outside g1 = outside g
    /\ (forall cur_time,
          forallb (fun call => negb (due cur_time call))
            (__sheduled_rpc_calls g) = true ->
          (cur_time <= now_ms + seconds * 1000 ->
           run_sheduled_rpc_calls call_scheduled cur_time g1 = (Scanned, g1))
          /\ (now_ms + seconds * 1000 < cur_time ->
              exists g2,
                run_sheduled_rpc_calls call_scheduled cur_time g1
                = (match call_scheduled sheduled with
                   | Hang => ScanNoReturn
                   | _ => Scanned
                   end, g2)
                /\ __sheduled_rpc_calls g2 = __sheduled_rpc_calls g
                /\ outside g2 = outside g ++ [scheduled_call sheduled])).
Proof.
  intros Hmethod Hsheduled Hparams Htimeout Hshell.
  set (time := now_ms + seconds * 1000).
  set (g1 := with_sheduled_rpc_calls (fun l => l ++ [(time, sheduled)]) g).
  assert (Hrun :
            rpc_gateway_processing shell_call _updater_update
              _updater_get_version now_ms request_id content g
            = (Ok (PDict [("success", PBool true)]), g1)).
  { unfold rpc_gateway_processing. run.
    rewrite Hmethod, Hparams, Htimeout. cbn [negb]. run.
    revert Hsheduled Hshell.
    generalize (replace "gateway_" EmptyString method) as method_to_call.
    intros method_to_call Hsheduled Hshell.
    assert (Hown : gateway_rpc_methods method_to_call = None).
    { revert Hsheduled.
      unfold rpc_sheduled_methods_functions, gateway_rpc_methods.
      destruct (String.eqb_spec method_to_call "restart") as [Heq|_];
        [rewrite Heq; reflexivity|].
      destruct (String.eqb_spec method_to_call "reboot") as [Heq|_];
        [rewrite Heq; reflexivity | discriminate]. }
    assert (Hfunction :
              match __remote_shell (settings (service g)) with
              | Some shell_commands =>
                  if existsb (String.eqb method_to_call) shell_commands
                  then Some (shell_command method_to_call)
                  else gateway_rpc_methods method_to_call
              | None => gateway_rpc_methods method_to_call
              end = None).
    { unfold no_shell_command in Hshell.
      destruct (__remote_shell (settings (service g))); [|exact Hown].
      now rewrite Hshell. }
    rewrite Hfunction, Hsheduled.
    unfold sheduled_time. cbn [truthy PyVal_eqb andb negb].
    unfold g1, time.
    destruct (Z.eqb_spec seconds 0) as [->|Hseconds]; cbn [negb]; run.
    - now rewrite Z.add_0_r.
    - reflexivity. }
  exists g1. split; [exact Hrun|]. split; [reflexivity|].
  split; [reflexivity|].
  intros cur_time Hbefore.
  assert (Hskip : forall rest : list nat,
            scan_sheduled_rpc_calls call_scheduled cur_time
              (seq 0 (length (__sheduled_rpc_calls g)) ++ rest) g1
            = scan_sheduled_rpc_calls call_scheduled cur_time rest g1).
  { intros rest. apply scan_not_due. intros i Hi.
    apply in_seq in Hi. unfold g1. gateway_fields.
    rewrite nth_error_app1 by lia.
    destruct (nth_error (__sheduled_rpc_calls g) i) as [call|] eqn:Hnth;
      [|apply nth_error_None in Hnth; lia].
    exists call. split; [reflexivity|].
    rewrite forallb_forall in Hbefore.
    apply nth_error_In in Hnth. apply Hbefore in Hnth.
    now apply negb_true_iff. }
  assert (Hlength : length (__sheduled_rpc_calls g1)
                    = (length (__sheduled_rpc_calls g) + 1)%nat)
    by (unfold g1; gateway_fields; now rewrite length_app).
  assert (Hnth : nth_error (__sheduled_rpc_calls g1)
                   (length (__sheduled_rpc_calls g))
                 = Some (time, sheduled)).
  { unfold g1. gateway_fields.
    rewrite nth_error_app2, Nat.sub_diag by lia. reflexivity. }
  unfold run_sheduled_rpc_calls. rewrite Hlength, seq_app. cbn [seq Nat.add].
  rewrite Hskip. cbn [scan_sheduled_rpc_calls]. rewrite Hnth.
  split.
  - intros Hearly. destruct (Z.gtb_spec cur_time time); [lia | reflexivity].
  - intros Hlate. destruct (Z.gtb_spec cur_time time); [|lia]. cbv zeta.
    destruct (call_scheduled sheduled) as [status|e|];
      eexists; (split; [reflexivity|]); unfold g1; gateway_fields;
      rewrite pop_at_middle, app_nil_r; now split.
Qed.

(** X28.  A request to the gateway whose method, once [gateway_] is taken
    out of it, is none of the gateway's methods, no scheduled method and
    no command of the remote shell.  When it carries no timeout, or its
    parameters are an object or are absent, it is answered with the
    error [Method not found] and the code 404, whatever the parameters
    are; nothing is scheduled and nothing is called.  When it carries a
    timeout and parameters that are no object, the timeout cannot be put
    among them: [AttributeError] is raised before the method is looked
    up, and nothing has changed. *)
Theorem unknown_gateway_method_is_not_found (now_ms request_id : Z)
  (content : dict PyVal) (method : string) (g : Gateway) :
  PyDict.get content "method" = Some (PStr method) ->
  gateway_rpc_methods (replace "gateway_" EmptyString method) = None ->
  rpc_sheduled_methods_functions (replace "gateway_" EmptyString method) = None ->
  no_shell_command (replace "gateway_" EmptyString method) g ->
  (is_None (get_or_None content "timeout") = true
   \/ match PyDict.get content "params" with
      | Some (PDict _) | None => True
      | Some _ => False
      end ->
   rpc_gateway_processing shell_call _updater_update _updater_get_version
     now_ms request_id content g
   = (Ok (PDict [("error", PStr "Method not found"); ("code", PInt 404)]),
      with_service
        (with_log (fun l => l ++ [log_error "RPC method - Not found"])) g))
  /\ (is_None (get_or_None content "timeout") = false ->
      match PyDict.get content "params" with
      | Some (PDict _) | None => False
      | Some _ => True
      end ->
      rpc_gateway_processing shell_call _updater_update _updater_get_version
        now_ms request_id content g
      = (Raise (AttributeError "object has no attribute 'update'"), g)).
Proof.
  intros Hmethod Hown Hsheduled Hshell.
  unfold no_shell_command in Hshell.
  split.
  - intros Hargs. unfold rpc_gateway_processing. run. rewrite Hmethod. run.
    destruct (is_None (get_or_None content "timeout")) eqn:Htimeout;
      cbn [negb]; run.
    + destruct (__remote_shell (settings (service g))) as [shell_commands|];
        rewrite ?Hshell, Hown, Hsheduled; unfold on_service, log_record; run;
        reflexivity.
    + destruct Hargs as [Hargs|Hargs]; [discriminate|].
      unfold get_or_None in Htimeout.
      destruct (PyDict.get content "timeout") as [timeout|] eqn:Hget;
        [|discriminate].
      destruct (PyDict.get content "params") as [[| | | | |d|]|];
        try contradiction; run; rewrite ?Hget; run;
        (destruct (__remote_shell (settings (service g)))
           as [shell_commands|];
         rewrite ?Hshell, Hown, Hsheduled; unfold on_service, log_record;
         run; reflexivity).
  - intros Htimeout Hargs. unfold rpc_gateway_processing. run.
    rewrite Hmethod, Htimeout. cbn [negb]. run.
    destruct (PyDict.get content "params") as [[| | | | |d|]|];
      try contradiction; reflexivity.
Qed.

(** X29.  A request for a scheduled method that carries a [timeout]
    field is refused: the timeout is put among the arguments, which are
    then an object and no number of seconds, and the computation of the
    time raises [TypeError]; nothing is scheduled. *)
Theorem sheduled_method_with_timeout_is_refused (now_ms request_id : Z)
  (content : dict PyVal) (method : string) (sheduled : ScheduledMethod)
  (timeout : PyVal) (g : Gateway) :
  PyDict.get content "method" = Some (PStr method) ->
  rpc_sheduled_methods_functions (replace "gateway_" EmptyString method)
  = Some sheduled ->
  PyDict.get content "params" = None ->
  PyDict.get content "timeout" = Some timeout ->
  is_None timeout = false ->
  no_shell_command (replace "gateway_" EmptyString method) g ->
  rpc_gateway_processing shell_call _updater_update _updater_get_version
    now_ms request_id content g
  = (Raise (TypeError "unsupported operand type(s)"), g).
Proof.
  intros Hmethod Hsheduled Hparams Htimeout Hsome Hshell.
  unfold rpc_gateway_processing, get_or_None. run.
  rewrite Hmethod, Hparams, Htimeout, Hsome. cbn [negb]. run.
  revert Hsheduled Hshell.
  generalize (replace "gateway_" EmptyString method) as method_to_call.
  intros method_to_call Hsheduled Hshell.
  assert (Hown : gateway_rpc_methods method_to_call = None).
  { revert Hsheduled.
    unfold rpc_sheduled_methods_functions, gateway_rpc_methods.
    destruct (String.eqb_spec method_to_call "restart") as [Heq|_];
      [rewrite Heq; reflexivity|].
    destruct (String.eqb_spec method_to_call "reboot") as [Heq|_];
      [rewrite Heq; reflexivity | discriminate]. }
  unfold no_shell_command in Hshell.
  destruct (__remote_shell (settings (service g))) as [shell_commands|];
    rewrite ?Hshell, Hown, Hsheduled; reflexivity.
Qed.

End GatewayMethodFacts.

(** The scheduled functions as they are: [execv] does not return,
    [system("reboot 0")] returns a status, 256 when it is not permitted. *)
Lemma sheduled_method_runs_after_its_delay_witness :
  let call_scheduled (method : ScheduledMethod) : Res PyVal :=
    match method with
    | restart => Hang
    | reboot => Ok (PInt 256)
    end in
  (exists g1,
     rpc_gateway_processing (fun _ _ => ret PNone) (ret PNone) (ret PNone)
       1000 7 [("method", PStr "gateway_reboot"); ("params", PInt 5)]
       (mkGateway Sample.started [] [] [] [])
     = (Ok (PDict [("success", PBool true)]), g1)
     /\ __sheduled_rpc_calls g1 = [(6000, reboot)]
     /\ run_sheduled_rpc_calls call_scheduled 6000 g1 = (Scanned, g1)
     /\ exists g2,
          run_sheduled_rpc_calls call_scheduled 6001 g1 = (Scanned, g2)
          /\ __sheduled_rpc_calls g2 = []
          /\ outside g2 = [scheduled_call reboot])
  /\ (exists g1,
        rpc_gateway_processing (fun _ _ => ret PNone) (ret PNone) (ret PNone)
          1000 7 [("method", PStr "gateway_restart"); ("params", PInt 5)]
          (mkGateway Sample.started [] [] [] [])
        = (Ok (PDict [("success", PBool true)]), g1)
        /\ exists g2,
             run_sheduled_rpc_calls call_scheduled 6001 g1 = (ScanNoReturn, g2)
             /\ __sheduled_rpc_calls g2 = []
             /\ outside g2 = [scheduled_call restart]).
Proof.
  intros call_scheduled. split.
  - destruct (sheduled_method_runs_after_its_delay (fun _ _ => ret PNone)
                (ret PNone) (ret PNone) call_scheduled 1000 7
                [("method", PStr "gateway_reboot"); ("params", PInt 5)]
                "gateway_reboot" reboot 5
                (mkGateway Sample.started [] [] [] [])
                eq_refl eq_refl eq_refl eq_refl I)
      as (g1 & Hrun & Hcalls & _ & Hscan).
    exists g1. split; [exact Hrun|]. split; [exact Hcalls|].
    split.
    + apply (proj1 (Hscan 6000 eq_refl)). vm_compute. discriminate.
    + apply (proj2 (Hscan 6001 eq_refl)). reflexivity.
  - destruct (sheduled_method_runs_after_its_delay (fun _ _ => ret PNone)
                (ret PNone) (ret PNone) call_scheduled 1000 7
                [("method", PStr "gateway_restart"); ("params", PInt 5)]
                "gateway_restart" restart 5
                (mkGateway Sample.started [] [] [] [])
                eq_refl eq_refl eq_refl eq_refl I)
      as (g1 & Hrun & _ & _ & Hscan).
    exists g1. split; [exact Hrun|].
    apply (proj2 (Hscan 6001 eq_refl)). reflexivity.
Defined.

Lemma unknown_gateway_method_is_not_found_witness :
  rpc_gateway_processing (fun _ _ => ret PNone) (ret PNone) (ret PNone)
    1000 7 [("method", PStr "gateway_dance"); ("params", PInt 5)]
    (mkGateway Sample.started [] [] [] [])
  = (Ok (PDict [("error", PStr "Method not found"); ("code", PInt 404)]),
     with_service
       (with_log (fun l => l ++ [log_error "RPC method - Not found"]))
       (mkGateway Sample.started [] [] [] []))
  /\ rpc_gateway_processing (fun _ _ => ret PNone) (ret PNone) (ret PNone)
       1000 7
       [("method", PStr "gateway_dance"); ("params", PInt 5);
        ("timeout", PInt 3)]
       (mkGateway Sample.started [] [] [] [])
     = (Raise (AttributeError "object has no attribute 'update'"),
        mkGateway Sample.started [] [] [] []).
Proof.
  split.
  - apply (proj1 (unknown_gateway_method_is_not_found (fun _ _ => ret PNone)
                    (ret PNone) (ret PNone) 1000 7
                    [("method", PStr "gateway_dance"); ("params", PInt 5)]
                    "gateway_dance"
                    (mkGateway Sample.started [] [] [] [])
                    eq_refl eq_refl eq_refl I)).
    left. reflexivity.
  - apply (proj2 (unknown_gateway_method_is_not_found (fun _ _ => ret PNone)
                    (ret PNone) (ret PNone) 1000 7
                    [("method", PStr "gateway_dance"); ("params", PInt 5);
                     ("timeout", PInt 3)]
                    "gateway_dance"
                    (mkGateway Sample.started [] [] [] [])
                    eq_refl eq_refl eq_refl I)).
    + reflexivity.
    + exact I.
Defined.

Lemma sheduled_method_with_timeout_is_refused_witness :
  rpc_gateway_processing (fun _ _ => ret PNone) (ret PNone) (ret PNone)
    1000 7 [("method", PStr "gateway_reboot"); ("timeout", PInt 500)]
    (mkGateway Sample.started [] [] [] [])
  = (Raise (TypeError "unsupported operand type(s)"),
     mkGateway Sample.started [] [] [] []).
Proof.
  apply (sheduled_method_with_timeout_is_refused (fun _ _ => ret PNone)
           (ret PNone) (ret PNone) 1000 7
           [("method", PStr "gateway_reboot"); ("timeout", PInt 500)]
           "gateway_reboot" reboot (PInt 500)
           (mkGateway Sample.started [] [] [] []));
    try reflexivity; try exact I.
Defined.

(** ** Instances of the general facts *)

Lemma drain_reports_last_token_witness :
  fst (drain_published_events
         ([mkToken (Client.gw_send_telemetry "d1" []) (Returns 1)]
          ++ [mkToken (Client.gw_send_telemetry "d2" []) (Returns TB_ERR_SUCCESS)])
         false Sample.started)
  = Ok true.
Proof.
  apply (drain_reports_last_token
           [mkToken (Client.gw_send_telemetry "d1" []) (Returns 1)]
           (mkToken (Client.gw_send_telemetry "d2" []) (Returns TB_ERR_SUCCESS))
           false Sample.started).
  repeat split.
Defined.

Lemma update_device_writes_before_assigning_witness :
  connected_devices_json
    (snd (update_device "d1" "connector" (PObj Sample.c2) Sample.with_d1))
  = FileJson [("d1", "c1")]
  /\ __connected_devices
       (snd (update_device "d1" "connector" (PObj Sample.c2) Sample.with_d1))
     = [("d1", [("connector", PObj Sample.c2); ("device_type", PStr "sensor")])].
Proof.
  apply (update_device_writes_before_assigning Sample.with_d1 "d1"
           (PObj Sample.c2)
           [("connector", PObj Sample.c1); ("device_type", PStr "sensor")]);
    reflexivity.
Defined.

Lemma unknown_module_gets_404_witness :
  let s :=
    mkService
      (mkSettings Sample.gateway_name [("c1", Sample.c1)]
         [("mqtt", ["mqtt.json"])] (Some ["ls"]) None 1)
      [] [] [] FileEmpty 0 true false false [] [] true
      (mkEventStorage [] 100 10) [] [] 0 [] [] in
  _rpc_request_handler (fun _ _ => ret tt) (fun _ _ => ret PNone)
    (fun _ _ => ret PNone) 7 [("method", PStr "opcua_read")] s
  = (Ok tt,
     set_rpc_reply_sent false
       (with_cloud
          (fun l => l ++
             [Client.send_rpc_reply 7
                (Dumps (PDict
                   [("error",
                     PStr "opcua - connector not found in available connectors.");
                    ("code", PInt 404)]))
                (PInt 0)])
          (set_rpc_reply_sent true
             (with_log (fun l => l ++ [log_error "Connector not found"]) s)))).
Proof.
  intros s.
  apply (unknown_module_gets_404 (fun _ _ => ret tt) (fun _ _ => ret PNone)
           (fun _ _ => ret PNone) 7 [("method", PStr "opcua_read")]
           "opcua_read" ["ls"] s);
    try reflexivity; try exact I; discriminate.
Defined.
